(** * TeamManagement01: daily performance report, webhooks and the
      realtime daily-task list

    A shallow embedding of
    - [dailyPerformanceReportService] (generateDailyReport,
      sendDailyReportToAllUsers, formatReportMessage),
    - [webhookService.sendTaskWebhook] and
      [webhookSettingsService.getWebhookSetting],
    - the realtime handler of the [useDailyTasks] hook, and
    - the PL/pgSQL function [send_daily_performance_report],
    together with the properties stated about them.

    Conventions.  Instants are milliseconds since the epoch, as a JavaScript
    [Date] holds them, in [Z].  Counts are [nat].  Text is [string]; the
    non-ASCII symbols of the digests are kept as their UTF-8 bytes.  Calls
    to [console.log]/[console.error] and [RAISE NOTICE] have no effect on
    any value below and are left out. *)

From Stdlib Require Import List String Ascii ZArith Bool Arith Lia.
From Stdlib Require Import Permutation Sorted DecimalString.
Import ListNotations.

Local Open Scope string_scope.
Local Open Scope list_scope.

(** ** Rows of the hosted store *)

(** Rows are taken with every column present: a NULL status, owner or
    date is outside the model. *)

Record Task := mkTask {
  task_id         : string;
  task_user_id    : string;
  task_status     : string;
  task_due_date   : Z;     (* time value of [new Date(task.due_date)] *)
  task_updated_at : Z
}.

Record DeletedTask := mkDeletedTask {
  del_task_type  : string;
  del_deleted_at : Z
}.

Record UserRow := mkUserRow {
  user_id        : string;
  user_name      : string;
  user_email     : string;
  user_is_active : bool
}.

Record Notification := mkNotification {
  notif_user_id    : string;
  notif_title      : string;
  notif_message    : string;
  notif_type       : string;
  notif_is_read    : bool;
  notif_created_at : Z
}.

(** ** Small list and text helpers *)

Definition count {A} (p : A -> bool) (l : list A) : nat :=
  List.length (filter p l).

Definition sum_by {A} (f : A -> nat) (l : list A) : nat :=
  fold_right (fun x acc => f x + acc) 0 l.

Definition mem_string (s : string) (l : list string) : bool :=
  existsb (String.eqb s) l.

(** [[...new Set(xs)]]: the distinct elements in order of first occurrence. *)
Fixpoint uniq_from (seen : list string) (xs : list string) : list string :=
  match xs with
  | [] => []
  | x :: rest =>
      if mem_string x seen then uniq_from seen rest
      else x :: uniq_from (x :: seen) rest
  end.

Definition uniq (xs : list string) : list string := uniq_from [] xs.

(** [lines.join(sep)] *)
Fixpoint join (sep : string) (lines : list string) : string :=
  match lines with
  | [] => ""
  | [l] => l
  | l :: rest => (l ++ sep ++ join sep rest)%string
  end.

(** Template rendering of a non-negative integer. *)
Definition show_nat (n : nat) : string :=
  NilEmpty.string_of_uint (Nat.to_uint n).

Definition newline : string := String (ascii_of_nat 10) "".

(** ** Calendar *)

Definition ms_per_day : Z := 86400000.

(** Start of the local day of instant [t], for a zone [tz] milliseconds
    east of UTC: [d.setHours(0, 0, 0, 0)]. *)
Definition start_of_day (tz t : Z) : Z :=
  ((t + tz) / ms_per_day) * ms_per_day - tz.

(** [d.setHours(23, 59, 59, 999)] on a date at local midnight. *)
Definition end_of_day (start : Z) : Z := start + 86399999.

(** Civil date of a day number (days since 1970-01-01), proleptic
    Gregorian. *)
Definition civil_from_days (z : Z) : Z * Z * Z :=
  let z := (z + 719468)%Z in
  let era := (z / 146097)%Z in
  let doe := (z - era * 146097)%Z in
  let yoe := ((doe - doe / 1460 + doe / 36524 - doe / 146096) / 365)%Z in
  let y := (yoe + era * 400)%Z in
  let doy := (doe - (365 * yoe + yoe / 4 - yoe / 100))%Z in
  let mp := ((5 * doy + 2) / 153)%Z in
  let d := (doy - (153 * mp + 2) / 5 + 1)%Z in
  let m := (if (mp <? 10)%Z then mp + 3 else mp - 9)%Z in
  ((if (m <=? 2)%Z then y + 1 else y)%Z, m, d).

Definition pad2 (n : Z) : string :=
  let s := show_nat (Z.to_nat n) in
  if (n <? 10)%Z then ("0" ++ s)%string else s.

Definition pad4 (n : Z) : string :=
  let s := show_nat (Z.to_nat n) in
  if (n <? 10)%Z then ("000" ++ s)%string
  else if (n <? 100)%Z then ("00" ++ s)%string
  else if (n <? 1000)%Z then ("0" ++ s)%string else s.

(** [d.toISOString().split('T')[0]]: the UTC calendar date of [t]. *)
Definition iso_date (t : Z) : string :=
  let '(y, m, d) := civil_from_days (t / ms_per_day)%Z in
  (pad4 y ++ "-" ++ pad2 m ++ "-" ++ pad2 d)%string.


(** ** The client's view of the hosted store

    Every [await supabase.from(...)...] is one request.  A request either
    yields rows, yields an error object in the response ([{ data: null,
    error }]), or rejects (the promise throws).  Which of these happens to
    the n-th request of a run is given by the world's [net] oracle; [reqs]
    counts the requests made so far.  [clock] gives the successive readings
    of [new Date()], [ticks] counts them. *)

Definition PgError := string.

Inductive Fault :=
| NoFault
| RespError (e : PgError)
| Reject (e : PgError).

Record World := mkWorld {
  tasks            : list Task;
  deleted_tasks    : list DeletedTask;
  members          : list UserRow;
  admins           : list UserRow;
  project_managers : list UserRow;
  notifications    : list Notification;
  inserted_batches : list (list Notification);  (* [insert] calls issued *)
  clock            : nat -> Z;
  ticks            : nat;
  net              : nat -> Fault;
  reqs             : nat;
  tz               : Z
}.

Record Response (A : Type) := mkResponse {
  data  : option A;
  error : option PgError
}.
Arguments mkResponse {A}.
Arguments data {A}.
Arguments error {A}.

Inductive Result (A : Type) :=
| Ok (a : A)
| Throw (e : PgError).
Arguments Ok {A}.
Arguments Throw {A}.

(** Effectful code: a state [S] is threaded through and an exception may
    be thrown. *)
Definition St (S A : Type) : Type := S -> Result A * S.

Definition M (A : Type) : Type := St World A.

Definition ret {S A} (a : A) : St S A := fun w => (Ok a, w).

Definition bind {S A B} (m : St S A) (k : A -> St S B) : St S B :=
  fun w => match m w with
           | (Ok a, w') => k a w'
           | (Throw e, w') => (Throw e, w')
           end.

Definition throw {S A} (e : PgError) : St S A := fun w => (Throw e, w).

(** [try { m } catch (error) { h error }] *)
Definition try_catch {S A} (m : St S A) (h : PgError -> St S A) : St S A :=
  fun w => match m w with
           | (Ok a, w') => (Ok a, w')
           | (Throw e, w') => h e w'
           end.

Declare Scope m_scope.
Delimit Scope m_scope with M.
Notation "x <- m ;; k" := (bind m (fun x => k))
  (at level 61, m at next level, right associativity) : m_scope.
Local Open Scope m_scope.

(** [new Date()] *)
Definition newDate : M Z :=
  fun w => (Ok (clock w (ticks w)),
            mkWorld (tasks w) (deleted_tasks w) (members w) (admins w)
                    (project_managers w) (notifications w)
                    (inserted_batches w) (clock w) (S (ticks w))
                    (net w) (reqs w) (tz w)).

Definition next_request (w : World) : World :=
  mkWorld (tasks w) (deleted_tasks w) (members w) (admins w)
          (project_managers w) (notifications w) (inserted_batches w)
          (clock w) (ticks w) (net w) (S (reqs w)) (tz w).

(** [await supabase.from(table).select(...).<filters>]: the rows of [table]
    that satisfy the filters, unless the request fails. *)
Definition select {A} (table : World -> list A) (p : A -> bool)
  : M (Response (list A)) :=
  fun w => match net w (reqs w) with
           | NoFault => (Ok (mkResponse (Some (filter p (table w))) None),
                         next_request w)
           | RespError e => (Ok (mkResponse None (Some e)), next_request w)
           | Reject e => (Throw e, next_request w)
           end.

(** [await Promise.all([a, b, c])]: the three requests are all issued; the
    await throws when one of them rejects. *)
Definition promise_all3 {A B C} (a : M A) (b : M B) (c : M C)
  : M (A * B * C) :=
  fun w =>
    let '(ra, w1) := a w in
    let '(rb, w2) := b w1 in
    let '(rc, w3) := c w2 in
    match ra, rb, rc with
    | Ok x, Ok y, Ok z => (Ok (x, y, z), w3)
    | Throw e, _, _ => (Throw e, w3)
    | _, Throw e, _ => (Throw e, w3)
    | _, _, Throw e => (Throw e, w3)
    end.

(** [await supabase.from('notifications').insert(batch)] *)
Definition insert_notifications (batch : list Notification)
  : M (Response unit) :=
  fun w =>
    let log := inserted_batches w ++ [batch] in
    let w' stored :=
      mkWorld (tasks w) (deleted_tasks w) (members w) (admins w)
              (project_managers w) stored log
              (clock w) (ticks w) (net w) (S (reqs w)) (tz w) in
    match net w (reqs w) with
    | NoFault => (Ok (mkResponse (Some tt) None),
                  w' (notifications w ++ batch))
    | RespError e => (Ok (mkResponse None (Some e)), w' (notifications w))
    | Reject e => (Throw e, w' (notifications w))
    end.

(** [resp.data || []] *)
Definition data_or_empty {A} (r : Response (list A)) : list A :=
  match data r with Some l => l | None => [] end.

(** ** JavaScript [Map] with string keys

    Entries are kept in insertion order; [set] on a present key replaces
    the value in place.  An object stored in the map and then mutated
    through the reference returned by [get] is modelled by setting the
    updated object at the same key. *)

Definition JsMap (V : Type) : Type := list (string * V).

Fixpoint map_get {V} (k : string) (m : JsMap V) : option V :=
  match m with
  | [] => None
  | (k', v) :: rest => if String.eqb k' k then Some v else map_get k rest
  end.

Definition map_has {V} (k : string) (m : JsMap V) : bool :=
  match map_get k m with Some _ => true | None => false end.

Fixpoint map_set {V} (k : string) (v : V) (m : JsMap V) : JsMap V :=
  match m with
  | [] => [(k, v)]
  | (k', v') :: rest =>
      if String.eqb k' k then (k, v) :: rest
      else (k', v') :: map_set k v rest
  end.

Definition map_values {V} (m : JsMap V) : list V := map snd m.

(** ** dailyPerformanceReportService *)

Module ByUser.
Record t := mk {
  userId     : string;
  userName   : string;
  userEmail  : string;
  totalTasks : nat;
  completed  : nat;
  pending    : nat;
  blocked    : nat
}.
End ByUser.

Record DailyPerformanceReport := mkReport {
  date           : string;
  totalTasks     : nat;
  pendingTasks   : nat;
  completedTasks : nat;
  blockedTasks   : nat;
  deletedTasks   : nat;
  byUser         : list ByUser.t
}.

Record UserData := mkUserData {
  ud_name  : string;
  ud_email : string
}.

(** [task.status === 'completed'] *)
Definition is_completed (task : Task) : bool :=
  String.eqb (task_status task) "completed".

(** [new Date(task.due_date) < now] *)
Definition is_overdue (now : Z) (task : Task) : bool :=
  (task_due_date task <? now)%Z.

(** The predicate of the [blockedTasks] filter. *)
Definition is_blocked (now : Z) (task : Task) : bool :=
  if is_completed task then false else is_overdue now task.

Definition in_window (lo hi t : Z) : bool :=
  ((lo <=? t) && (t <=? hi))%Z.

(** The entry created at the first task of a user. *)
Definition new_entry (userMap : JsMap UserData) (userId : string)
  : ByUser.t :=
  let userData :=
    match map_get userId userMap with
    | Some u => u
    | None => mkUserData "Unknown" ""
    end in
  ByUser.mk userId (ud_name userData) (ud_email userData) 0 0 0 0.

(** [userStats.totalTasks++] and the status branch that follows it. *)
Definition record_task (now : Z) (task : Task) (userStats : ByUser.t)
  : ByUser.t :=
  let s :=
    ByUser.mk (ByUser.userId userStats) (ByUser.userName userStats)
      (ByUser.userEmail userStats) (S (ByUser.totalTasks userStats))
      (ByUser.completed userStats) (ByUser.pending userStats)
      (ByUser.blocked userStats) in
  if is_completed task then
    ByUser.mk (ByUser.userId s) (ByUser.userName s) (ByUser.userEmail s)
      (ByUser.totalTasks s) (S (ByUser.completed s)) (ByUser.pending s)
      (ByUser.blocked s)
  else
    ByUser.mk (ByUser.userId s) (ByUser.userName s) (ByUser.userEmail s)
      (ByUser.totalTasks s) (ByUser.completed s) (S (ByUser.pending s))
      (if is_overdue now task then S (ByUser.blocked s)
       else ByUser.blocked s).

(** Body of [tasks.forEach(task => ...)] over the per-user map. *)
Definition tally (now : Z) (userMap : JsMap UserData)
    (userBreakdown : JsMap ByUser.t) (task : Task) : JsMap ByUser.t :=
  let userId := task_user_id task in
  let userBreakdown :=
    if map_has userId userBreakdown then userBreakdown
    else map_set userId (new_entry userMap userId) userBreakdown in
  match map_get userId userBreakdown with
  | None => userBreakdown
  | Some userStats =>
      map_set userId (record_task now task userStats) userBreakdown
  end.

Definition build_user_map (users : list UserRow) : JsMap UserData :=
  fold_left
    (fun m user => map_set (user_id user)
                     (mkUserData (user_name user) (user_email user)) m)
    users [].

Definition read_tz : M Z := fun w => (Ok (tz w), w).

Definition generateDailyReport : M DailyPerformanceReport :=
  try_catch
    (now0 <- newDate ;;
     zone <- read_tz ;;
     let today := start_of_day zone now0 in
     let todayEnd := end_of_day today in
     tasksResp <-
       select tasks (fun t => in_window today todayEnd (task_updated_at t)) ;;
     match error tasksResp with
     | Some tasksError => throw tasksError
     | None =>
       deletedResp <-
         select deleted_tasks
           (fun d => String.eqb (del_task_type d) "regular"
                     && in_window today todayEnd (del_deleted_at d)) ;;
       let tasks := data_or_empty tasksResp in
       let deletedTasks := data_or_empty deletedResp in
       let totalTasks := List.length tasks in
       let completedTasks := List.length (filter is_completed tasks) in
       let pendingTasks :=
         List.length (filter (fun t => negb (is_completed t)) tasks) in
       now <- newDate ;;
       let blockedTasks := List.length (filter (is_blocked now) tasks) in
       let userIds := uniq (map task_user_id tasks) in
       let by_id := fun u : UserRow => mem_string (user_id u) userIds in
       fetched <-
         promise_all3 (select members by_id) (select admins by_id)
                      (select project_managers by_id) ;;
       let '(membersData, adminsData, projectManagersData) := fetched in
       let userMap :=
         build_user_map (data_or_empty membersData ++
                         data_or_empty adminsData ++
                         data_or_empty projectManagersData) in
       let userBreakdown := fold_left (tally now userMap) tasks [] in
       ret (mkReport (iso_date today) totalTasks pendingTasks completedTasks
                     blockedTasks (List.length deletedTasks)
                     (map_values userBreakdown))
     end)
    (fun e => throw e).

(** [[...byUser].sort((a, b) => b.completed - a.completed)]: the sort is
    stable, so an entry is placed before the first one with no more
    completed tasks that followed it in the input. *)
Fixpoint insert_by_completed (x : ByUser.t) (l : list ByUser.t)
  : list ByUser.t :=
  match l with
  | [] => [x]
  | y :: rest =>
      if (ByUser.completed x <? ByUser.completed y)%nat
      then y :: insert_by_completed x rest
      else x :: y :: rest
  end.

Definition sort_by_completed (l : list ByUser.t) : list ByUser.t :=
  fold_right insert_by_completed [] l.

Definition performer_line (index : nat) (user : ByUser.t) : string :=
  (show_nat (index + 1) ++ ". " ++ ByUser.userName user ++ ": " ++
   show_nat (ByUser.completed user) ++ "/" ++
   show_nat (ByUser.totalTasks user) ++ " completed")%string.

(** [sortedUsers.forEach((user, index) => lines.push(...))] *)
Fixpoint performer_lines (index : nat) (users : list ByUser.t)
  : list string :=
  match users with
  | [] => []
  | user :: rest => performer_line index user :: performer_lines (S index) rest
  end.

Definition header_lines (report : DailyPerformanceReport) : list string :=
  [ ("📅 Date: " ++ date report)%string;
    "";
    "📈 Overall Performance:";
    ("• Total Tasks Updated: " ++ show_nat (totalTasks report))%string;
    ("• ✅ Completed: " ++ show_nat (completedTasks report))%string;
    ("• ⏳ Pending: " ++ show_nat (pendingTasks report))%string;
    ("• 🚫 Blocked: " ++ show_nat (blockedTasks report))%string;
    ("• 🗑️ Deleted: " ++ show_nat (deletedTasks report))%string;
    "" ].

Definition top_performers (report : DailyPerformanceReport)
  : list ByUser.t :=
  firstn 5 (sort_by_completed (byUser report)).

Definition report_lines (report : DailyPerformanceReport) : list string :=
  header_lines report ++
  (if (0 <? List.length (byUser report))%nat
   then "🏆 Top Performers Today:" ::
        performer_lines 0 (top_performers report)
   else []).

Definition formatReportMessage (report : DailyPerformanceReport) : string :=
  join newline (report_lines report).

(** [allUsers.map(user => ({ ..., created_at: new Date().toISOString() }))] *)
Fixpoint make_notifications (title message : string) (users : list UserRow)
  : M (list Notification) :=
  match users with
  | [] => ret []
  | user :: rest =>
      created <- newDate ;;
      others <- make_notifications title message rest ;;
      ret (mkNotification (user_id user) title message "report" false created
           :: others)
  end.

(** [l.slice(i, j)] *)
Definition slice {A} (i j : nat) (l : list A) : list A :=
  firstn (j - i) (skipn i l).

(** [for (let i = start; i < notifications.length; i += batchSize) { ... }]
    with at most [fuel] iterations; an error response of an insert is only
    logged. *)
Fixpoint insert_batches (fuel i batchSize : nat)
    (notifications : list Notification) : M unit :=
  match fuel with
  | 0 => ret tt
  | S fuel' =>
      if (i <? List.length notifications)%nat then
        _resp <- insert_notifications (slice i (i + batchSize) notifications) ;;
        insert_batches fuel' (i + batchSize) batchSize notifications
      else ret tt
  end.

Definition report_title (report : DailyPerformanceReport) : string :=
  ("📊 Daily Performance Report - " ++ date report)%string.

Definition sendDailyReportToAllUsers : M unit :=
  try_catch
    (report <- generateDailyReport ;;
     fetched <-
       promise_all3 (select members user_is_active)
                    (select project_managers user_is_active)
                    (select admins user_is_active) ;;
     let '(membersData, projectManagersData, adminsData) := fetched in
     let allUsers := data_or_empty membersData ++
                     data_or_empty projectManagersData ++
                     data_or_empty adminsData in
     let reportMessage := formatReportMessage report in
     notifications <-
       make_notifications (report_title report) reportMessage allUsers ;;
     let batchSize := 100 in
     insert_batches (List.length notifications) 0 batchSize notifications)
    (fun e => throw e).

(** ** webhookSettingsService and webhookService *)

Module Webhook.

Record SettingValue := mkSettingValue {
  enabled : bool;
  url     : string
}.

Record WebhookSetting := mkWebhookSetting {
  id            : string;
  setting_key   : string;
  setting_value : option SettingValue;   (* a JSON column; [None] is null *)
  description   : string;
  created_at    : Z;
  updated_at    : Z
}.

Record HttpResponse := mkHttpResponse {
  status : nat;
  ok     : bool
}.

Inductive FetchOutcome :=
| Resolved (response : HttpResponse)
| Rejected (e : PgError).

Inductive Json :=
| JUndefined
| JString (s : string)
| JNumber (n : Z)
| JInstant (t : Z).      (* the ISO-8601 text of an instant *)

Definition Payload := list (string * Json).

(** The browser's side of a webhook dispatch: the settings table and how
    its one read fares, the clock, what a POST to each URL meets, and the
    POSTs made so far. *)
Record Env := mkEnv {
  webhook_settings : list WebhookSetting;
  settings_fault   : Fault;
  fetch_outcome    : string -> FetchOutcome;
  env_clock        : nat -> Z;
  env_ticks        : nat;
  posts            : list (string * Payload)
}.

Definition newDate : St Env Z :=
  fun env => (Ok (env_clock env (env_ticks env)),
              mkEnv (webhook_settings env) (settings_fault env)
                    (fetch_outcome env) (env_clock env)
                    (S (env_ticks env)) (posts env)).

(** [await supabase.from('webhook_settings').select('*')
      .eq('setting_key', key).maybeSingle()] *)
Definition select_setting (key : string)
  : St Env (Response WebhookSetting) :=
  fun env =>
    match settings_fault env with
    | Reject e => (Throw e, env)
    | RespError e => (Ok (mkResponse None (Some e)), env)
    | NoFault =>
        match filter (fun r => String.eqb (setting_key r) key)
                     (webhook_settings env) with
        | [] => (Ok (mkResponse None None), env)
        | [row] => (Ok (mkResponse (Some row) None), env)
        | _ => (Ok (mkResponse None (Some "multiple rows returned")), env)
        end
    end.

Definition default_url : string :=
  "https://n8nautomation.site/webhook/9f329008-2786-495e-9efd-61975bb46186".

Definition default_setting : St Env WebhookSetting :=
  (created <- newDate ;;
   updated <- newDate ;;
   ret (mkWebhookSetting "" "task_webhook_enabled"
          (Some (mkSettingValue true default_url))
          "Task webhook notifications" created updated))%M.

(** The result type is [WebhookSetting | null]: [None] is null. *)
Definition getWebhookSetting : St Env (option WebhookSetting) :=
  try_catch
    (resp <- select_setting "task_webhook_enabled" ;;
     match error resp with
     | Some _ => d <- default_setting ;; ret (Some d)
     | None =>
         match data resp with
         | None => d <- default_setting ;; ret (Some d)
         | Some row => ret (Some row)
         end
     end)%M
    (fun _ => d <- default_setting ;; ret (Some d))%M.

Inductive EventType :=
| task_created | task_updated | task_deleted
| daily_task_created | daily_task_updated | daily_task_deleted.

Record TaskWebhookData := mkTaskWebhookData {
  d_id               : Json;
  d_task_name        : Json;
  d_description      : Json;
  d_status           : Json;
  d_old_status       : Json;
  d_priority         : Json;
  d_user_name        : Json;
  d_user_email       : Json;
  d_created_by_name  : Json;
  d_created_by_email : Json;
  d_updated_by_name  : Json;
  d_updated_by_email : Json;
  d_project_name     : Json;
  d_due_date         : Json;
  d_progress         : Json;
  d_task_date        : Json;
  d_event_type       : EventType;
  d_deleted_by_name  : Json;
  d_deleted_by_email : Json;
  d_created_at       : Json;
  d_updated_at       : Json
}.

Definition event_name (e : EventType) : string :=
  match e with
  | task_created => "task_created"
  | task_updated => "task_updated"
  | task_deleted => "task_deleted"
  | daily_task_created => "daily_task_created"
  | daily_task_updated => "daily_task_updated"
  | daily_task_deleted => "daily_task_deleted"
  end.

Definition webhookPayload (d : TaskWebhookData) (timestamp : Z)
  : Payload :=
  [ ("task_id", d_id d); ("task_name", d_task_name d);
    ("description", d_description d); ("status", d_status d);
    ("priority", d_priority d); ("assigned_to_name", d_user_name d);
    ("assigned_to_email", d_user_email d);
    ("project_name", d_project_name d); ("due_date", d_due_date d);
    ("task_date", d_task_date d); ("progress", d_progress d);
    ("event_type", JString (event_name (d_event_type d)));
    ("created_at", d_created_at d); ("updated_at", d_updated_at d);
    ("timestamp", JInstant timestamp);
    ("source", JString "team_management_system") ] ++
  match d_event_type d with
  | task_created | daily_task_created =>
      [ ("created_by", d_created_by_name d);
        ("created_by_email", d_created_by_email d) ]
  | task_updated | daily_task_updated =>
      [ ("old_status", d_old_status d); ("new_status", d_status d);
        ("updated_by", d_updated_by_name d);
        ("updated_by_email", d_updated_by_email d) ]
  | task_deleted | daily_task_deleted =>
      [ ("deleted_by", d_deleted_by_name d);
        ("deleted_by_email", d_deleted_by_email d) ]
  end.

(** [await fetch(url, { method: 'POST', ..., body })] *)
Definition fetch_post (target : string) (body : Payload)
  : St Env HttpResponse :=
  fun env =>
    let env' := mkEnv (webhook_settings env) (settings_fault env)
                      (fetch_outcome env) (env_clock env) (env_ticks env)
                      (posts env ++ [(target, body)]) in
    match fetch_outcome env target with
    | Resolved response => (Ok response, env')
    | Rejected e => (Throw e, env')
    end.

(** [!url]: the empty string is falsy. *)
Definition is_empty (s : string) : bool :=
  match s with EmptyString => true | _ => false end.

Definition sendTaskWebhook (d : TaskWebhookData) : St Env bool :=
  try_catch
    (webhookSetting <- getWebhookSetting ;;
     match webhookSetting with
     | None => ret false
     | Some setting =>
         match setting_value setting with
         | None => ret false
         | Some value =>
             if negb (enabled value) then ret false
             else
               let webhookUrl := url value in
               if is_empty webhookUrl then ret false
               else
                 timestamp <- newDate ;;
                 response <- fetch_post webhookUrl
                               (webhookPayload d timestamp) ;;
                 if ok response then ret true else ret false
         end
     end)%M
    (fun _ => ret false).

(** The [setting_value] that getWebhookSetting hands to its caller. *)
Definition configured (env : Env) : option SettingValue :=
  match fst (getWebhookSetting env) with
  | Ok (Some setting) => setting_value setting
  | _ => None
  end.

End Webhook.

(** ** The PL/pgSQL function send_daily_performance_report *)

Module Sql.

(** A row of webhook_settings as this function reads it. *)
Record WebhookRow := mkWebhookRow {
  id         : Z;
  url        : option string;     (* [None] is NULL *)
  is_enabled : option bool
}.

Record Db := mkDb {
  tasks            : list Task;
  deleted_tasks    : list DeletedTask;
  members          : list UserRow;
  project_managers : list UserRow;
  admins           : list UserRow;
  notifications    : list Notification;
  webhook_settings : list WebhookRow
}.

Record Metrics := mkMetrics {
  total_tasks_count : nat;
  completed_count   : nat;
  pending_count     : nat;
  blocked_count     : nat;
  deleted_count     : nat
}.




(** [today_start + interval '1 day' - interval '1 second'] *)
Definition today_end (today_start : Z) : Z :=
  (today_start + 86400000 - 1000)%Z.

Definition updated_between (lo hi : Z) (t : Task) : bool :=
  ((lo <=? task_updated_at t) && (task_updated_at t <=? hi))%Z.

(** The five [SELECT COUNT( * ) INTO ...] statements, at transaction time
    [now] in a session [zone] milliseconds east of UTC. *)
Definition count_metrics (zone now : Z) (d : Db) : Metrics :=
  let today_start := start_of_day zone now in
  let today_end := today_end today_start in
  mkMetrics
    (count (updated_between today_start today_end) (tasks d))
    (count (fun t => updated_between today_start today_end t
                     && String.eqb (task_status t) "completed") (tasks d))
    (count (fun t => updated_between today_start today_end t
                     && negb (String.eqb (task_status t) "completed"))
           (tasks d))
    (count (fun t => updated_between today_start today_end t
                     && negb (String.eqb (task_status t) "completed")
                     && (task_due_date t <? now)%Z) (tasks d))
    (count (fun r => ((today_start <=? del_deleted_at r)
                      && (del_deleted_at r <=? today_end))%Z
                     && String.eqb (del_task_type r) "regular")
           (deleted_tasks d)).


Definition report_message (date : string) (m : Metrics) : string :=
  ("📅 Date: " ++ date ++ newline ++ newline ++
   "📈 Overall Performance:" ++ newline ++
   "• Total Tasks Updated: " ++ show_nat (total_tasks_count m) ++ newline ++
   "• ✅ Completed: " ++ show_nat (completed_count m) ++ newline ++
   "• ⏳ Pending: " ++ show_nat (pending_count m) ++ newline ++
   "• 🚫 Blocked: " ++ show_nat (blocked_count m) ++ newline ++
   "• 🗑️ Deleted: " ++ show_nat (deleted_count m) ++ newline ++ newline ++
   "Check the dashboard for detailed breakdown by team member.")%string.

Definition report_title (date : string) : string :=
  ("📊 Daily Performance Report - " ++ date)%string.



Definition default_url : string :=
  "https://n8nautomation.site/webhook/024b9c20-7772-46f1-89cf-00ed7bf00c43".




End Sql.

(** ** The useDailyTasks hook: initial fetch and realtime changes *)

Module Hook.

Record DailyTask := mkDailyTask {
  id          : string;
  user_id     : string;
  status      : string;
  task_date   : string;
  priority    : string;
  project_id  : option string;
  task_name   : string;
  description : option string
}.

(** A filter is a string or undefined. *)
Record DailyTaskFilters := mkFilters {
  f_status   : option string;
  f_member   : option string;
  f_date     : option string;
  f_priority : option string;
  f_project  : option string;
  f_search   : option string
}.

Record AuthUser := mkAuthUser {
  auth_id   : string;
  auth_role : string
}.

(** [if (filters.x)]: undefined and the empty string are falsy. *)
Definition given (f : option string) : option string :=
  match f with
  | Some EmptyString => None
  | other => other
  end.

Definition lower_ascii (c : ascii) : ascii :=
  let n := nat_of_ascii c in
  if ((65 <=? n) && (n <=? 90))%nat then ascii_of_nat (n + 32) else c.

(** [s.toLowerCase()] on ASCII text. *)
Fixpoint toLowerCase (s : string) : string :=
  match s with
  | EmptyString => EmptyString
  | String c rest => String (lower_ascii c) (toLowerCase rest)
  end.

(** [hay.includes(needle)] *)
Fixpoint includes (needle hay : string) : bool :=
  String.prefix needle hay
  || match hay with
     | EmptyString => false
     | String _ rest => includes needle rest
     end.

(** SQL [LIKE]: [%] matches any run of characters, [_] any one character,
    a backslash takes the next pattern character literally. *)
Fixpoint like (pattern subject : string) : bool :=
  match pattern with
  | EmptyString => match subject with EmptyString => true | _ => false end
  | String "%" rest =>
      (fix star (s : string) : bool :=
         like rest s
         || match s with
            | EmptyString => false
            | String _ s' => star s'
            end) subject
  | String "_" rest =>
      match subject with
      | EmptyString => false
      | String _ s' => like rest s'
      end
  | String "\" (String c rest) =>
      match subject with
      | EmptyString => false
      | String d s' => Ascii.eqb c d && like rest s'
      end
  | String c rest =>
      match subject with
      | EmptyString => false
      | String d s' => Ascii.eqb c d && like rest s'
      end
  end.

(** [column.ilike.%search%] *)
Definition ilike_contains (search subject : string) : bool :=
  like (toLowerCase ("%" ++ search ++ "%")) (toLowerCase subject).



Definition eq_filter (f : option string) (value : string) : bool :=
  match given f with
  | Some wanted => String.eqb value wanted
  | None => true
  end.

(** The rows the query of fetchTasks selects: every given filter as an
    equality, the search as a case-insensitive pattern on the name or the
    description, and the owner's rows only unless the user is an admin or
    a project manager.  The search text is taken free of the characters
    PostgREST reserves inside [or(...)]. *)
Definition fetch_selects (filters : DailyTaskFilters) (user : AuthUser)
    (t : DailyTask) : bool :=
  eq_filter (f_status filters) (status t)
  && eq_filter (f_member filters) (user_id t)
  && eq_filter (f_date filters) (task_date t)
  && eq_filter (f_priority filters) (priority t)
  && match given (f_project filters) with
     | Some wanted =>
         match project_id t with
         | Some p => String.eqb p wanted
         | None => false
         end
     | None => true
     end
  && match given (f_search filters) with
     | Some search =>
         ilike_contains search (task_name t)
         || match description t with
            | Some d => ilike_contains search d
            | None => false
            end
     | None => true
     end
  && (if negb (String.eqb (auth_role user) "admin")
         && negb (String.eqb (auth_role user) "project_manager")
      then String.eqb (user_id t) (auth_id user)
      else true).

(** The [shouldInclude] computation shared by the INSERT and UPDATE
    handlers. *)
Definition shouldInclude (filters : DailyTaskFilters) (user : AuthUser)
    (task : DailyTask) : bool :=
  let differs (f : option string) (value : string) : bool :=
    match given f with
    | Some wanted => negb (String.eqb value wanted)
    | None => false
    end in
  let shouldInclude := true in
  let shouldInclude :=
    if differs (f_status filters) (status task) then false
    else shouldInclude in
  let shouldInclude :=
    if differs (f_member filters) (user_id task) then false
    else shouldInclude in
  let shouldInclude :=
    if differs (f_date filters) (task_date task) then false
    else shouldInclude in
  let shouldInclude :=
    if differs (f_priority filters) (priority task) then false
    else shouldInclude in
  let shouldInclude :=
    match given (f_search filters) with
    | Some search =>
        let searchLower := toLowerCase search in
        let matchesSearch :=
          includes searchLower (toLowerCase (task_name task))
          || match description task with
             | Some EmptyString | None => false
             | Some d => includes searchLower (toLowerCase d)
             end in
        if negb matchesSearch then false else shouldInclude
    | None => shouldInclude
    end in
  let shouldInclude :=
    if negb (String.eqb (auth_role user) "admin")
       && negb (String.eqb (user_id task) (auth_id user))
    then false else shouldInclude in
  shouldInclude.

Inductive Change :=
| INSERT (new_id : string)
| UPDATE (new_id : string)
| DELETE (old_id : string).

(** [.eq('id', id).single()] against the table: the row when exactly one
    matches and the request succeeds. *)
Definition fetchCompleteTask (table : list DailyTask) (fails : bool)
    (wanted : string) : option DailyTask :=
  if fails then None
  else match filter (fun t => String.eqb (id t) wanted) table with
       | [row] => Some row
       | _ => None
       end.

Definition same_id (task other : DailyTask) : bool :=
  String.eqb (id other) (id task).

(** [newTasks[taskIndex] = updatedTask] at the first task with that id. *)
Fixpoint replace_first (updatedTask : DailyTask) (prevTasks : list DailyTask)
  : list DailyTask :=
  match prevTasks with
  | [] => []
  | task :: rest =>
      if same_id updatedTask task then updatedTask :: rest
      else task :: replace_first updatedTask rest
  end.

(** The [postgres_changes] callback, as the function from the previous
    [tasks] state to the next one. *)
Definition on_change (filters : DailyTaskFilters) (user : AuthUser)
    (table : list DailyTask) (fails : bool) (change : Change)
    (prevTasks : list DailyTask) : list DailyTask :=
  match change with
  | INSERT new_id =>
      match fetchCompleteTask table fails new_id with
      | None => prevTasks
      | Some newTask =>
          if existsb (same_id newTask) prevTasks then prevTasks
          else if shouldInclude filters user newTask
               then newTask :: prevTasks
               else prevTasks
      end
  | UPDATE new_id =>
      match fetchCompleteTask table fails new_id with
      | None => prevTasks
      | Some updatedTask =>
          if negb (existsb (same_id updatedTask) prevTasks) then prevTasks
          else if shouldInclude filters user updatedTask
               then replace_first updatedTask prevTasks
               else filter (fun task => negb (same_id updatedTask task))
                           prevTasks
      end
  | DELETE old_id =>
      filter (fun task => negb (String.eqb (id task) old_id)) prevTasks
  end.

Definition project_filter : DailyTaskFilters :=
  mkFilters None None None None (Some "p1") None.

Definition admin_user : AuthUser := mkAuthUser "u1" "admin".

Definition other_project_task : DailyTask :=
  mkDailyTask "d1" "u2" "pending" "2025-01-18" "medium" (Some "p2")
              "Write report" None.

Definition moved_task_before : DailyTask :=
  mkDailyTask "d1" "u2" "pending" "2025-01-18" "medium" (Some "p1")
              "Write report" None.

End Hook.

(** ** Reading a run of the report service

    Names for what a run reads and leaves behind, used to state the
    properties below. *)

(** The world after [dt] more clock readings and [dr] more requests. *)
Definition advance (dt dr : nat) (w : World) : World :=
  mkWorld (tasks w) (deleted_tasks w) (members w) (admins w)
          (project_managers w) (notifications w) (inserted_batches w)
          (clock w) (dt + ticks w) (net w) (dr + reqs w) (tz w).

Definition today_of (w : World) : Z :=
  start_of_day (tz w) (clock w (ticks w)).

Definition updated_today (w : World) : list Task :=
  filter (fun t => in_window (today_of w) (end_of_day (today_of w))
                             (task_updated_at t))
         (tasks w).

Definition deleted_today (w : World) : list DeletedTask :=
  filter (fun d => String.eqb (del_task_type d) "regular"
                   && in_window (today_of w) (end_of_day (today_of w))
                                (del_deleted_at d))
         (deleted_tasks w).

(** An instant of the current day: 00:00:00.000 through 23:59:59.999 of
    the day of the run's first clock reading. *)
Definition in_today (w : World) (t : Z) : bool :=
  ((today_of w <=? t) && (t <=? today_of w + 86399999))%Z.

(** The second reading of the clock is the report's "now". *)
Definition report_now (w : World) : Z := clock w (S (ticks w)).

Definition owned_by (u : string) (t : Task) : bool :=
  String.eqb (task_user_id t) u.

(** What one task does to the entry of user [u], seen from outside the
    map. *)
Definition entry_step (now : Z) (userMap : JsMap UserData) (u : string)
    (o : option ByUser.t) (t : Task)
  : option ByUser.t :=
  if owned_by u t then
    Some (record_task now t
            (match o with Some s => s | None => new_entry userMap u end))
  else o.

(** Entry [s] is [base] with the tasks of [u] in [ts] added to it. *)
Definition tallied (now : Z) (u : string) (ts : list Task)
    (base s : ByUser.t)
  : Prop :=
  ByUser.userId s = ByUser.userId base /\
  ByUser.userName s = ByUser.userName base /\
  ByUser.userEmail s = ByUser.userEmail base /\
  ByUser.totalTasks s = ByUser.totalTasks base + count (owned_by u) ts /\
  ByUser.completed s =
    ByUser.completed base
    + count (fun t => owned_by u t && is_completed t) ts /\
  ByUser.pending s =
    ByUser.pending base
    + count (fun t => owned_by u t && negb (is_completed t)) ts /\
  ByUser.blocked s =
    ByUser.blocked base
    + count (fun t => owned_by u t && is_blocked now t) ts.

Definition more_completed (a b : ByUser.t) : Prop :=
  ByUser.completed b <= ByUser.completed a.

(** What a read of the active rows of [table] yields as request [slot]. *)
Definition active_read (w : World) (slot : nat) (table : list UserRow)
  : list UserRow :=
  match net w slot with
  | NoFault => filter user_is_active table
  | _ => []
  end.

(** The users the three reads of a run hand to the fan-out; the five
    requests before them are those of generateDailyReport. *)
Definition recipients (w : World) : list UserRow :=
  active_read w (5 + reqs w) (members w) ++
  active_read w (6 + reqs w) (project_managers w) ++
  active_read w (7 + reqs w) (admins w).

Fixpoint built (title message : string) (clk : nat -> Z) (k : nat)
    (users : list UserRow) : list Notification :=
  match users with
  | [] => []
  | user :: rest =>
      mkNotification (user_id user) title message "report" false (clk k)
      :: built title message clk (S k) rest
  end.

Fixpoint batches_of (fuel i size : nat) (ns : list Notification)
  : list (list Notification) :=
  match fuel with
  | 0 => []
  | S fuel' =>
      if (i <? List.length ns)%nat
      then slice i (i + size) ns :: batches_of fuel' (i + size) size ns
      else []
  end.

(** The rows of the batches whose insert, issued as requests [slot],
    [slot + 1], ..., was accepted. *)
Fixpoint stored (faults : nat -> Fault) (slot : nat)
    (batches : list (list Notification)) : list Notification :=
  match batches with
  | [] => []
  | b :: rest =>
      match faults slot with NoFault => b | _ => [] end
      ++ stored faults (S slot) rest
  end.

(** ** Sample data *)

Definition day0 : Z := 1737158400000.   (* 2025-01-18T00:00:00.000Z *)

Definition sample_tasks : list Task :=
  [ mkTask "t1" "alice" "completed" (day0 - 5) (day0 + 1000);
    mkTask "t2" "alice" "in_progress" (day0 - 5) (day0 + 2000);
    mkTask "t3" "bob" "pending" (day0 + 86400000) (day0 + 3000);
    mkTask "t4" "carol" "pending" (day0 - 5) (day0 - 1) ].

Definition sample_deleted : list DeletedTask :=
  [ mkDeletedTask "regular" (day0 + 10);
    mkDeletedTask "daily" (day0 + 20);
    mkDeletedTask "regular" (day0 - 20) ].

Definition sample_world (faults : nat -> Fault) : World :=
  mkWorld sample_tasks sample_deleted
    [ mkUserRow "alice" "Alice" "alice@example.org" true;
      mkUserRow "dave" "Dave" "dave@example.org" false ]
    [ mkUserRow "root" "Root" "root@example.org" true ]
    [ mkUserRow "bob" "Bob" "bob@example.org" true ]
    [] []
    (fun _ => (day0 + 40000000)%Z) 0 faults 0 0.

Definition no_faults : nat -> Fault := fun _ => NoFault.

Definition sample_report : DailyPerformanceReport :=
  mkReport "2025-01-18" 3 2 1 1 1
    [ ByUser.mk "alice" "Alice" "alice@example.org" 2 1 1 1;
      ByUser.mk "bob" "Bob" "bob@example.org" 1 0 1 0 ].


Definition members_read_fails : nat -> Fault :=
  fun n => if Nat.eqb n 5 then RespError "permission denied" else NoFault.

Definition db_of (w : World) (settings : list Sql.WebhookRow) : Sql.Db :=
  Sql.mkDb (tasks w) (deleted_tasks w) (members w) (project_managers w)
           (admins w) (notifications w) settings.

Definition last_second_world : World :=
  mkWorld [ mkTask "t1" "alice" "completed" day0 (day0 + 86399500) ]
          [] [] [] [] [] []
          (fun _ => (day0 + 86399900)%Z) 0 no_faults 0 0.
(** * Further parts of the code *)

(** ** The ids a realtime change leaves in the state *)

(** [task.id !== wanted] *)
Definition other_than (wanted : string) (i : string) : bool :=
  negb (String.eqb i wanted).

(** ** dailyPerformanceReportService.getUserDailyReport *)



(** ** Who the report names

    The rows the three name lookups of generateDailyReport bring back, in
    the order in which they are put into the user map; a lookup that
    returns an error brings back none. *)

Definition name_read (w : World) (slot : nat) (table : list UserRow)
    (userIds : list string) : list UserRow :=
  match net w slot with
  | NoFault => filter (fun u => mem_string (user_id u) userIds) table
  | _ => []
  end.

Definition named_users (w : World) : list UserRow :=
  let userIds := uniq (map task_user_id (updated_today w)) in
  name_read w (2 + reqs w) (members w) userIds ++
  name_read w (3 + reqs w) (admins w) userIds ++
  name_read w (4 + reqs w) (project_managers w) userIds.

(** The last row with a given id: the one a later [userMap.set] leaves in
    the map. *)
Definition last_with_id (userId : string) (users : list UserRow)
  : option UserRow :=
  find (fun u => String.eqb (user_id u) userId) (rev users).

(** The rows of [table] when the read issued as request [slot] succeeds. *)
Definition table_read (w : World) (slot : nat) (table : list UserRow)
  : list UserRow :=
  match net w slot with
  | NoFault => table
  | _ => []
  end.

(** The row whose name a report entry shows for [userId]: a project
    manager before an admin before a member, each the last such row of its
    table. *)
Definition resolve_user (w : World) (userId : string) : option UserRow :=
  match last_with_id userId
          (table_read w (4 + reqs w) (project_managers w)) with
  | Some u => Some u
  | None =>
      match last_with_id userId (table_read w (3 + reqs w) (admins w)) with
      | Some u => Some u
      | None => last_with_id userId (table_read w (2 + reqs w) (members w))
      end
  end.

(** The sample data seen from a browser in a zone 5 h 30 min east of UTC,
    at 10:00 local time on 2025-01-18. *)
Definition east_world : World :=
  mkWorld sample_tasks sample_deleted [] [] [] [] []
    (fun _ => (day0 + 16200000)%Z) 0 no_faults 0 19800000.

(** 150 notifications, and a network on which the second request
    rejects. *)
Definition crowd : list Notification :=
  built "title" "message" (fun _ => 0%Z) 0
        (repeat (mkUserRow "u" "U" "u@example.org" true) 150).

Definition second_request_rejects : nat -> Fault :=
  fun n => if Nat.eqb n 1 then Reject "offline" else NoFault.

Definition fanout_world : World :=
  mkWorld [] [] [] [] [] [] [] (fun _ => 0%Z) 0 second_request_rejects 0 0.

(** The overall figures of a report, as the database function names
    them. *)
Definition metrics_of (report : DailyPerformanceReport) : Sql.Metrics :=
  Sql.mkMetrics (totalTasks report) (completedTasks report)
                (pendingTasks report) (blockedTasks report)
                (deletedTasks report).

(** ** webhookService.getUserData and getProjectData *)

(** [await supabase.from(table).select(...).eq(...).maybeSingle()]: the
    row when exactly one matches, null when none does, an error response
    when several do. *)
Definition maybe_single {A} (table : World -> list A) (p : A -> bool)
  : M (Response A) :=
  fun w =>
    match net w (reqs w) with
    | NoFault =>
        (Ok match filter p (table w) with
            | [] => mkResponse None None
            | [row] => mkResponse (Some row) None
            | _ => mkResponse None (Some "multiple rows returned")
            end,
         next_request w)
    | RespError e => (Ok (mkResponse None (Some e)), next_request w)
    | Reject e => (Throw e, next_request w)
    end.

(** The columns [email, name] of a user row. *)
Record Contact := mkContact {
  contact_email : string;
  contact_name  : string
}.

Definition contact_of (u : UserRow) : Contact :=
  mkContact (user_email u) (user_name u).

(** [data && !error] *)
Definition found {A} (r : Response A) : option A :=
  match data r, error r with
  | Some row, None => Some row
  | _, _ => None
  end.

Definition getUserData (userId : string) : M (option Contact) :=
  try_catch
    (if Webhook.is_empty userId then ret None
     else
       member <- maybe_single members
                   (fun u => String.eqb (user_id u) userId) ;;
       match found member with
       | Some memberData => ret (Some (contact_of memberData))
       | None =>
           admin <- maybe_single admins
                      (fun u => String.eqb (user_id u) userId) ;;
           match found admin with
           | Some adminData => ret (Some (contact_of adminData))
           | None =>
               pm <- maybe_single project_managers
                       (fun u => String.eqb (user_id u) userId) ;;
               match found pm with
               | Some pmData => ret (Some (contact_of pmData))
               | None => ret None
               end
           end
       end)
    (fun _ => ret None).

Record ProjectRow := mkProjectRow {
  project_id   : string;
  project_name : string
}.

(** The projects table is not part of the world of the report service and
    is passed in. *)
Definition getProjectData (projects : list ProjectRow) (projectId : string)
  : M (option string) :=
  try_catch
    (if Webhook.is_empty projectId then ret None
     else
       resp <- maybe_single (fun _ => projects)
                 (fun p => String.eqb (project_id p) projectId) ;;
       match error resp with
       | Some _ => ret None
       | None =>
           match data resp with
           | Some row => ret (Some (project_name row))
           | None => ret None
           end
       end)
    (fun _ => ret None).

(** The row a lookup by id finds in [table] as request [slot] of a run:
    the only row with that id, when the request succeeds. *)
Definition only_row (w : World) (slot : nat) (table : list UserRow)
    (userId : string) : option UserRow :=
  match net w slot with
  | NoFault =>
      match filter (fun u => String.eqb (user_id u) userId) table with
      | [row] => Some row
      | _ => None
      end
  | _ => None
  end.

(** ** webhookSettingsService.updateWebhookSetting and toggleWebhook *)

Module WebhookAdmin.
Import Webhook.

Definition key : string := "task_webhook_enabled".

Definition has_key (r : WebhookSetting) : bool :=
  String.eqb (setting_key r) key.

(** What the database fills in for a row it creates. *)
Record Defaults := mkDefaults {
  fresh_id : string;
  db_now   : Z
}.

Definition with_settings (rows : list WebhookSetting) (env : Env) : Env :=
  mkEnv rows (settings_fault env) (fetch_outcome env) (env_clock env)
        (env_ticks env) (posts env).

(** [.upsert({ setting_key, setting_value, description },
      { onConflict: 'setting_key' }).select().single()]: the row with the
    key gets the new value and description, or a row is created; [write]
    is how the request fares. *)
Definition upsert_setting (write : Fault) (defaults : Defaults)
    (value : SettingValue) : St Env (Response WebhookSetting) :=
  fun env =>
    match write with
    | Reject e => (Throw e, env)
    | RespError e => (Ok (mkResponse None (Some e)), env)
    | NoFault =>
        match find has_key (webhook_settings env) with
        | Some old =>
            let row :=
              mkWebhookSetting (id old) key (Some value)
                "Task webhook notifications" (created_at old)
                (updated_at old) in
            (Ok (mkResponse (Some row) None),
             with_settings
               (map (fun r => if has_key r then row else r)
                    (webhook_settings env)) env)
        | None =>
            let row :=
              mkWebhookSetting (fresh_id defaults) key (Some value)
                "Task webhook notifications" (db_now defaults)
                (db_now defaults) in
            (Ok (mkResponse (Some row) None),
             with_settings (webhook_settings env ++ [row]) env)
        end
    end.

(** [a || b] on strings *)
Definition or_else (a b : string) : string :=
  if is_empty a then b else a.

Definition updateWebhookSetting (write : Fault) (defaults : Defaults)
    (enabled : bool) (url : option string)
  : St Env (option WebhookSetting) :=
  try_catch
    (currentSetting <- getWebhookSetting ;;
     let currentUrl :=
       or_else
         match currentSetting with
         | Some setting =>
             match setting_value setting with
             | Some value => Webhook.url value
             | None => ""
             end
         | None => ""
         end
         default_url in
     let newUrl :=
       or_else match url with Some u => u | None => "" end currentUrl in
     resp <- upsert_setting write defaults
               (mkSettingValue enabled newUrl) ;;
     match error resp with
     | Some _ => ret None
     | None => ret (data resp)
     end)%M
    (fun _ => ret None).

Definition toggleWebhook (write : Fault) (defaults : Defaults)
    (enabled : bool) : St Env bool :=
  try_catch
    (result <- updateWebhookSetting write defaults enabled None ;;
     ret match result with Some _ => true | None => false end)%M
    (fun _ => ret false).

(** The value stored under the key. *)
Definition stored_value (env : Env) : option SettingValue :=
  match find has_key (webhook_settings env) with
  | Some row => setting_value row
  | None => None
  end.

(** The URL an update starts from: the stored one when the settings can
    be read, none otherwise. *)
Definition url_before (env : Env) : string :=
  match settings_fault env with
  | NoFault =>
      match stored_value env with
      | Some value => url value
      | None => ""
      end
  | _ => ""
  end.

(** A settings table with a custom URL, webhooks enabled. *)
Definition custom_env (read : Fault) : Env :=
  mkEnv [ mkWebhookSetting "7" key
            (Some (mkSettingValue true "https://hooks.example.org/t"))
            "Task webhook notifications" 0 0 ]
        read (fun _ => Resolved (mkHttpResponse 200 true))
        (fun _ => 0%Z) 0 [].

Definition sample_defaults : Defaults := mkDefaults "8" 0.

End WebhookAdmin.

(** ** The useDailyTasks hook: fetchTasks and what it attaches *)

Module HookFetch.

(** A row of daily_tasks: the columns of [DailyTask] and created_at. *)
Record DailyTaskRow := mkDailyTaskRow {
  row_task       : Hook.DailyTask;
  row_created_at : Z
}.

(** [{ ...member, role }] *)
Record AttachedUser := mkAttachedUser {
  au_row  : UserRow;
  au_role : string
}.

Record ProjectInfo := mkProjectInfo {
  pi_id          : string;
  pi_name        : string;
  pi_description : string;
  pi_client_name : string;
  pi_status      : string
}.

(** The [project] property of a task in the state: absent, null, or the
    project's row. *)
Inductive ProjectAttach :=
| NoProperty
| NullProject
| TheProject (p : ProjectInfo).

Record TaskView := mkTaskView {
  view_task    : Hook.DailyTask;
  view_user    : option AttachedUser;
  view_project : ProjectAttach
}.

Record HookState := mkHookState {
  st_tasks   : list TaskView;
  st_loading : bool;
  st_error   : option string
}.

Definition with_role (role : string) (rows : list UserRow)
    (userMap : JsMap AttachedUser) : JsMap AttachedUser :=
  fold_left (fun m row => map_set (user_id row) (mkAttachedUser row role) m)
            rows userMap.

(** [if (resp.data) { resp.data.forEach(...) }] *)
Definition data_rows {A} (r : Response (list A)) : list A :=
  match data r with Some l => l | None => [] end.

Definition fetchUserDataForTasks (tasks : list Hook.DailyTask)
  : M (list TaskView) :=
  match tasks with
  | [] => ret []
  | _ =>
      try_catch
        (let userIds := uniq (map Hook.user_id tasks) in
         let wanted := fun u : UserRow =>
           mem_string (user_id u) userIds && user_is_active u in
         fetched <- promise_all3 (select members wanted)
                                 (select admins wanted)
                                 (select project_managers wanted) ;;
         let '(membersData, adminsData, projectManagersData) := fetched in
         let userMap :=
           with_role "project_manager" (data_rows projectManagersData)
             (with_role "admin" (data_rows adminsData)
                (with_role "member" (data_rows membersData) [])) in
         ret (map (fun task =>
                     mkTaskView task (map_get (Hook.user_id task) userMap)
                                NoProperty)
                  tasks))%M
        (fun _ =>
           ret (map (fun task => mkTaskView task None NoProperty) tasks))
  end.

Definition rejects (w : World) (slot : nat) : bool :=
  match net w slot with Reject _ => true | _ => false end.

(** The active rows of [table] with the id, when the read issued as
    request [slot] succeeds; the last of them is kept. *)
Definition active_with_id (w : World) (slot : nat) (table : list UserRow)
    (userId : string) : option UserRow :=
  last_with_id userId (table_read w slot (filter user_is_active table)).

(** The user attached to a task of [userId]: an active project manager
    before an active admin before an active member. *)
Definition attached (w : World) (userId : string) : option AttachedUser :=
  match active_with_id w (2 + reqs w) (project_managers w) userId with
  | Some row => Some (mkAttachedUser row "project_manager")
  | None =>
      match active_with_id w (1 + reqs w) (admins w) userId with
      | Some row => Some (mkAttachedUser row "admin")
      | None =>
          match active_with_id w (reqs w) (members w) userId with
          | Some row => Some (mkAttachedUser row "member")
          | None => None
          end
      end
  end.

(** [task.project_id] when it is truthy. *)
Definition project_of (task : Hook.DailyTask) : option string :=
  Hook.given (Hook.project_id task).

Fixpoint project_ids (tasks : list TaskView) : list string :=
  match tasks with
  | [] => []
  | v :: rest =>
      match project_of (view_task v) with
      | Some p => p :: project_ids rest
      | None => project_ids rest
      end
  end.

Definition project_map (rows : list ProjectInfo) : JsMap ProjectInfo :=
  fold_left (fun m project => map_set (pi_id project) project m) rows [].

Definition with_project (p : ProjectAttach) (v : TaskView) : TaskView :=
  mkTaskView (view_task v) (view_user v) p.

Definition fetchProjectDataForTasks (projects : list ProjectInfo)
    (tasks : list TaskView) : M (list TaskView) :=
  match tasks with
  | [] => ret []
  | _ =>
      try_catch
        (let projectIds := uniq (project_ids tasks) in
         match projectIds with
         | [] => ret tasks
         | _ =>
             resp <- select (fun _ => projects)
                       (fun p => mem_string (pi_id p) projectIds) ;;
             match error resp with
             | Some _ => ret tasks
             | None =>
                 let projectMap := project_map (data_rows resp) in
                 ret (map (fun v =>
                             with_project
                               match project_of (view_task v) with
                               | Some p =>
                                   match map_get p projectMap with
                                   | Some row => TheProject row
                                   | None => NullProject
                                   end
                               | None => NullProject
                               end v)
                          tasks)
             end
         end)%M
        (fun _ => ret (map (with_project NullProject) tasks))
  end.

(** [ORDER BY created_at DESC]; rows with equal created_at are left in
    table order, one of the orders the database may give. *)
Fixpoint insert_newest (x : DailyTaskRow) (l : list DailyTaskRow)
  : list DailyTaskRow :=
  match l with
  | [] => [x]
  | y :: rest =>
      if (row_created_at x <? row_created_at y)%Z
      then y :: insert_newest x rest
      else x :: y :: rest
  end.

Definition newest_first (l : list DailyTaskRow) : list DailyTaskRow :=
  fold_right insert_newest [] l.

(** [error.message || 'Failed to fetch daily tasks'] *)
Definition message_or (message fallback : string) : string :=
  if Webhook.is_empty message then fallback else message.

Definition fetchTasks (table : list DailyTaskRow)
    (projects : list ProjectInfo) (filters : Hook.DailyTaskFilters)
    (user : option Hook.AuthUser) (prev : HookState) : M HookState :=
  match user with
  | None => ret (mkHookState (st_tasks prev) false (st_error prev))
  | Some user =>
      try_catch
        (resp <- select (fun _ => table)
                   (fun r => Hook.fetch_selects filters user (row_task r)) ;;
         match error resp with
         | Some e =>
             ret (mkHookState []
                    false
                    (Some (message_or e "Failed to fetch daily tasks")))
         | None =>
             let rows := newest_first (data_rows resp) in
             tasksWithUsers <- fetchUserDataForTasks (map row_task rows) ;;
             tasksWithProjects <-
               fetchProjectDataForTasks projects tasksWithUsers ;;
             ret (mkHookState tasksWithProjects false None)
         end)%M
        (fun _ =>
           ret (mkHookState [] false (Some "Failed to fetch daily tasks")))
  end.





End HookFetch.

(** ** DailyPerformanceReportView.fetchReport

    The report page of the dashboard.  The selected date is a date-only
    string; it is given here by its day number (days since 1970-01-01), so
    that [new Date(date)] is midnight UTC of that day and the string
    itself is [iso_date] of that instant. *)

Module ReportView.

Module Stats.
Record t := mk {
  userId     : string;
  userName   : string;
  totalTasks : nat;
  completed  : nat;
  pending    : nat;
  blocked    : nat
}.
End Stats.

Record DailyReportData := mkDailyReportData {
  date           : string;
  totalTasks     : nat;
  completedTasks : nat;
  pendingTasks   : nat;
  blockedTasks   : nat;
  deletedTasks   : nat;
  userBreakdown  : list Stats.t
}.

(** The component state the function touches, and the error toasts
    shown. *)
Record ViewState := mkViewState {
  report  : option DailyReportData;
  loading : bool;
  toasts  : list string
}.

(** [new Date(date)] *)
Definition date_instant (day : Z) : Z := (day * ms_per_day)%Z.

(** [userMap.set(u.id, u.name)] for each row. *)
Definition build_name_map (users : list UserRow) : JsMap string :=
  fold_left (fun m u => map_set (user_id u) (user_name u) m) users [].

(** [userMap.get(id) || 'Unknown']: an empty name is falsy. *)
Definition name_or_unknown (userMap : JsMap string) (userId : string)
  : string :=
  match map_get userId userMap with
  | Some name => if String.eqb name "" then "Unknown" else name
  | None => "Unknown"
  end.

Definition new_entry (userMap : JsMap string) (userId : string) : Stats.t :=
  Stats.mk userId (name_or_unknown userMap userId) 0 0 0 0.

(** [stats.totalTasks++] and the status branch that follows it. *)
Definition record_task (now : Z) (task : Task) (stats : Stats.t) : Stats.t :=
  let s :=
    Stats.mk (Stats.userId stats) (Stats.userName stats)
      (S (Stats.totalTasks stats)) (Stats.completed stats)
      (Stats.pending stats) (Stats.blocked stats) in
  if is_completed task then
    Stats.mk (Stats.userId s) (Stats.userName s) (Stats.totalTasks s)
      (S (Stats.completed s)) (Stats.pending s) (Stats.blocked s)
  else
    Stats.mk (Stats.userId s) (Stats.userName s) (Stats.totalTasks s)
      (Stats.completed s) (S (Stats.pending s))
      (if is_overdue now task then S (Stats.blocked s)
       else Stats.blocked s).

(** Body of [taskList.forEach(task => ...)]. *)
Definition tally (now : Z) (userMap : JsMap string)
    (userBreakdownMap : JsMap Stats.t) (task : Task) : JsMap Stats.t :=
  let userId := task_user_id task in
  let userBreakdownMap :=
    if map_has userId userBreakdownMap then userBreakdownMap
    else map_set userId (new_entry userMap userId) userBreakdownMap in
  match map_get userId userBreakdownMap with
  | None => userBreakdownMap
  | Some stats =>
      map_set userId (record_task now task stats) userBreakdownMap
  end.

(** [.sort((a, b) => b.completed - a.completed)], stable. *)
Fixpoint insert_by_completed (x : Stats.t) (l : list Stats.t)
  : list Stats.t :=
  match l with
  | [] => [x]
  | y :: rest =>
      if (Stats.completed x <? Stats.completed y)%nat
      then y :: insert_by_completed x rest
      else x :: y :: rest
  end.

Definition sort_by_completed (l : list Stats.t) : list Stats.t :=
  fold_right insert_by_completed [] l.

Definition fetchReport (day : Z) (st : ViewState) : M ViewState :=
  let st := mkViewState (report st) true (toasts st) in
  st <-
    try_catch
      (zone <- read_tz ;;
       let startOfDay := start_of_day zone (date_instant day) in
       let endOfDay := end_of_day (start_of_day zone (date_instant day)) in
       tasksResp <-
         select tasks
           (fun t => in_window startOfDay endOfDay (task_updated_at t)) ;;
       match error tasksResp with
       | Some tasksError => throw tasksError
       | None =>
         deletedResp <-
           select deleted_tasks
             (fun d => String.eqb (del_task_type d) "regular"
                       && in_window startOfDay endOfDay (del_deleted_at d)) ;;
         let taskList := data_or_empty tasksResp in
         let deletedList := data_or_empty deletedResp in
         now <- newDate ;;
         let completedTasks := List.length (filter is_completed taskList) in
         let pendingTasks :=
           List.length (filter (fun t => negb (is_completed t)) taskList) in
         let blockedTasks :=
           List.length (filter (is_blocked now) taskList) in
         let userIds := uniq (map task_user_id taskList) in
         let by_id := fun u : UserRow => mem_string (user_id u) userIds in
         fetched <-
           promise_all3 (select members by_id) (select admins by_id)
                        (select project_managers by_id) ;;
         let '(membersData, adminsData, pmsData) := fetched in
         let userMap :=
           build_name_map (data_or_empty membersData ++
                           data_or_empty adminsData ++
                           data_or_empty pmsData) in
         let userBreakdownMap := fold_left (tally now userMap) taskList [] in
         ret (mkViewState
                (Some (mkDailyReportData
                         (iso_date (date_instant day))
                         (List.length taskList) completedTasks pendingTasks
                         blockedTasks (List.length deletedList)
                         (sort_by_completed (map_values userBreakdownMap))))
                (loading st) (toasts st))
       end)
      (fun _ =>
         ret (mkViewState (report st) (loading st)
                          (toasts st ++ ["Failed to fetch report"]))) ;;
  ret (mkViewState (report st) false (toasts st)).

(** *** Reading a fetch *)

(** The local calendar day (days since 1970-01-01) of instant [t] in a
    zone [zone] milliseconds east of UTC. *)
Definition local_day (zone t : Z) : Z := ((t + zone) / ms_per_day)%Z.

(** The local day whose tasks a fetch for [day] reads. *)
Definition day_read (zone day : Z) : Z :=
  if (zone <? 0)%Z then (day - 1)%Z else day.

(** The fetch fails when its first read fails or one of the four later
    reads rejects. *)
Definition rejects (w : World) (slot : nat) : bool :=
  match net w slot with Reject _ => true | _ => false end.

Definition fetch_fails (w : World) : bool :=
  match net w (reqs w) with
  | NoFault =>
      rejects w (1 + reqs w) || rejects w (2 + reqs w)
      || rejects w (3 + reqs w) || rejects w (4 + reqs w)
  | _ => true
  end.

Definition picked (day : Z) (w : World) : list Task :=
  let start := start_of_day (tz w) (date_instant day) in
  filter (fun t => in_window start (end_of_day start) (task_updated_at t))
         (tasks w).

Definition picked_deleted (day : Z) (w : World) : list DeletedTask :=
  let start := start_of_day (tz w) (date_instant day) in
  filter (fun d => String.eqb (del_task_type d) "regular"
                   && in_window start (end_of_day start) (del_deleted_at d))
         (deleted_tasks w).

Definition named (day : Z) (w : World) : list UserRow :=
  let userIds := uniq (map task_user_id (picked day w)) in
  name_read w (2 + reqs w) (members w) userIds ++
  name_read w (3 + reqs w) (admins w) userIds ++
  name_read w (4 + reqs w) (project_managers w) userIds.

(** The map with [f] applied to every value. *)
Definition map_over {V W} (f : V -> W) (m : JsMap V) : JsMap W :=
  map (fun kv => (fst kv, f (snd kv))) m.

(** What a service entry looks like on the page. *)
Definition view_entry (e : ByUser.t) : Stats.t :=
  Stats.mk (ByUser.userId e)
    (if String.eqb (ByUser.userName e) "" then "Unknown"
     else ByUser.userName e)
    (ByUser.totalTasks e) (ByUser.completed e) (ByUser.pending e)
    (ByUser.blocked e).

(** Two worlds with the same tables, zone and network answers for the
    next five requests. *)
Definition same_store (a b : World) : Prop :=
  tasks a = tasks b /\ deleted_tasks a = deleted_tasks b /\
  members a = members b /\ admins a = admins b /\
  project_managers a = project_managers b /\ tz a = tz b /\
  map (fun k => net a (k + reqs a)) (seq 0 5) =
  map (fun k => net b (k + reqs b)) (seq 0 5).

(** A browser in a zone 5 h west of UTC, at 06:06:40 local time on
    2025-01-18; one task was updated at 03:20 that morning, the other at
    18:59:59.999 the evening before. *)
Definition west_world : World :=
  mkWorld
    [ mkTask "t1" "alice" "completed" (day0 - 5) (day0 + 30000000);
      mkTask "t4" "carol" "pending" (day0 - 5) (day0 - 1) ]
    sample_deleted [] [] [] [] []
    (fun _ => (day0 + 40000000)%Z) 0 no_faults 0 (-18000000).

Definition empty_view : ViewState := mkViewState None true [].

End ReportView.

(** ** The edge function daily-performance-report *)

Module Edge.

Record Env := mkEnv {
  SUPABASE_URL              : option string;   (* [None] is undefined *)
  SUPABASE_SERVICE_ROLE_KEY : option string
}.






(** Both variables are set to non-empty values. *)
Definition configured (env : Env) : bool :=
  match SUPABASE_URL env, SUPABASE_SERVICE_ROLE_KEY env with
  | Some u, Some k => negb (String.eqb u "") && negb (String.eqb k "")
  | _, _ => false
  end.

End Edge.

(** * Properties *)

(** ** Lists and maps *)

Lemma count_app {A} (p : A -> bool) (l1 l2 : list A) :
  count p (l1 ++ l2) = count p l1 + count p l2.
Proof.
  unfold count. now rewrite filter_app, length_app.
Qed.

Lemma count_cons {A} (p : A -> bool) (x : A) (l : list A) :
  count p (x :: l) = (if p x then 1 else 0) + count p l.
Proof.
  unfold count. simpl. now destruct (p x).
Qed.

Lemma count_filter {A} (p q : A -> bool) (l : list A) :
  count p (filter q l) = count (fun x => q x && p x) l.
Proof.
  induction l as [|x l IH]; [reflexivity|].
  simpl. rewrite !count_cons, <- IH.
  destruct (q x); simpl; [now rewrite count_cons | reflexivity].
Qed.

Lemma count_ext {A} (p q : A -> bool) (l : list A) :
  (forall x, p x = q x) -> count p l = count q l.
Proof.
  intros H. unfold count. f_equal. now apply filter_ext.
Qed.

Lemma count_complement {A} (p : A -> bool) (l : list A) :
  count p l + count (fun x => negb (p x)) l = List.length l.
Proof.
  induction l as [|x l IH]; [reflexivity|].
  rewrite !count_cons. simpl. destruct (p x); simpl; lia.
Qed.

Lemma count_le {A} (p q : A -> bool) (l : list A) :
  (forall x, p x = true -> q x = true) -> count p l <= count q l.
Proof.
  intros H. induction l as [|x l IH]; [apply Nat.le_refl|].
  rewrite !count_cons.
  destruct (p x) eqn:Px; [rewrite (H x Px); lia|].
  destruct (q x); lia.
Qed.

Section MapFacts.
Context {V : Type}.
Implicit Types (m : JsMap V) (k : string) (v : V).

Lemma map_get_set_same k v m : map_get k (map_set k v m) = Some v.
Proof.
  induction m as [|[k' v'] m IH]; simpl.
  - now rewrite String.eqb_refl.
  - destruct (String.eqb k' k) eqn:E; simpl.
    + now rewrite String.eqb_refl.
    + now rewrite E.
Qed.

Lemma map_get_set_other k k' v m :
  k <> k' -> map_get k' (map_set k v m) = map_get k' m.
Proof.
  intros Hne. induction m as [|[k0 v0] m IH]; simpl.
  - destruct (String.eqb_spec k k'); [contradiction | reflexivity].
  - destruct (String.eqb_spec k0 k) as [->|Hk]; simpl.
    + destruct (String.eqb_spec k k'); [contradiction | reflexivity].
    + destruct (String.eqb_spec k0 k'); [reflexivity | exact IH].
Qed.

Lemma map_get_none_iff k m : map_get k m = None <-> ~ In k (map fst m).
Proof.
  induction m as [|[k0 v0] m IH]; simpl.
  - tauto.
  - destruct (String.eqb_spec k0 k) as [->|Hk].
    + split; [discriminate | intros H; exfalso; apply H; now left].
    + rewrite IH. tauto.
Qed.

Lemma map_has_in k m : map_has k m = true <-> In k (map fst m).
Proof.
  unfold map_has. destruct (map_get k m) eqn:E.
  - split; [intros _ | reflexivity].
    destruct (in_dec string_dec k (map fst m)) as [H|H]; [exact H|].
    apply map_get_none_iff in H. congruence.
  - split; [discriminate|]. intros H.
    apply map_get_none_iff in E. contradiction.
Qed.

Lemma map_keys_set k v m :
  map fst (map_set k v m) =
  if map_has k m then map fst m else map fst m ++ [k].
Proof.
  unfold map_has. induction m as [|[k0 v0] m IH]; simpl; [reflexivity|].
  destruct (String.eqb_spec k0 k) as [->|Hk]; simpl; [reflexivity|].
  rewrite IH. now destruct (map_get k m).
Qed.

Lemma map_get_in k v m : map_get k m = Some v -> In (k, v) m.
Proof.
  induction m as [|[k0 v0] m IH]; simpl; [discriminate|].
  destruct (String.eqb_spec k0 k) as [->|Hk].
  - intros [= ->]. now left.
  - intros H. right. now apply IH.
Qed.

Lemma map_in_get k v m :
  NoDup (map fst m) -> In (k, v) m -> map_get k m = Some v.
Proof.
  induction m as [|[k0 v0] m IH]; simpl; [tauto|].
  intros Hnd [[= -> ->]|Hin].
  - now rewrite String.eqb_refl.
  - inversion Hnd as [|? ? Hnotin Hnd']; subst.
    destruct (String.eqb_spec k0 k) as [->|Hk].
    + exfalso. apply Hnotin. now apply (in_map fst) in Hin.
    + now apply IH.
Qed.

Lemma sum_map_set (f : V -> nat) k v m :
  sum_by f (map_values (map_set k v m))
  + match map_get k m with Some s => f s | None => 0 end
  = sum_by f (map_values m) + f v.
Proof.
  unfold map_values.
  induction m as [|[k0 v0] m IH]; simpl; [lia|].
  destruct (String.eqb_spec k0 k) as [->|Hk]; simpl; lia.
Qed.
End MapFacts.

(** ** The per-user tally *)

Section Tally.
Variable now : Z.
Variable userMap : JsMap UserData.

Lemma tally_get (u : string) (bd : JsMap ByUser.t) (t : Task) :
  map_get u (tally now userMap bd t) =
  entry_step now userMap u (map_get u bd) t.
Proof.
  unfold tally, entry_step, owned_by, map_has.
  destruct (String.eqb_spec (task_user_id t) u) as [->|Hne].
  - destruct (map_get u bd) eqn:G.
    + rewrite G. apply map_get_set_same.
    + rewrite map_get_set_same. apply map_get_set_same.
  - destruct (map_get (task_user_id t) bd) eqn:G.
    + rewrite G. now apply map_get_set_other.
    + rewrite map_get_set_same.
      rewrite !map_get_set_other by assumption. reflexivity.
Qed.

Lemma tally_keys (bd : JsMap ByUser.t) (t : Task) :
  map fst (tally now userMap bd t) =
  if map_has (task_user_id t) bd then map fst bd
  else map fst bd ++ [task_user_id t].
Proof.
  unfold tally. destruct (map_has (task_user_id t) bd) eqn:H.
  - unfold map_has in H. destruct (map_get (task_user_id t) bd) eqn:G;
      [|discriminate].
    rewrite map_keys_set. unfold map_has. now rewrite G.
  - rewrite map_get_set_same, !map_keys_set.
    unfold map_has at 1. rewrite map_get_set_same. now rewrite H.
Qed.

Lemma fold_tally_get (u : string) (ts : list Task) (bd : JsMap ByUser.t) :
  map_get u (fold_left (tally now userMap) ts bd) =
  fold_left (entry_step now userMap u) ts (map_get u bd).
Proof.
  revert bd. induction ts as [|t ts IH]; intros bd; simpl; [reflexivity|].
  now rewrite IH, tally_get.
Qed.

Lemma fold_tally_keys_nodup (ts : list Task) (bd : JsMap ByUser.t) :
  NoDup (map fst bd) ->
  NoDup (map fst (fold_left (tally now userMap) ts bd)).
Proof.
  revert bd. induction ts as [|t ts IH]; intros bd Hnd; simpl; [exact Hnd|].
  apply IH. rewrite tally_keys.
  destruct (map_has (task_user_id t) bd) eqn:H; [exact Hnd|].
  apply NoDup_app; [exact Hnd | repeat constructor; intros [] |].
  intros x Hx [<-|[]].
  apply map_has_in in Hx. congruence.
Qed.


Lemma fold_entry_step_some (u : string) (ts : list Task) (base : ByUser.t) :
  exists s, fold_left (entry_step now userMap u) ts (Some base) = Some s /\
            tallied now u ts base s.
Proof.
  revert base. induction ts as [|t ts IH]; intros base; simpl.
  - exists base. unfold tallied, count. simpl. repeat split; lia.
  - unfold entry_step at 2. destruct (owned_by u t) eqn:Ho.
    + destruct (IH (record_task now t base)) as (s & Hs & Ht).
      exists s. split; [exact Hs|].
      unfold tallied in *. rewrite !count_cons, Ho.
      replace (is_blocked now t)
        with (if is_completed t then false else is_overdue now t)
        by reflexivity.
      unfold record_task in Ht.
      destruct Ht as (H1 & H2 & H3 & H4 & H5 & H6 & H7).
      destruct (is_completed t), (is_overdue now t); simpl in *;
        repeat split; solve [assumption | lia].
    + destruct (IH base) as (s & Hs & Ht).
      exists s. split; [exact Hs|].
      unfold tallied in *. rewrite !count_cons, Ho. simpl. exact Ht.
Qed.

Lemma fold_entry_step_none (u : string) (ts : list Task) :
  match fold_left (entry_step now userMap u) ts None with
  | None => count (owned_by u) ts = 0
  | Some s => tallied now u ts (new_entry userMap u) s /\
              0 < count (owned_by u) ts
  end.
Proof.
  induction ts as [|t ts IH]; simpl; [reflexivity|].
  unfold entry_step at 2. rewrite count_cons.
  destruct (owned_by u t) eqn:Ho.
  - destruct (fold_entry_step_some u ts
                (record_task now t (new_entry userMap u))) as (s & Hs & Ht).
    rewrite Hs. split; [|lia].
    unfold tallied in *. rewrite !count_cons, Ho.
    replace (is_blocked now t)
      with (if is_completed t then false else is_overdue now t)
      by reflexivity.
    unfold record_task in Ht.
    destruct Ht as (H1 & H2 & H3 & H4 & H5 & H6 & H7).
    destruct (is_completed t), (is_overdue now t); simpl in *;
      repeat split; solve [assumption | lia].
  - destruct (fold_left (entry_step now userMap u) ts None).
    + unfold tallied in *. rewrite !count_cons, Ho. simpl. exact IH.
    + exact IH.
Qed.
End Tally.

(** ** Runs of generateDailyReport *)

Lemma generateDailyReport_ok (w w' : World) (r : DailyPerformanceReport) :
  generateDailyReport w = (Ok r, w') ->
  net w (reqs w) = NoFault /\
  exists userMap,
    r = mkReport (iso_date (today_of w))
          (List.length (updated_today w))
          (List.length (filter (fun t => negb (is_completed t))
                               (updated_today w)))
          (List.length (filter is_completed (updated_today w)))
          (List.length (filter (is_blocked (report_now w))
                               (updated_today w)))
          (match net w (S (reqs w)) with
           | NoFault => List.length (deleted_today w)
           | _ => 0
           end)
          (map_values (fold_left (tally (report_now w) userMap)
                                 (updated_today w) [])) /\
    w' = advance 2 5 w.
Proof.
  unfold generateDailyReport, try_catch, bind, newDate, read_tz, select,
    throw, promise_all3, ret, data_or_empty, advance.
  simpl. intros H.
  destruct (net w (reqs w)) eqn:F0; simpl in H; try discriminate.
  split; [reflexivity|].
  destruct (net w (S (reqs w))) eqn:F1; simpl in H; try discriminate;
    destruct (net w (S (S (reqs w)))) eqn:F2; simpl in H;
    destruct (net w (S (S (S (reqs w))))) eqn:F3; simpl in H;
    destruct (net w (S (S (S (S (reqs w)))))) eqn:F4; simpl in H;
    try discriminate;
    injection H as <- <-; eexists; split; reflexivity.
Qed.

Lemma generateDailyReport_returns (w : World) :
  net w (reqs w) = NoFault ->
  (forall k e, 1 <= k <= 4 -> net w (k + reqs w) <> Reject e) ->
  exists r w', generateDailyReport w = (Ok r, w').
Proof.
  intros F0 Hrej.
  pose proof (Hrej 1) as R1. pose proof (Hrej 2) as R2.
  pose proof (Hrej 3) as R3. pose proof (Hrej 4) as R4.
  simpl in R1, R2, R3, R4.
  unfold generateDailyReport, try_catch, bind, newDate, read_tz, select,
    throw, promise_all3, ret.
  simpl. rewrite F0. simpl.
  destruct (net w (S (reqs w))) eqn:F1; simpl;
    try (exfalso; eapply R1; [lia | reflexivity]);
    destruct (net w (S (S (reqs w)))) eqn:F2; simpl;
    try (exfalso; eapply R2; [lia | reflexivity]);
    destruct (net w (S (S (S (reqs w))))) eqn:F3; simpl;
    try (exfalso; eapply R3; [lia | reflexivity]);
    destruct (net w (S (S (S (S (reqs w)))))) eqn:F4; simpl;
    try (exfalso; eapply R4; [lia | reflexivity]);
    eexists; eexists; reflexivity.
Qed.

Lemma today_of_spec (w : World) :
  let now0 := clock w (ticks w) in
  (today_of w <= now0 < today_of w + ms_per_day)%Z /\
  ((today_of w + tz w) mod ms_per_day = 0)%Z.
Proof.
  unfold today_of, start_of_day, ms_per_day. simpl.
  pose proof (Z.div_mod (clock w (ticks w) + tz w) 86400000 ltac:(lia)).
  pose proof (Z.mod_pos_bound (clock w (ticks w) + tz w) 86400000 ltac:(lia)).
  split; [lia|].
  replace ((clock w (ticks w) + tz w) / 86400000 * 86400000 - tz w + tz w)%Z
    with ((clock w (ticks w) + tz w) / 86400000 * 86400000)%Z by lia.
  apply Z.mod_mul. lia.
Qed.

Lemma in_today_spec (w : World) (t : Z) :
  in_today w t = true <->
  (today_of w <= t <= today_of w + 86399999)%Z.
Proof.
  unfold in_today. rewrite andb_true_iff, !Z.leb_le. tauto.
Qed.

Lemma updated_today_spec (w : World) (t : Task) :
  In t (updated_today w) <->
  In t (tasks w) /\
  (today_of w <= task_updated_at t <= today_of w + 86399999)%Z.
Proof.
  unfold updated_today, in_window, end_of_day.
  rewrite filter_In, andb_true_iff, !Z.leb_le. tauto.
Qed.

Lemma deleted_today_spec (w : World) (d : DeletedTask) :
  In d (deleted_today w) <->
  In d (deleted_tasks w) /\ del_task_type d = "regular" /\
  (today_of w <= del_deleted_at d <= today_of w + 86399999)%Z.
Proof.
  unfold deleted_today, in_window, end_of_day.
  rewrite filter_In, !andb_true_iff, !Z.leb_le, String.eqb_eq. tauto.
Qed.

Section Breakdown.
Variable now : Z.
Variable userMap : JsMap UserData.

Lemma tally_sum (f : ByUser.t -> nat) (delta : Task -> nat)
    (bd : JsMap ByUser.t) (t : Task) :
  (forall s, f (record_task now t s) = f s + delta t) ->
  (forall u, f (new_entry userMap u) = 0) ->
  sum_by f (map_values (tally now userMap bd t)) =
  sum_by f (map_values bd) + delta t.
Proof.
  intros Hrec Hnew. unfold tally, map_has.
  set (u := task_user_id t).
  destruct (map_get u bd) as [s|] eqn:G.
  - rewrite G.
    pose proof (sum_map_set f u (record_task now t s) bd) as E.
    rewrite G, Hrec in E. lia.
  - rewrite map_get_set_same.
    pose proof (sum_map_set f u (new_entry userMap u) bd) as E1.
    pose proof (sum_map_set f u (record_task now t (new_entry userMap u))
                  (map_set u (new_entry userMap u) bd)) as E2.
    rewrite G in E1. rewrite map_get_set_same, Hrec in E2.
    rewrite Hnew in *. lia.
Qed.

Lemma fold_tally_sum (f : ByUser.t -> nat) (p : Task -> bool)
    (ts : list Task) (bd : JsMap ByUser.t) :
  (forall t s, f (record_task now t s) = f s + if p t then 1 else 0) ->
  (forall u, f (new_entry userMap u) = 0) ->
  sum_by f (map_values (fold_left (tally now userMap) ts bd)) =
  sum_by f (map_values bd) + count p ts.
Proof.
  intros Hrec Hnew. revert bd.
  induction ts as [|t ts IH]; intros bd; simpl.
  - unfold count. simpl. lia.
  - rewrite IH, count_cons.
    rewrite (tally_sum f (fun t => if p t then 1 else 0)) by auto. lia.
Qed.

Lemma fold_tally_entry (ts : list Task) (e : ByUser.t) :
  In e (map_values (fold_left (tally now userMap) ts [])) ->
  tallied now (ByUser.userId e) ts
          (new_entry userMap (ByUser.userId e)) e /\
  0 < count (owned_by (ByUser.userId e)) ts.
Proof.
  unfold map_values. intros Hin.
  apply in_map_iff in Hin as ([u e'] & He & Hin). simpl in He. subst e'.
  apply map_in_get in Hin;
    [| apply fold_tally_keys_nodup; constructor].
  rewrite fold_tally_get in Hin. simpl in Hin.
  pose proof (fold_entry_step_none now userMap u ts) as Hn.
  rewrite Hin in Hn. destruct Hn as [Ht Hpos].
  assert (Hu : ByUser.userId e = u) by (destruct Ht as [-> _]; reflexivity).
  rewrite Hu. split; assumption.
Qed.

End Breakdown.

(** ** A sample run *)

Lemma sample_run :
  fst (generateDailyReport (sample_world no_faults)) = Ok sample_report.
Proof. vm_compute. reflexivity. Qed.

(** ** Claims about generateDailyReport *)

(** C9.  Every report returned by generateDailyReport is balanced:
    completed + pending = total and blocked <= pending, overall and inside
    every per-user entry, and the per-user columns sum to the overall
    figures. *)
Theorem generateDailyReport_balanced (w w' : World)
    (r : DailyPerformanceReport) :
  generateDailyReport w = (Ok r, w') ->
  completedTasks r + pendingTasks r = totalTasks r /\
  blockedTasks r <= pendingTasks r /\
  Forall (fun e => ByUser.completed e + ByUser.pending e
                   = ByUser.totalTasks e /\
                   ByUser.blocked e <= ByUser.pending e) (byUser r) /\
  sum_by ByUser.totalTasks (byUser r) = totalTasks r /\
  sum_by ByUser.completed (byUser r) = completedTasks r /\
  sum_by ByUser.pending (byUser r) = pendingTasks r /\
  sum_by ByUser.blocked (byUser r) = blockedTasks r.
Proof.
  intros Hrun. apply generateDailyReport_ok in Hrun as (_ & um & -> & _).
  cbn [completedTasks pendingTasks totalTasks blockedTasks byUser].
  set (ts := updated_today w). set (now := report_now w).
  split; [apply (count_complement is_completed ts)|].
  split.
  { apply (count_le (is_blocked now) (fun t => negb (is_completed t))).
    intros t. unfold is_blocked. now destruct (is_completed t). }
  split.
  { apply Forall_forall. intros e He.
    apply fold_tally_entry in He as [(_ & _ & _ & Ht & Hc & Hp & Hb) _].
    cbn in Ht, Hc, Hp, Hb. rewrite Ht, Hc, Hp, Hb.
    rewrite <- !count_filter. split.
    - apply count_complement.
    - apply count_le. intros t. unfold is_blocked.
      now destruct (is_completed t). }
  split.
  { rewrite (fold_tally_sum now um _ (fun _ => true)).
    - unfold count. simpl. f_equal.
      clear. induction ts as [|t ts IH]; simpl; congruence.
    - intros t s. unfold record_task.
      destruct (is_completed t); simpl; lia.
    - reflexivity. }
  split.
  { rewrite (fold_tally_sum now um _ is_completed); [reflexivity| |].
    - intros t s. unfold record_task.
      destruct (is_completed t); simpl; lia.
    - reflexivity. }
  split.
  { rewrite (fold_tally_sum now um _ (fun t => negb (is_completed t)));
      [reflexivity| |].
    - intros t s. unfold record_task.
      destruct (is_completed t); simpl; lia.
    - reflexivity. }
  rewrite (fold_tally_sum now um _ (is_blocked now)); [reflexivity| |].
  - intros t s. unfold record_task, is_blocked.
    destruct (is_completed t), (is_overdue now t); simpl; lia.
  - reflexivity.
Qed.

Lemma generateDailyReport_balanced_witness :
  completedTasks sample_report + pendingTasks sample_report
  = totalTasks sample_report /\
  blockedTasks sample_report <= pendingTasks sample_report /\
  Forall (fun e => ByUser.completed e + ByUser.pending e
                   = ByUser.totalTasks e /\
                   ByUser.blocked e <= ByUser.pending e)
         (byUser sample_report) /\
  sum_by ByUser.totalTasks (byUser sample_report)
  = totalTasks sample_report /\
  sum_by ByUser.completed (byUser sample_report)
  = completedTasks sample_report /\
  sum_by ByUser.pending (byUser sample_report)
  = pendingTasks sample_report /\
  sum_by ByUser.blocked (byUser sample_report)
  = blockedTasks sample_report.
Proof.
  apply (generateDailyReport_balanced (sample_world no_faults)
           (snd (generateDailyReport (sample_world no_faults)))
           sample_report).
  vm_compute. reflexivity.
Defined.



Lemma generateDailyReport_counts (w w' : World)
    (r : DailyPerformanceReport) :
  generateDailyReport w = (Ok r, w') ->
  totalTasks r = List.length (updated_today w) /\
  completedTasks r =
    count (fun t => String.eqb (task_status t) "completed")
          (updated_today w) /\
  pendingTasks r =
    count (fun t => negb (String.eqb (task_status t) "completed"))
          (updated_today w) /\
  blockedTasks r =
    count (fun t => negb (String.eqb (task_status t) "completed")
                    && (task_due_date t <? report_now w)%Z)
          (updated_today w) /\
  deletedTasks r =
    match net w (S (reqs w)) with
    | NoFault => List.length (deleted_today w)
    | _ => 0
    end.
Proof.
  intros Hrun. apply generateDailyReport_ok in Hrun as (_ & um & -> & _).
  cbn [completedTasks pendingTasks totalTasks blockedTasks deletedTasks].
  repeat split.
  apply count_ext. intros t. unfold is_blocked, is_completed, is_overdue.
  now destruct (String.eqb (task_status t) "completed").
Qed.




(** ** formatReportMessage *)

Lemma insert_by_completed_perm (x : ByUser.t) (l : list ByUser.t) :
  Permutation (insert_by_completed x l) (x :: l).
Proof.
  induction l as [|y l IH]; simpl; [reflexivity|].
  destruct (ByUser.completed x <? ByUser.completed y)%nat; [|reflexivity].
  rewrite IH. apply perm_swap.
Qed.

Lemma sort_by_completed_perm (l : list ByUser.t) :
  Permutation (sort_by_completed l) l.
Proof.
  induction l as [|x l IH]; simpl; [reflexivity|].
  rewrite insert_by_completed_perm. now constructor.
Qed.

Lemma insert_by_completed_sorted (x : ByUser.t) (l : list ByUser.t) :
  StronglySorted more_completed l ->
  StronglySorted more_completed (insert_by_completed x l).
Proof.
  induction 1 as [|y l Hs IH Hall]; simpl.
  - repeat constructor.
  - destruct (Nat.ltb_spec (ByUser.completed x) (ByUser.completed y)).
    + constructor; [exact IH|].
      apply Forall_forall. intros z Hz.
      apply (Permutation_in _ (insert_by_completed_perm x l)) in Hz.
      destruct Hz as [<-|Hz].
      * unfold more_completed. lia.
      * rewrite Forall_forall in Hall. now apply Hall.
    + constructor; [now constructor|].
      constructor; [exact H|].
      apply Forall_forall. intros z Hz.
      rewrite Forall_forall in Hall. specialize (Hall z Hz).
      unfold more_completed in *. lia.
Qed.

Lemma sort_by_completed_sorted (l : list ByUser.t) :
  StronglySorted more_completed (sort_by_completed l).
Proof.
  induction l as [|x l IH]; simpl; [constructor|].
  now apply insert_by_completed_sorted.
Qed.

Lemma performer_lines_nth (users : list ByUser.t) (index k : nat)
    (user : ByUser.t) :
  nth_error users k = Some user ->
  nth_error (performer_lines index users) k =
  Some (performer_line (index + k) user).
Proof.
  revert index k. induction users as [|u users IH]; intros index k H.
  - destruct k; discriminate.
  - destruct k as [|k]; simpl in *.
    + injection H as ->. now rewrite Nat.add_0_r.
    + rewrite (IH (S index) k H). do 2 f_equal. lia.
Qed.

Lemma performer_lines_length (users : list ByUser.t) (index : nat) :
  List.length (performer_lines index users) = List.length users.
Proof.
  revert index. induction users as [|u users IH]; intros index; simpl;
    [reflexivity | now rewrite IH].
Qed.

(** C6.  The digest is the date line and the five overall metric lines
    (total updated, completed, pending, blocked, deleted) in that order;
    exactly when the per-user breakdown is non-empty a 'Top Performers
    Today' section follows, listing at most 5 users (the first five of the
    breakdown ordered by non-increasing completed count), the k-th line
    being '<k>. <userName>: <completed>/<totalTasks> completed'. *)
Theorem formatReportMessage_layout (report : DailyPerformanceReport) :
  exists (top rest : list ByUser.t) (section : list string),
    formatReportMessage report =
      join newline
        ([ ("📅 Date: " ++ date report)%string;
           "";
           "📈 Overall Performance:";
           ("• Total Tasks Updated: "
              ++ show_nat (totalTasks report))%string;
           ("• ✅ Completed: " ++ show_nat (completedTasks report))%string;
           ("• ⏳ Pending: " ++ show_nat (pendingTasks report))%string;
           ("• 🚫 Blocked: " ++ show_nat (blockedTasks report))%string;
           ("• 🗑️ Deleted: " ++ show_nat (deletedTasks report))%string;
           "" ] ++ section) /\
    (byUser report = [] -> section = []) /\
    (byUser report <> [] ->
       exists lines,
         section = "🏆 Top Performers Today:" :: lines /\
         List.length lines = List.length top /\
         forall k user, nth_error top k = Some user ->
           nth_error lines k =
           Some (show_nat (k + 1) ++ ". " ++ ByUser.userName user ++ ": "
                 ++ show_nat (ByUser.completed user) ++ "/"
                 ++ show_nat (ByUser.totalTasks user)
                 ++ " completed")%string) /\
    List.length top = Nat.min 5 (List.length (byUser report)) /\
    Permutation (top ++ rest) (byUser report) /\
    StronglySorted (fun a b => ByUser.completed b <= ByUser.completed a)
                   (top ++ rest).
Proof.
  exists (top_performers report),
         (skipn 5 (sort_by_completed (byUser report))),
         (if (0 <? List.length (byUser report))%nat
          then "🏆 Top Performers Today:" ::
               performer_lines 0 (top_performers report)
          else []).
  split; [reflexivity|].
  split; [intros ->; reflexivity|].
  split.
  { intros Hne. exists (performer_lines 0 (top_performers report)).
    destruct (byUser report) as [|u us] eqn:E; [contradiction|].
    split; [reflexivity|].
    split; [apply performer_lines_length|].
    intros k user Hk.
    apply (performer_lines_nth _ 0) in Hk. exact Hk. }
  unfold top_performers. rewrite firstn_skipn.
  split.
  { rewrite length_firstn.
    now rewrite (Permutation_length (sort_by_completed_perm _)). }
  split; [apply sort_by_completed_perm | apply sort_by_completed_sorted].
Qed.

Example formatReportMessage_sample :
  formatReportMessage sample_report =
"📅 Date: 2025-01-18

📈 Overall Performance:
• Total Tasks Updated: 3
• ✅ Completed: 1
• ⏳ Pending: 2
• 🚫 Blocked: 1
• 🗑️ Deleted: 1

🏆 Top Performers Today:
1. Alice: 1/2 completed
2. Bob: 0/1 completed".
Proof. vm_compute. reflexivity. Qed.

(** Ties keep their order in the breakdown: the sort is stable. *)
Example sort_by_completed_stable :
  map ByUser.userId
      (sort_by_completed
         [ ByUser.mk "a" "A" "" 2 1 1 0; ByUser.mk "b" "B" "" 3 2 1 0;
           ByUser.mk "c" "C" "" 1 1 0 0; ByUser.mk "d" "D" "" 2 2 0 0 ])
  = ["b"; "d"; "a"; "c"].
Proof. reflexivity. Qed.

(** ** sendDailyReportToAllUsers *)

Lemma make_notifications_run (title message : string)
    (users : list UserRow) (w : World) :
  make_notifications title message users w =
  (Ok (built title message (clock w) (ticks w) users),
   advance (List.length users) 0 w).
Proof.
  revert w. induction users as [|u users IH]; intros w.
  - destruct w; reflexivity.
  - simpl. unfold bind, newDate. rewrite IH. unfold ret, advance. simpl.
    do 3 f_equal. lia.
Qed.

Lemma built_props (title message : string) (clk : nat -> Z) (k : nat)
    (users : list UserRow) :
  map notif_user_id (built title message clk k users) = map user_id users /\
  Forall (fun n => notif_title n = title /\ notif_message n = message /\
                   notif_type n = "report" /\ notif_is_read n = false)
         (built title message clk k users).
Proof.
  revert k. induction users as [|u users IH]; intros k; simpl.
  - split; constructor.
  - destruct (IH (S k)) as [Hids Hall]. split; [now rewrite Hids|].
    constructor; [repeat split | exact Hall].
Qed.

Lemma insert_batches_ok (fuel i size : nat) (ns : list Notification)
    (w w' : World) :
  insert_batches fuel i size ns w = (Ok tt, w') ->
  let bs := batches_of fuel i size ns in
  w' = mkWorld (tasks w) (deleted_tasks w) (members w) (admins w)
         (project_managers w)
         (notifications w ++ stored (net w) (reqs w) bs)
         (inserted_batches w ++ bs)
         (clock w) (ticks w) (net w) (List.length bs + reqs w) (tz w).
Proof.
  revert i w. induction fuel as [|fuel IH]; intros i w; simpl.
  - unfold ret. intros [= <-]. rewrite !app_nil_r. now destruct w.
  - destruct (i <? List.length ns)%nat.
    + unfold bind, insert_notifications.
      destruct (net w (reqs w)) eqn:F; [| |discriminate];
        intros H; apply IH in H; rewrite H; simpl; rewrite F;
        rewrite <- !app_assoc; simpl; f_equal; lia.
    + unfold ret. intros [= <-]. simpl. rewrite !app_nil_r. now destruct w.
Qed.

Lemma insert_batches_returns (fuel i size : nat) (ns : list Notification)
    (w : World) :
  (forall k e, net w k <> Reject e) ->
  exists w', insert_batches fuel i size ns w = (Ok tt, w').
Proof.
  revert i w. induction fuel as [|fuel IH]; intros i w Hnet; simpl.
  - eexists; reflexivity.
  - destruct (i <? List.length ns)%nat; [|eexists; reflexivity].
    unfold bind, insert_notifications.
    destruct (net w (reqs w)) eqn:F; [| |now apply Hnet in F];
      apply IH; exact Hnet.
Qed.

Lemma batches_of_concat (fuel i size : nat) (ns : list Notification) :
  0 < size -> List.length ns <= i + fuel * size ->
  List.concat (batches_of fuel i size ns) = skipn i ns.
Proof.
  intros Hsize. revert i. induction fuel as [|fuel IH]; intros i Hlen; simpl.
  - symmetry. apply skipn_all2. lia.
  - destruct (Nat.ltb_spec i (List.length ns)).
    + simpl. rewrite IH by lia. unfold slice.
      replace (i + size - i) with size by lia.
      rewrite <- (firstn_skipn size (skipn i ns)) at 2.
      now rewrite skipn_skipn, (Nat.add_comm size i).
    + symmetry. apply skipn_all2. lia.
Qed.

Lemma batches_of_sizes (fuel i size : nat) (ns : list Notification) :
  0 < size ->
  Forall (fun b => 0 < List.length b <= size) (batches_of fuel i size ns).
Proof.
  intros Hsize. revert i. induction fuel as [|fuel IH]; intros i; simpl;
    [constructor|].
  destruct (Nat.ltb_spec i (List.length ns)); [|constructor].
  constructor; [|apply IH].
  unfold slice. rewrite length_firstn, length_skipn. lia.
Qed.

Lemma stored_no_faults (faults : nat -> Fault) (slot : nat)
    (batches : list (list Notification)) :
  (forall k, faults k = NoFault) ->
  stored faults slot batches = List.concat batches.
Proof.
  intros H. revert slot.
  induction batches as [|b bs IH]; intros slot; simpl; [reflexivity|].
  now rewrite H, IH.
Qed.

Lemma active_reads_ok (w w1 : World)
    (m p a : Response (list UserRow)) :
  promise_all3 (select members user_is_active)
               (select project_managers user_is_active)
               (select admins user_is_active) w = (Ok (m, p, a), w1) ->
  w1 = advance 0 3 w /\
  data_or_empty m = active_read w (reqs w) (members w) /\
  data_or_empty p = active_read w (1 + reqs w) (project_managers w) /\
  data_or_empty a = active_read w (2 + reqs w) (admins w).
Proof.
  unfold promise_all3, select, active_read, data_or_empty, advance.
  simpl.
  destruct (net w (reqs w)) eqn:F0; simpl;
    destruct (net w (S (reqs w))) eqn:F1; simpl;
    destruct (net w (S (S (reqs w)))) eqn:F2; simpl;
    intros H; try discriminate H;
    injection H as <- <- <- <-; repeat split.
Qed.

(** C5 (as amended).  A run of sendDailyReportToAllUsers that completes
    builds exactly one notification (type 'report', is_read false, the
    report-date title, the formatted digest as message) for every user
    returned by the three reads of active members, project managers and
    admins, a read that returns an error contributing no recipient, and
    submits them in consecutive non-empty batches of at most 100 that
    together cover each of them exactly once.  The rows of a batch are
    stored unless its insert returns an error, which is only logged.  When
    no request fails these are exactly the active members, project
    managers and admins, and every notification is stored. *)
Theorem sendDailyReportToAllUsers_batches (w w' : World) :
  sendDailyReportToAllUsers w = (Ok tt, w') ->
  exists (report : DailyPerformanceReport) (ns : list Notification)
         (batches : list (list Notification)),
    fst (generateDailyReport w) = Ok report /\
    map notif_user_id ns = map user_id (recipients w) /\
    Forall (fun n => notif_title n = report_title report /\
                     notif_message n = formatReportMessage report /\
                     notif_type n = "report" /\
                     notif_is_read n = false) ns /\
    List.concat batches = ns /\
    Forall (fun b => 0 < List.length b <= 100) batches /\
    inserted_batches w' = inserted_batches w ++ batches /\
    notifications w' =
      notifications w ++ stored (net w) (8 + reqs w) batches /\
    ((forall k, net w k = NoFault) ->
     recipients w = filter user_is_active (members w) ++
                    filter user_is_active (project_managers w) ++
                    filter user_is_active (admins w) /\
     notifications w' = notifications w ++ ns).
Proof.
  unfold sendDailyReportToAllUsers, try_catch, bind at 1.
  destruct (generateDailyReport w) as [[report|e] w1] eqn:G;
    [|discriminate].
  pose proof (generateDailyReport_ok _ _ _ G) as (_ & _ & _ & ->).
  clear G. unfold bind at 1.
  destruct (promise_all3 _ _ _ _) as [[[[m p] a]|e] w1] eqn:R;
    [|discriminate].
  apply active_reads_ok in R as (-> & Hm & Hp & Ha).
  rewrite Hm, Hp, Ha. clear Hm Hp Ha m p a.
  cbn [advance net reqs members project_managers admins].
  change (active_read w (5 + reqs w) (members w) ++
          active_read w (1 + (5 + reqs w)) (project_managers w) ++
          active_read w (2 + (5 + reqs w)) (admins w))
    with (recipients w).
  set (users := recipients w).
  unfold bind. rewrite make_notifications_run.
  cbn [advance clock ticks].
  set (ns := built (report_title report) (formatReportMessage report)
                   (clock w) (0 + (2 + ticks w)) users).
  destruct (insert_batches _ _ _ _ _) as [[[]|e] w2] eqn:I;
    [|discriminate].
  intros [= <-]. apply insert_batches_ok in I.
  cbn [advance net reqs members project_managers admins tasks
       deleted_tasks notifications inserted_batches clock ticks tz] in I.
  pose proof (built_props (report_title report)
                (formatReportMessage report) (clock w)
                (0 + (2 + ticks w)) users) as [Hids Hall].
  fold ns in Hids, Hall.
  assert (Hcat : List.concat (batches_of (List.length ns) 0 100 ns) = ns).
  { rewrite batches_of_concat by lia. reflexivity. }
  exists report, ns, (batches_of (List.length ns) 0 100 ns).
  split; [reflexivity|].
  split; [exact Hids|].
  split; [exact Hall|].
  split; [exact Hcat|].
  split; [apply batches_of_sizes; lia|].
  subst w2. cbn [inserted_batches notifications].
  split; [reflexivity|].
  split; [reflexivity|].
  intros Hnet. split.
  - unfold users, recipients, active_read. now rewrite !Hnet.
  - rewrite stored_no_faults by exact Hnet.
    change (notifications w
            ++ List.concat (batches_of (List.length ns) 0 100 ns)
            = notifications w ++ ns).
    now rewrite Hcat.
Qed.

Lemma active_reads_returns (w : World) :
  (forall k, net w k = NoFault) ->
  exists m p a,
    promise_all3 (select members user_is_active)
                 (select project_managers user_is_active)
                 (select admins user_is_active) w
    = (Ok (m, p, a), advance 0 3 w).
Proof.
  intros Hnet. unfold promise_all3, select, next_request, advance.
  cbn. rewrite Hnet. cbn. rewrite Hnet. cbn. rewrite Hnet.
  do 3 eexists. reflexivity.
Qed.

Lemma sendDailyReportToAllUsers_returns (w : World) :
  (forall k, net w k = NoFault) ->
  exists w', sendDailyReportToAllUsers w = (Ok tt, w').
Proof.
  intros Hnet.
  destruct (generateDailyReport_returns w (Hnet _)) as (r & w1 & G).
  { intros k e _. rewrite Hnet. discriminate. }
  pose proof (generateDailyReport_ok _ _ _ G) as (_ & _ & _ & ->).
  unfold sendDailyReportToAllUsers, try_catch, bind at 1. rewrite G.
  destruct (active_reads_returns (advance 2 5 w) Hnet) as (m & p & a & R).
  unfold bind at 1. rewrite R.
  unfold bind. rewrite make_notifications_run.
  match goal with
  | |- context [insert_batches ?f ?i ?s ?ns ?w0] =>
      destruct (insert_batches_returns f i s ns w0) as (w2 & I)
  end.
  { intros k e. simpl. rewrite Hnet. discriminate. }
  rewrite I. now exists w2.
Qed.

(** C5 as stated fails: when the read of the active members returns an
    error the run still completes, and the active member alice is in no
    submitted batch and gets no notification row. *)
Lemma sendDailyReportToAllUsers_members_read_error :
  let w := sample_world members_read_fails in
  let w' := snd (sendDailyReportToAllUsers w) in
  sendDailyReportToAllUsers w = (Ok tt, w') /\
  In "alice" (map user_id (filter user_is_active (members w))) /\
  ~ In "alice" (map notif_user_id (List.concat (inserted_batches w'))) /\
  ~ In "alice" (map notif_user_id (notifications w')).
Proof.
  split; [vm_compute; reflexivity|].
  split; [vm_compute; tauto|].
  split; vm_compute; intros H; repeat destruct H as [H|H];
    try discriminate H; exact H.
Qed.

(** 250 recipients go out as batches of 100, 100 and 50. *)
Example batches_of_250 :
  map (@List.length Notification)
      (batches_of 250 0 100
         (built "title" "message" (fun _ => 0%Z) 0
                (repeat (mkUserRow "u" "U" "u@example.org" true) 250)))
  = [100; 100; 50].
Proof. vm_compute. reflexivity. Qed.

Lemma sendDailyReportToAllUsers_batches_witness :
  let w := sample_world no_faults in
  let w' := snd (sendDailyReportToAllUsers w) in
  exists (report : DailyPerformanceReport) (ns : list Notification)
         (batches : list (list Notification)),
    fst (generateDailyReport w) = Ok report /\
    map notif_user_id ns = map user_id (recipients w) /\
    Forall (fun n => notif_title n = report_title report /\
                     notif_message n = formatReportMessage report /\
                     notif_type n = "report" /\
                     notif_is_read n = false) ns /\
    List.concat batches = ns /\
    Forall (fun b => 0 < List.length b <= 100) batches /\
    inserted_batches w' = inserted_batches w ++ batches /\
    notifications w' =
      notifications w ++ stored (net w) (8 + reqs w) batches /\
    ((forall k, net w k = NoFault) ->
     recipients w = filter user_is_active (members w) ++
                    filter user_is_active (project_managers w) ++
                    filter user_is_active (admins w) /\
     notifications w' = notifications w ++ ns).
Proof.
  apply (sendDailyReportToAllUsers_batches (sample_world no_faults)
           (snd (sendDailyReportToAllUsers (sample_world no_faults)))).
  vm_compute. reflexivity.
Defined.

(** ** Webhook dispatch *)

Module WebhookProps.
Import Webhook.

Ltac run_webhook :=
  unfold sendTaskWebhook, getWebhookSetting, default_setting,
    select_setting, fetch_post, Webhook.newDate, try_catch, bind, ret,
    configured;
  cbn.

Lemma is_empty_spec (s : string) : is_empty s = true <-> s = "".
Proof. destruct s; simpl; split; congruence. Qed.

(** C10.  getWebhookSetting never resolves to null.  When the
    webhook_settings row is absent, when the query returns an error, or
    when the request throws, it returns a default setting whose
    setting_value has enabled = true and the hard-coded n8nautomation.site
    URL; sendTaskWebhook then POSTs to that default URL. *)
Theorem getWebhookSetting_never_null (env : Env) :
  exists setting env',
    getWebhookSetting env = (Ok (Some setting), env') /\
    let unreadable :=
      (settings_fault env = NoFault /\
       filter (fun r => String.eqb (setting_key r) "task_webhook_enabled")
              (webhook_settings env) = []) \/
      (exists e, settings_fault env = RespError e) \/
      (exists e, settings_fault env = Reject e) in
    (unreadable ->
     setting_value setting =
       Some (mkSettingValue true
         "https://n8nautomation.site/webhook/9f329008-2786-495e-9efd-61975bb46186")) /\
    (unreadable ->
     forall d, exists b env2 timestamp,
       sendTaskWebhook d env = (Ok b, env2) /\
       posts env2 =
         posts env ++
         [("https://n8nautomation.site/webhook/9f329008-2786-495e-9efd-61975bb46186",
           webhookPayload d timestamp)]).
Proof.
  run_webhook.
  destruct (settings_fault env) eqn:F; cbn.
  - destruct (filter _ (webhook_settings env)) as [|row [|row2 rest]] eqn:R;
      cbn.
    + do 2 eexists. split; [reflexivity|]. split; [reflexivity|].
      intros _ d. cbn.
      destruct (fetch_outcome env default_url) as [[st []]|e]; cbn;
        do 3 eexists; split; reflexivity.
    + do 2 eexists. split; [reflexivity|].
      split; intros [[_ H]|[[e H]|[e H]]]; discriminate H.
    + do 2 eexists. split; [reflexivity|].
      split; intros [[_ H]|[[e H]|[e H]]]; discriminate H.
  - do 2 eexists. split; [reflexivity|]. split; [reflexivity|].
    intros _ d. cbn.
    destruct (fetch_outcome env default_url) as [[st []]|e0]; cbn;
      do 3 eexists; split; reflexivity.
  - do 2 eexists. split; [reflexivity|]. split; [reflexivity|].
    intros _ d. cbn.
    destruct (fetch_outcome env default_url) as [[st []]|e0]; cbn;
      do 3 eexists; split; reflexivity.
Qed.

(** C7.  sendTaskWebhook never throws.  It resolves to true exactly when
    the setting is enabled, a URL is configured, and the POST to that URL
    completes with an ok response; so it resolves to false when webhooks
    are disabled, when no URL is configured, when the response is not ok,
    and when the dispatch throws.  No POST is made unless the setting is
    enabled and has a URL. *)
Theorem sendTaskWebhook_never_throws (d : TaskWebhookData) (env : Env) :
  exists b env',
    sendTaskWebhook d env = (Ok b, env') /\
    (b = true <->
     exists value response,
       configured env = Some value /\ enabled value = true /\
       url value <> "" /\
       fetch_outcome env (url value) = Resolved response /\
       ok response = true) /\
    (forall value, configured env = Some value ->
       enabled value = false \/ url value = "" ->
       b = false /\ posts env' = posts env) /\
    (configured env = None -> b = false /\ posts env' = posts env) /\
    (forall value, configured env = Some value ->
       enabled value = true -> url value <> "" ->
       (exists timestamp,
          posts env' = posts env
                       ++ [(url value, webhookPayload d timestamp)]) /\
       b = match fetch_outcome env (url value) with
           | Resolved response => ok response
           | Rejected _ => false
           end).
Proof.
  assert (Hcfg : exists setting env1,
            getWebhookSetting env = (Ok (Some setting), env1) /\
            fetch_outcome env1 = fetch_outcome env /\
            posts env1 = posts env /\
            configured env = setting_value setting).
  { unfold configured, getWebhookSetting, default_setting, select_setting,
      Webhook.newDate, try_catch, bind, ret.
    destruct (settings_fault env); cbn;
      [destruct (filter _ (webhook_settings env)) as [|row [|row2 rest]];
       cbn|..];
      do 2 eexists; repeat split. }
  destruct Hcfg as (setting & env1 & Hget & Hfetch & Hposts & ->).
  unfold sendTaskWebhook, try_catch, bind at 1. rewrite Hget.
  destruct (setting_value setting) as [[en u]|]; cbn.
  2:{ do 2 eexists. split; [reflexivity|].
      split; [split; [discriminate | intros (v & r & H & _); discriminate H]|].
      split; [intros v H; discriminate H|].
      split; [now split|]. intros v H; discriminate H. }
  destruct en; cbn.
  2:{ do 2 eexists. split; [reflexivity|].
      split; [split; [discriminate|];
              intros (v & r & [= <-] & H & _); discriminate H|].
      split; [intros v _ _; now split|].
      split; [discriminate|].
      intros v [= <-] H; discriminate H. }
  destruct u as [|c u]; cbn.
  { do 2 eexists. split; [reflexivity|].
    split; [split; [discriminate|];
            intros (v & r & [= <-] & _ & H & _); now contradiction H|].
    split; [intros v _ _; now split|].
    split; [discriminate|].
    intros v [= <-] _ H; now contradiction H. }
  unfold bind, Webhook.newDate, fetch_post, ret. cbn. rewrite Hfetch.
  destruct (fetch_outcome env (String c u)) as [[st []]|e] eqn:Fo; cbn;
    do 2 eexists; (split; [reflexivity|]); cbn; rewrite Hposts.
  - split; [split; [intros _|reflexivity]|].
    { exists (mkSettingValue true (String c u)), (mkHttpResponse st true).
      cbn. repeat split; [discriminate | exact Fo]. }
    split; [intros v [= <-] [H|H]; discriminate H|].
    split; [discriminate|].
    intros v [= <-] _ _. cbn. rewrite Fo. split; [eexists|]; reflexivity.
  - split; [split; [discriminate|]|].
    { intros (v & r & [= <-] & _ & _ & H & Hok). cbn in H.
      rewrite Fo in H. injection H as <-. discriminate Hok. }
    split; [intros v [= <-] [H|H]; discriminate H|].
    split; [discriminate|].
    intros v [= <-] _ _. cbn. rewrite Fo. split; [eexists|]; reflexivity.
  - split; [split; [discriminate|]|].
    { intros (v & r & [= <-] & _ & _ & H & _). cbn in H.
      rewrite Fo in H. discriminate H. }
    split; [intros v [= <-] [H|H]; discriminate H|].
    split; [discriminate|].
    intros v [= <-] _ _. cbn. rewrite Fo. split; [eexists|]; reflexivity.
Qed.

End WebhookProps.

(** ** The database function *)

Module SqlProps.
Import Sql.


End SqlProps.

(** ** Realtime changes against the fetched selection *)

Module HookProps.
Import Hook.

Example ilike_contains_report :
  ilike_contains "rep" "Write Report" = true /\
  ilike_contains "rep" "Write notes" = false /\
  includes (toLowerCase "rep") (toLowerCase "Write Report") = true.
Proof. repeat split. Qed.

(** The pattern of the fetch treats [_] as a wildcard; the handlers look
    for the text itself. *)
Example ilike_wildcard_wider :
  ilike_contains "x_z" "xyz" = true /\
  includes (toLowerCase "x_z") (toLowerCase "xyz") = false.
Proof. repeat split. Qed.














(** C1 at a failing input.  With the project filter set to p1, an INSERT
    of a task of project p2 puts that task into the local state, and an
    UPDATE that moves a listed task to project p2 leaves it there, although
    the query of fetchTasks does not select it. *)
Theorem on_change_ignores_project_filter :
  fetch_selects project_filter admin_user other_project_task = false /\
  on_change project_filter admin_user [other_project_task] false
            (INSERT "d1") []
  = [other_project_task] /\
  fetch_selects project_filter admin_user moved_task_before = true /\
  on_change project_filter admin_user [other_project_task] false
            (UPDATE "d1") [moved_task_before]
  = [other_project_task].
Proof. repeat split. Qed.

End HookProps.

(** ** The database function against generateDailyReport *)

Module ReportVsSql.

Lemma count_ext_in {A} (p q : A -> bool) (l : list A) :
  (forall x, In x l -> p x = q x) -> count p l = count q l.
Proof.
  intros H. unfold count. f_equal. now apply filter_ext_in.
Qed.

Lemma window_agrees (start t : Z) :
  ~ (start + 86399000 < t <= start + 86399999)%Z ->
  Sql.updated_between start (Sql.today_end start)
    (mkTask "" "" "" 0 t)
  = in_window start (end_of_day start) t.
Proof.
  unfold Sql.updated_between, Sql.today_end, in_window, end_of_day. simpl.
  intros H.
  destruct (Z.leb_spec start t); simpl; [|reflexivity].
  destruct (Z.leb_spec t (start + 86400000 - 1000));
    destruct (Z.leb_spec t (start + 86399999)); try reflexivity; lia.
Qed.

(** Both computations agree at one instant on data with no row stamped
    in the last second of the day. *)
Lemma metrics_agree_outside_last_second (w w' : World)
    (r : DailyPerformanceReport) (settings : list Sql.WebhookRow) :
  generateDailyReport w = (Ok r, w') ->
  net w (S (reqs w)) = NoFault ->
  report_now w = clock w (ticks w) ->
  (forall t, In t (tasks w) ->
     ~ (today_of w + 86399000 < task_updated_at t
        <= today_of w + 86399999)%Z) ->
  (forall d, In d (deleted_tasks w) ->
     ~ (today_of w + 86399000 < del_deleted_at d
        <= today_of w + 86399999)%Z) ->
  Sql.count_metrics (tz w) (clock w (ticks w)) (db_of w settings) =
  Sql.mkMetrics (totalTasks r) (completedTasks r) (pendingTasks r)
                (blockedTasks r) (deletedTasks r).
Proof.
  intros Hrun Hdel Hnow Htasks Hdels.
  destruct (generateDailyReport_counts _ _ _ Hrun)
    as (-> & -> & -> & -> & ->).
  rewrite Hdel, Hnow. unfold Sql.count_metrics. cbn [db_of Sql.tasks
    Sql.deleted_tasks].
  fold (today_of w).
  assert (Hw : forall t, In t (tasks w) ->
            Sql.updated_between (today_of w) (Sql.today_end (today_of w)) t
            = in_window (today_of w) (end_of_day (today_of w))
                        (task_updated_at t)).
  { intros t Ht. rewrite <- (window_agrees _ _ (Htasks t Ht)).
    reflexivity. }
  unfold updated_today, deleted_today.
  rewrite !count_filter. f_equal.
  - apply (count_ext_in _ _ _ Hw).
  - apply count_ext_in. intros t Ht. now rewrite (Hw t Ht).
  - apply count_ext_in. intros t Ht. now rewrite (Hw t Ht).
  - apply count_ext_in. intros t Ht. rewrite (Hw t Ht).
    now rewrite andb_assoc.
  - apply (count_ext_in
             (fun d => ((today_of w <=? del_deleted_at d)
                        && (del_deleted_at d
                            <=? Sql.today_end (today_of w)))%Z
                       && String.eqb (del_task_type d) "regular")).
    intros d Hd.
    pose proof (window_agrees _ _ (Hdels d Hd)) as E.
    unfold Sql.updated_between in E. simpl in E.
    rewrite E. apply andb_comm.
Qed.

(** C4 at a failing input.  At 23:59:59.900, with one completed task
    updated at 23:59:59.500 of the same day, generateDailyReport counts
    the task (total 1, completed 1) and the database function, whose
    window ends at 23:59:59.000, does not (total 0, completed 0). *)
Theorem metrics_differ_in_last_second :
  let w := last_second_world in
  let now := clock w (ticks w) in
  report_now w = now /\
  (exists r, fst (generateDailyReport w) = Ok r /\
             totalTasks r = 1 /\ completedTasks r = 1) /\
  Sql.total_tasks_count (Sql.count_metrics (tz w) now (db_of w [])) = 0 /\
  Sql.completed_count (Sql.count_metrics (tz w) now (db_of w [])) = 0.
Proof.
  split; [reflexivity|]. split; [|split; vm_compute; reflexivity].
  eexists. split; [vm_compute; reflexivity|]. split; reflexivity.
Qed.

End ReportVsSql.

(** ** More on the realtime handler *)

Module HookMore.
Import Hook.

Lemma same_id_refl (t : DailyTask) : same_id t t = true.
Proof. apply String.eqb_refl. Qed.

Lemma fetchCompleteTask_id (table : list DailyTask) (fails : bool)
    (wanted : string) (t : DailyTask) :
  fetchCompleteTask table fails wanted = Some t -> id t = wanted.
Proof.
  unfold fetchCompleteTask. destruct fails; [discriminate|].
  destruct (filter _ table) as [|row [|row2 rest]] eqn:F; try discriminate.
  intros [= <-].
  assert (Hin : In row (filter (fun t => String.eqb (id t) wanted) table))
    by (rewrite F; now left).
  apply filter_In in Hin as [_ Hid]. now apply String.eqb_eq.
Qed.

Lemma existsb_same_id_false (t : DailyTask) (l : list DailyTask) :
  existsb (same_id t) l = false -> ~ In (id t) (map id l).
Proof.
  induction l as [|x l IH]; simpl; [tauto|].
  intros H. apply orb_false_iff in H as [Hx Hl].
  intros [E|Hin]; [|now apply IH].
  unfold same_id in Hx. rewrite E, String.eqb_refl in Hx. discriminate.
Qed.

Lemma replace_first_ids (t : DailyTask) (l : list DailyTask) :
  map id (replace_first t l) = map id l.
Proof.
  induction l as [|x l IH]; simpl; [reflexivity|].
  destruct (same_id t x) eqn:E; simpl; [|now rewrite IH].
  unfold same_id in E. apply String.eqb_eq in E. now rewrite E.
Qed.

Lemma filter_ids (keep : string -> bool) (l : list DailyTask) :
  map id (filter (fun t => keep (id t)) l) = filter keep (map id l).
Proof.
  induction l as [|x l IH]; simpl; [reflexivity|].
  destruct (keep (id x)); simpl; now rewrite IH.
Qed.


(** How one change moves the list of ids held in the state. *)
Lemma on_change_ids (filters : DailyTaskFilters) (user : AuthUser)
    (table : list DailyTask) (fails : bool) (change : Change)
    (prevTasks : list DailyTask) :
  let before := map id prevTasks in
  let after := map id (on_change filters user table fails change
                                 prevTasks) in
  match change with
  | INSERT i =>
      after = before \/ (after = i :: before /\ ~ In i before)
  | UPDATE i =>
      after = before \/ after = filter (other_than i) before
  | DELETE i => after = filter (other_than i) before
  end.
Proof.
  destruct change as [i|i|i]; simpl.
  - destruct (fetchCompleteTask table fails i) as [t|] eqn:F; [|now left].
    apply fetchCompleteTask_id in F. subst i.
    destruct (existsb (same_id t) prevTasks) eqn:E; [now left|].
    destruct (shouldInclude filters user t); [|now left].
    right. split; [reflexivity | now apply existsb_same_id_false].
  - destruct (fetchCompleteTask table fails i) as [t|] eqn:F; [|now left].
    apply fetchCompleteTask_id in F. subst i.
    destruct (existsb (same_id t) prevTasks); simpl; [|now left].
    destruct (shouldInclude filters user t).
    + left. apply replace_first_ids.
    + right. apply (filter_ids (other_than (id t))).
  - apply (filter_ids (other_than i)).
Qed.




(** What a change can do to the ids of the state.  An UPDATE never brings
    in a task that was not listed, even one that now matches the filters;
    after a DELETE no task with the deleted id is left and nothing new
    appears; an INSERT brings in at most the inserted task. *)
Theorem on_change_never_grows_on_update (filters : DailyTaskFilters)
    (user : AuthUser) (table : list DailyTask) (fails : bool)
    (prevTasks : list DailyTask) (i : string) :
  (forall j, In j (map id (on_change filters user table fails (UPDATE i)
                                      prevTasks)) ->
             In j (map id prevTasks)) /\
  (forall j, In j (map id (on_change filters user table fails (DELETE i)
                                      prevTasks)) ->
             In j (map id prevTasks) /\ j <> i) /\
  (forall j, In j (map id (on_change filters user table fails (INSERT i)
                                      prevTasks)) ->
             In j (map id prevTasks) \/ j = i).
Proof.
  pose proof (on_change_ids filters user table fails (UPDATE i) prevTasks)
    as Hu.
  pose proof (on_change_ids filters user table fails (DELETE i) prevTasks)
    as Hd.
  pose proof (on_change_ids filters user table fails (INSERT i) prevTasks)
    as Hi.
  cbv zeta in Hu, Hd, Hi. split; [|split]; intros j H.
  - destruct Hu as [E|E]; rewrite E in H; [exact H|].
    apply filter_In in H. tauto.
  - rewrite Hd in H. apply filter_In in H as [Hin H].
    split; [exact Hin|].
    unfold other_than in H. intros ->. rewrite String.eqb_refl in H.
    discriminate.
  - destruct Hi as [E|[E _]]; rewrite E in H; [now left|].
    destruct H as [<-|H]; [now right | now left].
Qed.

Lemma replace_first_idem (t : DailyTask) (l : list DailyTask) :
  replace_first t (replace_first t l) = replace_first t l.
Proof.
  induction l as [|x l IH]; simpl; [reflexivity|].
  destruct (same_id t x) eqn:E; simpl.
  - now rewrite same_id_refl.
  - now rewrite E, IH.
Qed.

Lemma existsb_replace_first (t : DailyTask) (l : list DailyTask) :
  existsb (same_id t) (replace_first t l) = existsb (same_id t) l.
Proof.
  induction l as [|x l IH]; simpl; [reflexivity|].
  destruct (same_id t x) eqn:E; simpl.
  - now rewrite same_id_refl.
  - now rewrite E, IH.
Qed.

Lemma existsb_filter_out (t : DailyTask) (l : list DailyTask) :
  existsb (same_id t) (filter (fun x => negb (same_id t x)) l) = false.
Proof.
  induction l as [|x l IH]; simpl; [reflexivity|].
  destruct (same_id t x) eqn:E; simpl; [exact IH|].
  now rewrite E, IH.
Qed.

Lemma filter_idem {A} (p : A -> bool) (l : list A) :
  filter p (filter p l) = filter p l.
Proof.
  induction l as [|x l IH]; simpl; [reflexivity|].
  destruct (p x) eqn:E; simpl; [now rewrite E, IH | exact IH].
Qed.

(** A change delivered twice.  Handling the same change a second time,
    against the same table, leaves the state as the first handling left
    it. *)
Theorem on_change_idempotent (filters : DailyTaskFilters) (user : AuthUser)
    (table : list DailyTask) (fails : bool) (change : Change)
    (prevTasks : list DailyTask) :
  on_change filters user table fails change
    (on_change filters user table fails change prevTasks)
  = on_change filters user table fails change prevTasks.
Proof.
  destruct change as [i|i|i]; simpl.
  - destruct (fetchCompleteTask table fails i) as [t|]; [|reflexivity].
    destruct (existsb (same_id t) prevTasks) eqn:E; [now rewrite E|].
    destruct (shouldInclude filters user t) eqn:S.
    + simpl. now rewrite same_id_refl.
    + now rewrite E.
  - destruct (fetchCompleteTask table fails i) as [t|]; [|reflexivity].
    destruct (existsb (same_id t) prevTasks) eqn:E; simpl;
      [|now rewrite E].
    destruct (shouldInclude filters user t) eqn:S.
    + rewrite existsb_replace_first, E. cbn [negb].
      apply replace_first_idem.
    + now rewrite existsb_filter_out.
  - apply filter_idem.
Qed.

End HookMore.

(** ** More on the report service *)

Lemma generateDailyReport_ok_names (w w' : World)
    (r : DailyPerformanceReport) :
  generateDailyReport w = (Ok r, w') ->
  date r = iso_date (today_of w) /\
  byUser r =
    map_values (fold_left (tally (report_now w)
                                 (build_user_map (named_users w)))
                          (updated_today w) []).
Proof.
  unfold generateDailyReport, try_catch, bind, newDate, read_tz, select,
    throw, promise_all3, ret, data_or_empty, named_users, name_read.
  simpl. intros H.
  destruct (net w (reqs w)) eqn:F0; simpl in H; try discriminate.
  destruct (net w (S (reqs w))) eqn:F1; simpl in H; try discriminate;
    destruct (net w (S (S (reqs w)))) eqn:F2; simpl in H;
    destruct (net w (S (S (S (reqs w))))) eqn:F3; simpl in H;
    destruct (net w (S (S (S (S (reqs w)))))) eqn:F4; simpl in H;
    try discriminate;
    injection H as <- _; split; reflexivity.
Qed.

Lemma filter_andb {A} (p q : A -> bool) (l : list A) :
  filter (fun x => p x && q x) l = filter p (filter q l).
Proof.
  induction l as [|x l IH]; simpl; [reflexivity|].
  destruct (q x); simpl; [|now rewrite andb_false_r].
  rewrite andb_true_r. destruct (p x); now rewrite IH.
Qed.




(** When generateDailyReport fails.  An error response or a rejection of
    the tasks read is thrown on at once, before any other request is made.
    Once the tasks read has succeeded, the run throws exactly when one of
    the four later reads rejects; an error response of those reads never
    makes it throw. *)
Theorem generateDailyReport_failure (w : World) :
  (forall e, net w (reqs w) = RespError e \/ net w (reqs w) = Reject e ->
     exists w', generateDailyReport w = (Throw e, w') /\
                reqs w' = S (reqs w)) /\
  (net w (reqs w) = NoFault ->
     ((exists e w', generateDailyReport w = (Throw e, w')) <->
      (exists k e, 1 <= k <= 4 /\ net w (k + reqs w) = Reject e))).
Proof.
  split.
  - intros e H.
    unfold generateDailyReport, try_catch, bind, newDate, read_tz, select,
      throw, promise_all3, ret.
    simpl. destruct H as [-> | ->]; simpl; eexists; split; reflexivity.
  - intros F0. split.
    + intros (e & w' & Hthrow).
      destruct (net w (1 + reqs w)) as [|e1|e1] eqn:F1;
        [|
         |exists 1, e1; split; [lia | exact F1]];
        (destruct (net w (2 + reqs w)) as [|e2|e2] eqn:F2;
          [|
           |exists 2, e2; split; [lia | exact F2]]);
        (destruct (net w (3 + reqs w)) as [|e3|e3] eqn:F3;
          [|
           |exists 3, e3; split; [lia | exact F3]]);
        (destruct (net w (4 + reqs w)) as [|e4|e4] eqn:F4;
          [|
           |exists 4, e4; split; [lia | exact F4]]);
        exfalso;
        (destruct (generateDailyReport_returns w F0) as (r & w2 & Hok);
          [intros k e0 Hk Hrej;
           assert (Hcases : k = 1 \/ k = 2 \/ k = 3 \/ k = 4) by lia;
           destruct Hcases as [->|[->|[->| ->]]]; congruence
          | rewrite Hok in Hthrow; discriminate Hthrow]).
    + intros (k & e & Hk & Hrej).
      destruct (generateDailyReport w) as [[r|e0] w'] eqn:G;
        [|now exists e0, w'].
      exfalso. revert G.
      unfold generateDailyReport, try_catch, bind, newDate, read_tz, select,
        throw, promise_all3, ret.
      simpl. rewrite F0. simpl.
      assert (Hcases : k = 1 \/ k = 2 \/ k = 3 \/ k = 4) by lia.
      simpl in Hrej.
      destruct (net w (S (reqs w))) eqn:F1; simpl;
        destruct (net w (S (S (reqs w)))) eqn:F2; simpl;
        destruct (net w (S (S (S (reqs w))))) eqn:F3; simpl;
        destruct (net w (S (S (S (S (reqs w)))))) eqn:F4; simpl;
        try discriminate;
        destruct Hcases as [->|[->|[->| ->]]]; simpl in Hrej; congruence.
Qed.

Lemma find_app_first {A} (p : A -> bool) (a b : list A) :
  find p (a ++ b) =
  match find p a with Some x => Some x | None => find p b end.
Proof.
  induction a as [|x a IH]; simpl; [reflexivity|].
  now destruct (p x).
Qed.

Lemma find_filter_implied {A} (p q : A -> bool) (l : list A) :
  (forall x, p x = true -> q x = true) ->
  find p (filter q l) = find p l.
Proof.
  intros H. induction l as [|x l IH]; simpl; [reflexivity|].
  destruct (q x) eqn:Q; simpl.
  - now destruct (p x).
  - destruct (p x) eqn:Px; [|exact IH].
    rewrite (H x Px) in Q. discriminate.
Qed.

Lemma filter_rev_comm {A} (q : A -> bool) (l : list A) :
  filter q (rev l) = rev (filter q l).
Proof.
  induction l as [|x l IH]; simpl; [reflexivity|].
  rewrite filter_app, IH. simpl. destruct (q x); simpl;
    [reflexivity | now rewrite app_nil_r].
Qed.

Lemma mem_string_in (s : string) (l : list string) :
  mem_string s l = true <-> In s l.
Proof.
  unfold mem_string. rewrite existsb_exists. split.
  - intros (x & Hin & E). apply String.eqb_eq in E. now subst.
  - intros Hin. exists s. split; [exact Hin | apply String.eqb_refl].
Qed.

Lemma uniq_from_in (x : string) (seen l : list string) :
  In x (uniq_from seen l) <-> In x l /\ ~ In x seen.
Proof.
  revert seen. induction l as [|y l IH]; intros seen; simpl; [tauto|].
  destruct (mem_string y seen) eqn:M.
  - apply mem_string_in in M. rewrite IH. split.
    + tauto.
    + intros [[->|H] Hn]; [contradiction | tauto].
  - assert (Hy : ~ In y seen).
    { intros H. apply mem_string_in in H. congruence. }
    simpl. rewrite IH. simpl. split.
    + intros [->|[H Hn]]; [tauto|]. split; [tauto|]. tauto.
    + intros [[->|H] Hn]; [now left|].
      destruct (string_dec y x) as [->|Hne]; [now left|].
      right. split; [exact H|]. intros [E|E]; [contradiction | tauto].
Qed.

Lemma uniq_in (x : string) (l : list string) : In x (uniq l) <-> In x l.
Proof. unfold uniq. rewrite uniq_from_in. simpl. tauto. Qed.

Lemma fold_user_map_get (userId : string) (users : list UserRow)
    (m : JsMap UserData) :
  map_get userId
    (fold_left (fun m user => map_set (user_id user)
                                (mkUserData (user_name user)
                                            (user_email user)) m)
               users m) =
  match last_with_id userId users with
  | Some u => Some (mkUserData (user_name u) (user_email u))
  | None => map_get userId m
  end.
Proof.
  unfold last_with_id. revert m.
  induction users as [|u users IH]; intros m; simpl; [reflexivity|].
  rewrite IH, find_app_first.
  destruct (find _ (rev users)); [reflexivity|]. simpl.
  destruct (String.eqb_spec (user_id u) userId) as [E|E].
  - rewrite E. apply map_get_set_same.
  - now apply map_get_set_other.
Qed.

Lemma build_user_map_get (userId : string) (users : list UserRow) :
  map_get userId (build_user_map users) =
  match last_with_id userId users with
  | Some u => Some (mkUserData (user_name u) (user_email u))
  | None => None
  end.
Proof. apply fold_user_map_get. Qed.

Lemma count_pos_in {A} (p : A -> bool) (l : list A) :
  0 < count p l -> exists x, In x l /\ p x = true.
Proof.
  induction l as [|x l IH]; [unfold count; simpl; lia|].
  rewrite count_cons. destruct (p x) eqn:E.
  - intros _. exists x. split; [now left | exact E].
  - intros H. destruct (IH H) as (y & Hy & Py).
    exists y. split; [now right | exact Py].
Qed.

(** Whose name an entry shows.  In a returned report the userName and
    userEmail of an entry are those of the project manager with that id
    if the project_managers lookup brought one back, else of the admin,
    else of the member; with no such row, or when the lookups returned
    errors, they are 'Unknown' and the empty string. *)
Theorem generateDailyReport_names (w w' : World)
    (r : DailyPerformanceReport) :
  generateDailyReport w = (Ok r, w') ->
  forall e, In e (byUser r) ->
    match resolve_user w (ByUser.userId e) with
    | Some u => ByUser.userName e = user_name u /\
                ByUser.userEmail e = user_email u
    | None => ByUser.userName e = "Unknown" /\ ByUser.userEmail e = ""
    end.
Proof.
  intros Hrun e He.
  apply generateDailyReport_ok_names in Hrun as [_ Hby].
  rewrite Hby in He.
  apply fold_tally_entry in He as [(_ & Hn & Hm & _) Hpos].
  set (u := ByUser.userId e) in *.
  apply count_pos_in in Hpos as (t & Ht & Hown).
  assert (Hin : In u (uniq (map task_user_id (updated_today w)))).
  { apply uniq_in, in_map_iff. exists t. split; [|exact Ht].
    now apply String.eqb_eq. }
  assert (Hread : forall slot table,
            last_with_id u
              (name_read w slot table
                 (uniq (map task_user_id (updated_today w))))
            = last_with_id u (table_read w slot table)).
  { intros slot table. unfold name_read, table_read, last_with_id.
    destruct (net w slot); try reflexivity.
    rewrite <- filter_rev_comm. apply find_filter_implied.
    intros x Hx. apply String.eqb_eq in Hx. rewrite Hx.
    now apply mem_string_in. }
  assert (Hres : last_with_id u (named_users w) = resolve_user w u).
  { unfold resolve_user. rewrite <- !Hread.
    unfold named_users, last_with_id.
    rewrite !rev_app_distr, <- app_assoc, !find_app_first.
    reflexivity. }
  rewrite Hn, Hm. unfold new_entry. rewrite build_user_map_get, Hres.
  cbn [ByUser.userName ByUser.userEmail].
  destruct (resolve_user w u); split; reflexivity.
Qed.

Lemma generateDailyReport_names_witness :
  let e := ByUser.mk "bob" "Bob" "bob@example.org" 1 0 1 0 in
  match resolve_user (sample_world no_faults) (ByUser.userId e) with
  | Some u => ByUser.userName e = user_name u /\
              ByUser.userEmail e = user_email u
  | None => ByUser.userName e = "Unknown" /\ ByUser.userEmail e = ""
  end.
Proof.
  apply (generateDailyReport_names (sample_world no_faults)
           (snd (generateDailyReport (sample_world no_faults)))
           sample_report).
  - vm_compute. reflexivity.
  - simpl. right. left. reflexivity.
Defined.

Lemma iso_date_same_day (a b : Z) :
  (a / ms_per_day = b / ms_per_day)%Z -> iso_date a = iso_date b.
Proof. unfold iso_date. now intros ->. Qed.

Lemma start_of_day_day (zone t : Z) :
  ((- ms_per_day < zone <= 0 ->
    start_of_day zone t / ms_per_day = (t + zone) / ms_per_day) /\
   (0 < zone < ms_per_day ->
    start_of_day zone t / ms_per_day = (t + zone - ms_per_day) / ms_per_day))%Z.
Proof.
  unfold start_of_day, ms_per_day.
  set (q := ((t + zone) / 86400000)%Z). split; intros Hz.
  - replace (q * 86400000 - zone)%Z with (- zone + q * 86400000)%Z by lia.
    rewrite Z.div_add by lia. rewrite Z.div_small by lia. lia.
  - replace (q * 86400000 - zone)%Z
      with ((86400000 - zone) + (q - 1) * 86400000)%Z by lia.
    rewrite Z.div_add by lia. rewrite Z.div_small by lia.
    replace (t + zone - 86400000)%Z
      with ((t + zone) + (-1) * 86400000)%Z by lia.
    rewrite Z.div_add by lia. fold q. lia.
Qed.

(** The date a report carries.  The date is the UTC calendar day of the
    browser's local midnight: in a zone at or west of UTC (up to a day) it
    is the local calendar date of the run, in a zone east of UTC it is the
    day before it. *)
Theorem generateDailyReport_date (w w' : World)
    (r : DailyPerformanceReport) :
  generateDailyReport w = (Ok r, w') ->
  let local := (clock w (ticks w) + tz w)%Z in
  ((- ms_per_day < tz w <= 0)%Z -> date r = iso_date local) /\
  ((0 < tz w < ms_per_day)%Z -> date r = iso_date (local - ms_per_day)).
Proof.
  intros Hrun. apply generateDailyReport_ok_names in Hrun as [-> _].
  unfold today_of. cbv zeta.
  destruct (start_of_day_day (tz w) (clock w (ticks w))) as [Hw He].
  split; intros Hz; apply iso_date_same_day; auto.
Qed.

Lemma generateDailyReport_date_witness :
  let w := sample_world no_faults in
  let local := (clock w (ticks w) + tz w)%Z in
  ((- ms_per_day < tz w <= 0)%Z -> date sample_report = iso_date local) /\
  ((0 < tz w < ms_per_day)%Z ->
   date sample_report = iso_date (local - ms_per_day)).
Proof.
  apply (generateDailyReport_date (sample_world no_faults)
           (snd (generateDailyReport (sample_world no_faults)))
           sample_report).
  vm_compute. reflexivity.
Defined.

(** At 10:00 on 2025-01-18 in a zone 5 h 30 min east of UTC the report is
    dated 2025-01-17. *)
Example generateDailyReport_date_east :
  iso_date (clock east_world 0 + tz east_world) = "2025-01-18" /\
  exists r, fst (generateDailyReport east_world) = Ok r /\
            date r = "2025-01-17".
Proof.
  split; [reflexivity|]. eexists. split; vm_compute; reflexivity.
Qed.

(** ** More on the notification fan-out *)

Lemma batches_of_length (fuel i size : nat) (ns : list Notification) :
  0 < size -> List.length ns <= i + fuel * size ->
  List.length (batches_of fuel i size ns) =
  (List.length ns - i + (size - 1)) / size.
Proof.
  intros Hsize. revert i.
  induction fuel as [|fuel IH]; intros i Hlen; simpl.
  - replace (List.length ns - i) with 0 by lia. simpl.
    symmetry. apply Nat.div_small. lia.
  - destruct (Nat.ltb_spec i (List.length ns)) as [Hlt|Hge].
    + simpl. rewrite IH by lia.
      destruct (Nat.le_gt_cases (List.length ns) (i + size)) as [Hle|Hgt].
      * replace (List.length ns - (i + size)) with 0 by lia. simpl.
        rewrite (Nat.div_small (size - 1) size) by lia.
        replace (List.length ns - i + (size - 1))
          with ((List.length ns - i - 1) + 1 * size) by lia.
        rewrite Nat.div_add by lia.
        rewrite Nat.div_small by lia. reflexivity.
      * replace (List.length ns - i + (size - 1))
          with ((List.length ns - (i + size) + (size - 1)) + 1 * size)
          by lia.
        rewrite Nat.div_add by lia. lia.
    + replace (List.length ns - i) with 0 by lia. simpl.
      symmetry. apply Nat.div_small. lia.
Qed.

Lemma sendDailyReportToAllUsers_ok (w w' : World) :
  sendDailyReportToAllUsers w = (Ok tt, w') ->
  exists report,
    fst (generateDailyReport w) = Ok report /\
    let ns := built (report_title report) (formatReportMessage report)
                    (clock w) (2 + ticks w) (recipients w) in
    let bs := batches_of (List.length ns) 0 100 ns in
    List.length ns = List.length (recipients w) /\
    inserted_batches w' = inserted_batches w ++ bs /\
    notifications w' =
      notifications w ++ stored (net w) (8 + reqs w) bs /\
    reqs w' = List.length bs + (8 + reqs w).
Proof.
  unfold sendDailyReportToAllUsers, try_catch, bind at 1.
  destruct (generateDailyReport w) as [[report|e] w1] eqn:G;
    [|discriminate].
  pose proof (generateDailyReport_ok _ _ _ G) as (_ & _ & _ & ->).
  clear G. unfold bind at 1.
  destruct (promise_all3 _ _ _ _) as [[[[m p] a]|e] w1] eqn:R;
    [|discriminate].
  apply active_reads_ok in R as (-> & Hm & Hp & Ha).
  rewrite Hm, Hp, Ha. clear Hm Hp Ha m p a.
  cbn [advance net reqs members project_managers admins].
  unfold bind. rewrite make_notifications_run.
  cbn [advance clock ticks].
  destruct (insert_batches _ _ _ _ _) as [[[]|e] w2] eqn:I;
    [|discriminate].
  intros [= <-]. apply insert_batches_ok in I.
  cbn [advance net reqs members project_managers admins tasks
       deleted_tasks notifications inserted_batches clock ticks tz] in I.
  exists report. split; [reflexivity|]. cbv zeta.
  split.
  { pose proof (built_props (report_title report)
                  (formatReportMessage report) (clock w) (2 + ticks w)
                  (recipients w)) as [Hids _].
    apply (f_equal (@List.length string)) in Hids.
    now rewrite !length_map in Hids. }
  subst w2. cbn [inserted_batches notifications reqs].
  repeat split.
Qed.

(** How many inserts a run makes.  A run of sendDailyReportToAllUsers that
    completes submits the notifications of its n recipients in exactly
    ceil(n / 100) insert requests, after the eight reads; with no recipient
    it submits nothing and stores nothing. *)
Theorem sendDailyReportToAllUsers_request_count (w w' : World) :
  sendDailyReportToAllUsers w = (Ok tt, w') ->
  let n := List.length (recipients w) in
  List.length (inserted_batches w') =
    List.length (inserted_batches w) + (n + 99) / 100 /\
  reqs w' = reqs w + 8 + (n + 99) / 100 /\
  (n = 0 -> inserted_batches w' = inserted_batches w /\
            notifications w' = notifications w).
Proof.
  intros Hrun.
  apply sendDailyReportToAllUsers_ok in Hrun
    as (report & _ & Hn & Hins & Hst & Hreq).
  cbv zeta in *.
  set (ns := built (report_title report) (formatReportMessage report)
                   (clock w) (2 + ticks w) (recipients w)) in *.
  assert (Hlen : List.length (batches_of (List.length ns) 0 100 ns)
                 = (List.length (recipients w) + 99) / 100).
  { rewrite batches_of_length by lia. rewrite Hn. f_equal. lia. }
  split; [now rewrite Hins, length_app, Hlen|].
  split; [rewrite Hreq, Hlen; lia|].
  intros Hzero. rewrite Hzero in Hn.
  destruct ns as [|x ns]; [|discriminate Hn].
  simpl in Hins, Hst. rewrite app_nil_r in Hins, Hst. now split.
Qed.

Lemma sendDailyReportToAllUsers_request_count_witness :
  let w := sample_world no_faults in
  let w' := snd (sendDailyReportToAllUsers w) in
  let n := List.length (recipients w) in
  List.length (inserted_batches w') =
    List.length (inserted_batches w) + (n + 99) / 100 /\
  reqs w' = reqs w + 8 + (n + 99) / 100 /\
  (n = 0 -> inserted_batches w' = inserted_batches w /\
            notifications w' = notifications w).
Proof.
  apply (sendDailyReportToAllUsers_request_count (sample_world no_faults)
           (snd (sendDailyReportToAllUsers (sample_world no_faults)))).
  vm_compute. reflexivity.
Defined.

Lemma insert_batches_throw (fuel i size : nat) (ns : list Notification)
    (w w' : World) (e : PgError) :
  insert_batches fuel i size ns w = (Throw e, w') ->
  let bs := batches_of fuel i size ns in
  exists k,
    k < List.length bs /\
    net w (k + reqs w) = Reject e /\
    (forall j e', j < k -> net w (j + reqs w) <> Reject e') /\
    notifications w' =
      notifications w ++ stored (net w) (reqs w) (firstn k bs) /\
    inserted_batches w' = inserted_batches w ++ firstn (S k) bs.
Proof.
  revert i w. induction fuel as [|fuel IH]; intros i w; simpl.
  - unfold ret. discriminate.
  - destruct (i <? List.length ns)%nat; [|unfold ret; discriminate].
    unfold bind, insert_notifications.
    destruct (net w (reqs w)) as [|e0|e0] eqn:F.
    + intros H. apply IH in H. cbn [net reqs notifications
        inserted_batches] in H.
      destruct H as (k & Hk & Hrej & Hbefore & Hst & Hins).
      exists (S k). simpl. rewrite F.
      split; [lia|].
      split; [now rewrite <- Nat.add_succ_r|].
      split.
      { intros [|j] e' Hj; [simpl; rewrite F; discriminate|].
        simpl. rewrite <- Nat.add_succ_r. apply Hbefore. lia. }
      split; [now rewrite Hst, <- app_assoc|].
      now rewrite Hins, <- app_assoc.
    + intros H. apply IH in H. cbn [net reqs notifications
        inserted_batches] in H.
      destruct H as (k & Hk & Hrej & Hbefore & Hst & Hins).
      exists (S k). simpl. rewrite F.
      split; [lia|].
      split; [now rewrite <- Nat.add_succ_r|].
      split.
      { intros [|j] e' Hj; [simpl; rewrite F; discriminate|].
        simpl. rewrite <- Nat.add_succ_r. apply Hbefore. lia. }
      split; [exact Hst|].
      now rewrite Hins, <- app_assoc.
    + intros [= <- <-]. exists 0. simpl.
      split; [lia|]. split; [exact F|].
      split; [intros j e' Hj; lia|].
      split; [now rewrite app_nil_r | reflexivity].
Qed.

Lemma firstn_add {A} (a b : nat) (l : list A) :
  firstn (a + b) l = firstn a l ++ firstn b (skipn a l).
Proof.
  revert l. induction a as [|a IH]; intros l; simpl; [reflexivity|].
  destruct l as [|x l]; simpl; [now rewrite firstn_nil|].
  now rewrite IH.
Qed.

Lemma batches_of_prefix (fuel i size m : nat) (ns : list Notification) :
  0 < size -> List.length ns <= i + fuel * size ->
  List.concat (firstn m (batches_of fuel i size ns)) =
  firstn (size * m) (skipn i ns).
Proof.
  intros Hsize. revert i m.
  induction fuel as [|fuel IH]; intros i m Hlen; simpl.
  - rewrite firstn_nil, skipn_all2 by lia. now rewrite firstn_nil.
  - destruct (Nat.ltb_spec i (List.length ns)) as [Hlt|Hge].
    + destruct m as [|m]; simpl; [now rewrite Nat.mul_0_r|].
      rewrite IH by lia. unfold slice.
      replace (i + size - i) with size by lia.
      replace (size * S m) with (size + size * m) by lia.
      rewrite firstn_add, skipn_skipn.
      now rewrite (Nat.add_comm size i).
    + rewrite firstn_nil, skipn_all2 by lia. now rewrite firstn_nil.
Qed.

Lemma stored_in (faults : nat -> Fault) (slot : nat)
    (batches : list (list Notification)) (n : Notification) :
  In n (stored faults slot batches) -> In n (List.concat batches).
Proof.
  revert slot. induction batches as [|b bs IH]; intros slot; simpl;
    [tauto|].
  rewrite !in_app_iff. intros [H|H].
  - destruct (faults slot); [now left | destruct H | destruct H].
  - right. now apply (IH (S slot)).
Qed.

Lemma stored_accepted (faults : nat -> Fault) (slot : nat)
    (batches : list (list Notification)) :
  (forall j, j < List.length batches -> faults (j + slot) = NoFault) ->
  stored faults slot batches = List.concat batches.
Proof.
  revert slot. induction batches as [|b bs IH]; intros slot H; simpl;
    [reflexivity|].
  pose proof (H 0 ltac:(simpl; lia)) as H0. simpl in H0. rewrite H0.
  rewrite IH; [reflexivity|].
  intros j Hj. rewrite Nat.add_succ_r. apply (H (S j)). simpl. lia.
Qed.

(** A fan-out that breaks off.  When the batch loop of
    sendDailyReportToAllUsers throws, it is because an insert request
    rejected: the batches up to and including the rejected one, that is
    the first 100 (k + 1) notifications, were submitted and no later one;
    only rows of the first 100 k notifications can have been stored, and
    all of those are stored when the earlier inserts were accepted. *)
Theorem insert_batches_partial (notifications0 : list Notification)
    (w w' : World) (e : PgError) :
  insert_batches (List.length notifications0) 0 100 notifications0 w
  = (Throw e, w') ->
  exists k,
    100 * k < List.length notifications0 /\
    net w (k + reqs w) = Reject e /\
    List.concat (inserted_batches w') =
      List.concat (inserted_batches w)
      ++ firstn (100 * S k) notifications0 /\
    (forall n, In n (notifications w') ->
       In n (notifications w) \/ In n (firstn (100 * k) notifications0)) /\
    ((forall j, j < k -> net w (j + reqs w) = NoFault) ->
     notifications w' =
       notifications w ++ firstn (100 * k) notifications0).
Proof.
  intros Hrun. apply insert_batches_throw in Hrun.
  cbv zeta in Hrun.
  destruct Hrun as (k & Hk & Hrej & Hbefore & Hst & Hins).
  set (ns := notifications0) in *.
  set (bs := batches_of (List.length ns) 0 100 ns) in *.
  assert (Hprefix : forall m,
            List.concat (firstn m bs) = firstn (100 * m) ns).
  { intros m. unfold bs. rewrite batches_of_prefix by lia. reflexivity. }
  exists k.
  split.
  { unfold bs in Hk. rewrite batches_of_length in Hk by lia.
    rewrite Nat.sub_0_r in Hk. change (100 - 1) with 99 in Hk.
    pose proof (Nat.div_mod_eq (List.length ns + 99) 100) as Hd.
    pose proof (Nat.mod_upper_bound (List.length ns + 99) 100
                  ltac:(lia)) as Hm.
    lia. }
  split; [exact Hrej|].
  split; [now rewrite Hins, concat_app, Hprefix|].
  split.
  - intros n Hn. rewrite Hst in Hn. apply in_app_iff in Hn as [Hn|Hn];
      [now left|].
    right. rewrite <- Hprefix. now apply stored_in in Hn.
  - intros Hacc. rewrite Hst, stored_accepted, Hprefix; [reflexivity|].
    intros j Hj. apply Hacc.
    rewrite length_firstn in Hj. lia.
Qed.

Lemma insert_batches_partial_witness :
  let w := fanout_world in
  let w' := snd (insert_batches (List.length crowd) 0 100 crowd w) in
  exists k,
    100 * k < List.length crowd /\
    net w (k + reqs w) = Reject "offline" /\
    List.concat (inserted_batches w') =
      List.concat (inserted_batches w) ++ firstn (100 * S k) crowd /\
    (forall n, In n (notifications w') ->
       In n (notifications w) \/ In n (firstn (100 * k) crowd)) /\
    ((forall j, j < k -> net w (j + reqs w) = NoFault) ->
     notifications w' = notifications w ++ firstn (100 * k) crowd).
Proof.
  apply (insert_batches_partial crowd fanout_world
           (snd (insert_batches (List.length crowd) 0 100 crowd
                                fanout_world))
           "offline").
  vm_compute. reflexivity.
Defined.

(** ** The two digests *)

Lemma join_two (sep a : string) (rest : list string) :
  rest <> [] -> join sep (a :: rest) = (a ++ sep ++ join sep rest)%string.
Proof. destruct rest; [congruence | reflexivity]. Qed.

Lemma append_assoc_s (a b c : string) :
  ((a ++ b) ++ c = a ++ (b ++ c))%string.
Proof.
  induction a as [|x a IH]; simpl; [reflexivity | now rewrite IH].
Qed.

Lemma append_empty_r (a : string) : (a ++ "")%string = a.
Proof.
  induction a as [|x a IH]; simpl; [reflexivity | now rewrite IH].
Qed.

Lemma join_app (sep : string) (a b : list string) :
  a <> [] -> b <> [] ->
  join sep (a ++ b) = (join sep a ++ sep ++ join sep b)%string.
Proof.
  intros Ha Hb. induction a as [|x a IH]; [congruence|].
  destruct a as [|y a].
  - simpl. destruct b; [congruence | reflexivity].
  - change ((x :: y :: a) ++ b) with (x :: ((y :: a) ++ b)).
    rewrite join_two by discriminate.
    rewrite IH by discriminate.
    rewrite (join_two sep x (y :: a)) by discriminate.
    now rewrite !append_assoc_s.
Qed.

(** The two digests share their head.  For the same date and figures, the
    message of the database function and the message of
    formatReportMessage begin with the same text, the date line and the
    five metric lines; the database function then adds its pointer to the
    dashboard where formatReportMessage adds the top performers, and for
    an empty breakdown the former is the latter plus that pointer. *)
Theorem digests_share_header (report : DailyPerformanceReport) :
  let header := join newline (header_lines report) in
  Sql.report_message (date report) (metrics_of report) =
    (header ++ newline ++
     "Check the dashboard for detailed breakdown by team member.")%string /\
  (byUser report = [] -> formatReportMessage report = header) /\
  (byUser report <> [] ->
   formatReportMessage report =
     (header ++ newline ++ "🏆 Top Performers Today:" ++ newline ++
      join newline (performer_lines 0 (top_performers report)))%string) /\
  Sql.report_title (date report) = report_title report.
Proof.
  cbv zeta. split; [|split; [|split]].
  - unfold Sql.report_message, metrics_of, header_lines.
    cbn [Sql.total_tasks_count Sql.completed_count Sql.pending_count
         Sql.blocked_count Sql.deleted_count].
    rewrite !join_two by discriminate. cbn [join].
    rewrite !append_assoc_s. reflexivity.
  - intros E. unfold formatReportMessage, report_lines. rewrite E.
    reflexivity.
  - intros Hne. unfold formatReportMessage, report_lines.
    destruct (byUser report) as [|u us] eqn:E; [congruence|].
    cbn [List.length Nat.ltb Nat.leb].
    rewrite join_app; [|discriminate|discriminate].
    destruct (performer_lines 0 (top_performers report)) as [|l ls] eqn:L.
    + exfalso. apply (f_equal (@List.length string)) in L.
      rewrite performer_lines_length in L. unfold top_performers in L.
      rewrite length_firstn, E in L.
      rewrite (Permutation_length (sort_by_completed_perm _)) in L.
      simpl in L. lia.
    + now rewrite join_two by discriminate.
  - reflexivity.
Qed.

(** ** Lookups for the webhook payload *)

(** Which row getUserData returns.  When no request rejects, the contact
    is that of the only member with the id; failing that (no such member,
    several, or an error response) that of the only admin; failing that,
    that of the only project manager; else null.  A member found ends the
    lookup after one request. *)
Theorem getUserData_order (userId : string) (w : World) :
  Webhook.is_empty userId = false ->
  (forall k e, k < 3 -> net w (k + reqs w) <> Reject e) ->
  exists w',
    getUserData userId w =
    (Ok match only_row w (reqs w) (members w) userId with
        | Some m => Some (contact_of m)
        | None =>
            match only_row w (1 + reqs w) (admins w) userId with
            | Some a => Some (contact_of a)
            | None =>
                match only_row w (2 + reqs w) (project_managers w)
                               userId with
                | Some p => Some (contact_of p)
                | None => None
                end
            end
        end, w') /\
    (forall m, only_row w (reqs w) (members w) userId = Some m ->
               reqs w' = 1 + reqs w).
Proof.
  intros Hne Hrej.
  pose proof (Hrej 0) as R0. pose proof (Hrej 1) as R1.
  pose proof (Hrej 2) as R2. simpl in R0, R1, R2.
  unfold getUserData, try_catch, bind, maybe_single, only_row, found, ret.
  rewrite Hne. simpl.
  destruct (net w (reqs w)) as [|e0|e0] eqn:F0; simpl;
    [destruct (filter _ (members w)) as [|m [|m2 ms]]; simpl| |];
    try (exfalso; eapply R0; [lia | reflexivity]);
    try (eexists; split; [reflexivity | intros ? [= ?]; reflexivity]);
    (destruct (net w (S (reqs w))) as [|e1|e1] eqn:F1; simpl;
      [destruct (filter _ (admins w)) as [|a [|a2 az]]; simpl| |]);
    try (exfalso; eapply R1; [lia | reflexivity]);
    try (eexists; split; [reflexivity | intros ? [= ]]);
    (destruct (net w (S (S (reqs w)))) as [|e2|e2] eqn:F2; simpl;
      [destruct (filter _ (project_managers w)) as [|p [|p2 ps]]; simpl| |]);
    try (exfalso; eapply R2; [lia | reflexivity]);
    eexists; split; try reflexivity; intros ? [= ].
Qed.

Lemma getUserData_order_witness :
  let w := sample_world no_faults in
  exists w',
    getUserData "bob" w =
    (Ok match only_row w (reqs w) (members w) "bob" with
        | Some m => Some (contact_of m)
        | None =>
            match only_row w (1 + reqs w) (admins w) "bob" with
            | Some a => Some (contact_of a)
            | None =>
                match only_row w (2 + reqs w) (project_managers w)
                               "bob" with
                | Some p => Some (contact_of p)
                | None => None
                end
            end
        end, w') /\
    (forall m, only_row w (reqs w) (members w) "bob" = Some m ->
               reqs w' = 1 + reqs w).
Proof.
  apply (getUserData_order "bob" (sample_world no_faults)).
  - reflexivity.
  - intros k e _. discriminate.
Defined.



(** ** Changing the webhook setting *)

Module WebhookAdminProps.
Import Webhook WebhookAdmin.

Lemma find_filter_head {A} (p : A -> bool) (l : list A) :
  find p l = match filter p l with [] => None | x :: _ => Some x end.
Proof.
  induction l as [|x l IH]; simpl; [reflexivity|].
  now destruct (p x).
Qed.

Lemma filter_replace_key (row : WebhookSetting)
    (rows : list WebhookSetting) :
  has_key row = true ->
  filter has_key (map (fun r => if has_key r then row else r) rows) =
  map (fun _ => row) (filter has_key rows).
Proof.
  intros Hrow. induction rows as [|r rows IH]; simpl; [reflexivity|].
  destruct (has_key r) eqn:E; simpl.
  - now rewrite Hrow, IH.
  - now rewrite E, IH.
Qed.

Lemma filter_replace_others (row : WebhookSetting)
    (rows : list WebhookSetting) :
  has_key row = true ->
  filter (fun r => negb (has_key r))
         (map (fun r => if has_key r then row else r) rows) =
  filter (fun r => negb (has_key r)) rows.
Proof.
  intros Hrow. induction rows as [|r rows IH]; simpl; [reflexivity|].
  destruct (has_key r) eqn:E; simpl.
  - now rewrite Hrow.
  - now rewrite E, IH.
Qed.

Lemma updateWebhookSetting_ok (defaults : Defaults) (enabled : bool)
    (given_url : option string) (env : Env) :
  List.length (filter has_key (webhook_settings env)) <= 1 ->
  let value :=
    mkSettingValue enabled
      (or_else match given_url with Some u => u | None => "" end
               (or_else (url_before env) default_url)) in
  exists row env',
    updateWebhookSetting NoFault defaults enabled given_url env
    = (Ok (Some row), env') /\
    setting_value row = Some value /\
    filter has_key (webhook_settings env') = [row] /\
    filter (fun r => negb (has_key r)) (webhook_settings env') =
      filter (fun r => negb (has_key r)) (webhook_settings env) /\
    settings_fault env' = settings_fault env /\
    fetch_outcome env' = fetch_outcome env /\
    posts env' = posts env.
Proof.
  intros Huniq. cbv zeta.
  unfold updateWebhookSetting, getWebhookSetting, default_setting,
    select_setting, upsert_setting, Webhook.newDate, try_catch, bind, ret,
    url_before, stored_value.
  change (fun r : WebhookSetting =>
            String.eqb (setting_key r) "task_webhook_enabled")
    with has_key.
  rewrite !find_filter_head.
  destruct (settings_fault env) eqn:F; cbn;
    rewrite ?find_filter_head;
    destruct (filter has_key (webhook_settings env))
      as [|old [|old2 rest]] eqn:R;
    cbn; try (simpl in Huniq; lia);
    rewrite ?find_filter_head, ?R; cbn;
    rewrite ?find_filter_head, ?R; cbn;
    do 2 eexists; (split; [reflexivity|]); cbn;
    try (rewrite filter_replace_key, filter_replace_others, R
           by reflexivity);
    try (rewrite !filter_app, R; cbn; rewrite app_nil_r);
    try (destruct (setting_value old) as [[en u]|]; cbn);
    repeat split; rewrite ?F; reflexivity.
Qed.

Lemma getWebhookSetting_configured (env : Env) :
  exists setting env1,
    getWebhookSetting env = (Ok (Some setting), env1) /\
    fetch_outcome env1 = fetch_outcome env /\
    posts env1 = posts env /\
    configured env = setting_value setting.
Proof.
  unfold configured, getWebhookSetting, default_setting, select_setting,
    Webhook.newDate, try_catch, bind, ret.
  destruct (settings_fault env); cbn;
    [destruct (filter _ (webhook_settings env)) as [|row [|row2 rest]];
     cbn|..];
    do 2 eexists; repeat split.
Qed.

Lemma configured_single (env : Env) (row : WebhookSetting) :
  settings_fault env = NoFault ->
  filter has_key (webhook_settings env) = [row] ->
  configured env = setting_value row.
Proof.
  intros F R.
  unfold configured, getWebhookSetting, default_setting, select_setting,
    Webhook.newDate, try_catch, bind, ret.
  change (fun r : WebhookSetting =>
            String.eqb (setting_key r) "task_webhook_enabled")
    with has_key.
  now rewrite F, R.
Qed.

Lemma or_else_not_empty (a : string) :
  is_empty (or_else a default_url) = false.
Proof. unfold or_else. now destruct a. Qed.

Lemma toggleWebhook_of_update (write : Fault) (defaults : Defaults)
    (enabled : bool) (env env' : Env) (o : option WebhookSetting) :
  updateWebhookSetting write defaults enabled None env = (Ok o, env') ->
  toggleWebhook write defaults enabled env =
  (Ok match o with Some _ => true | None => false end, env').
Proof.
  intros H. unfold toggleWebhook, try_catch, bind. now rewrite H.
Qed.

(** Toggling keeps the URL.  With the key unique in the table and the
    settings readable, a toggle whose write succeeds returns true, and
    reading the setting back gives the new enabled flag with the URL that
    was configured before, or the default URL if none was; the URL read
    back is never empty. *)
Theorem toggleWebhook_round_trip (defaults : Defaults) (enabled : bool)
    (env : Env) :
  List.length (filter has_key (webhook_settings env)) <= 1 ->
  settings_fault env = NoFault ->
  exists env',
    toggleWebhook NoFault defaults enabled env = (Ok true, env') /\
    configured env' =
      Some (mkSettingValue enabled (or_else (url_before env) default_url))
    /\
    is_empty (or_else (url_before env) default_url) = false /\
    (forall value, configured env = Some value -> url value <> "" ->
       or_else (url_before env) default_url = url value).
Proof.
  intros Huniq F.
  destruct (updateWebhookSetting_ok defaults enabled None env Huniq)
    as (row & env' & Hrun & Hval & Hrows & _ & Hfault & _).
  exists env'. split; [apply (toggleWebhook_of_update _ _ _ _ _ _ Hrun)|].
  split.
  { rewrite (configured_single env' row); [exact Hval| |exact Hrows].
    now rewrite Hfault. }
  split; [apply or_else_not_empty|].
  intros value Hcfg Hurl. unfold url_before, stored_value.
  rewrite F, find_filter_head.
  destruct (filter has_key (webhook_settings env)) as [|old [|old2 rest]]
    eqn:R; try (simpl in Huniq; lia).
  - revert Hcfg. unfold configured, getWebhookSetting, default_setting,
      select_setting, Webhook.newDate, try_catch, bind, ret.
    change (fun r : WebhookSetting =>
              String.eqb (setting_key r) "task_webhook_enabled")
      with has_key.
    rewrite F, R. cbn. now intros [= <-].
  - rewrite (configured_single env old F R) in Hcfg. rewrite Hcfg.
    unfold or_else. destruct (url value); [congruence | reflexivity].
Qed.

Lemma toggleWebhook_round_trip_witness :
  let env := custom_env NoFault in
  exists env',
    toggleWebhook NoFault sample_defaults false env = (Ok true, env') /\
    configured env' =
      Some (mkSettingValue false (or_else (url_before env) default_url))
    /\
    is_empty (or_else (url_before env) default_url) = false /\
    (forall value, configured env = Some value -> url value <> "" ->
       or_else (url_before env) default_url = url value).
Proof.
  apply (toggleWebhook_round_trip sample_defaults false
           (custom_env NoFault)).
  - simpl. lia.
  - reflexivity.
Defined.



(** A custom URL is lost when the read fails: toggling the sample table,
    which holds https://hooks.example.org/t, while the read returns an
    error leaves the default URL stored. *)
Example toggle_resets_custom_url :
  let env := custom_env (RespError "permission denied") in
  url_before (custom_env NoFault) = "https://hooks.example.org/t" /\
  stored_value (snd (toggleWebhook NoFault sample_defaults false env)) =
    Some (mkSettingValue false default_url).
Proof. split; reflexivity. Qed.

(** toggleWebhook never throws: it returns true exactly when the write
    succeeds, and a write that fails (an error response or a rejection)
    leaves the table as it was. *)
Theorem toggleWebhook_never_throws (write : Fault) (defaults : Defaults)
    (enabled : bool) (env : Env) :
  exists b env',
    toggleWebhook write defaults enabled env = (Ok b, env') /\
    (b = true <-> write = NoFault) /\
    (write <> NoFault -> webhook_settings env' = webhook_settings env).
Proof.
  destruct (getWebhookSetting_configured env)
    as (setting & env1 & Hget & _ & _ & _).
  assert (Htable : webhook_settings env1 = webhook_settings env).
  { revert Hget. unfold getWebhookSetting, default_setting, select_setting,
      Webhook.newDate, try_catch, bind, ret.
    destruct (settings_fault env); cbn;
      [destruct (filter _ (webhook_settings env)) as [|row [|row2 rest]];
       cbn|..];
      now intros [= _ <-]. }
  unfold toggleWebhook, updateWebhookSetting, try_catch, bind at 1 2 3.
  rewrite Hget. unfold bind, upsert_setting, ret.
  destruct write as [|e|e]; cbn.
  - destruct (find has_key (webhook_settings env1)); cbn;
      do 2 eexists; (split; [reflexivity|]);
      (split; [split; reflexivity | congruence]).
  - do 2 eexists. split; [reflexivity|].
    split; [split; discriminate | intros _; exact Htable].
  - do 2 eexists. split; [reflexivity|].
    split; [split; discriminate | intros _; exact Htable].
Qed.

Lemma sendTaskWebhook_by_setting (d : TaskWebhookData) (env : Env) :
  match configured env with
  | Some value =>
      if enabled value && negb (is_empty (url value)) then
        exists timestamp env',
          sendTaskWebhook d env =
          (Ok match fetch_outcome env (url value) with
              | Resolved response => ok response
              | Rejected _ => false
              end, env') /\
          posts env' =
            posts env ++ [(url value, webhookPayload d timestamp)]
      else
        exists env', sendTaskWebhook d env = (Ok false, env') /\
                     posts env' = posts env
  | None =>
      exists env', sendTaskWebhook d env = (Ok false, env') /\
                   posts env' = posts env
  end.
Proof.
  destruct (getWebhookSetting_configured env)
    as (setting & env1 & Hget & Hfetch & Hposts & ->).
  assert (Hrun : sendTaskWebhook d env =
    match setting_value setting with
    | None => (Ok false, env1)
    | Some value =>
        if negb (enabled value) then (Ok false, env1)
        else if is_empty (url value) then (Ok false, env1)
        else
          try_catch
            (timestamp <- Webhook.newDate ;;
             response <- fetch_post (url value)
                           (webhookPayload d timestamp) ;;
             if ok response then ret true else ret false)%M
            (fun _ => ret false) env1
    end).
  { unfold sendTaskWebhook, try_catch, bind at 1. rewrite Hget.
    destruct (setting_value setting) as [[en u]|]; [|reflexivity].
    cbn [enabled url]. destruct en; [|reflexivity].
    destruct u; reflexivity. }
  rewrite Hrun. clear Hrun.
  destruct (setting_value setting) as [[en u]|];
    [|eexists; split; [reflexivity | exact Hposts]].
  cbn [enabled url]. destruct en; cbn [negb andb];
    [|eexists; split; [reflexivity | exact Hposts]].
  destruct u as [|c u]; cbn [is_empty negb];
    [eexists; split; [reflexivity | exact Hposts]|].
  unfold try_catch, bind, Webhook.newDate, fetch_post, ret. cbn.
  rewrite Hfetch.
  destruct (fetch_outcome env (String c u)) as [[st []]|e]; cbn;
    do 2 eexists; (split; [reflexivity|]); cbn; now rewrite Hposts.
Qed.

(** Toggling and then dispatching.  With the key unique and the settings
    readable, after a successful toggle to disabled the next
    sendTaskWebhook resolves to false and makes no POST; after a
    successful toggle to enabled it POSTs once, to the URL that was
    configured before the toggle (the default one if there was none), and
    resolves to the ok flag of the response. *)
Theorem toggleWebhook_then_send (defaults : Defaults) (on : bool)
    (d : TaskWebhookData) (env : Env) :
  List.length (filter has_key (webhook_settings env)) <= 1 ->
  settings_fault env = NoFault ->
  let env1 := snd (toggleWebhook NoFault defaults on env) in
  let target := or_else (url_before env) default_url in
  if on then
    exists timestamp env2,
      sendTaskWebhook d env1 =
      (Ok match fetch_outcome env target with
          | Resolved response => ok response
          | Rejected _ => false
          end, env2) /\
      posts env2 = posts env ++ [(target, webhookPayload d timestamp)]
  else
    exists env2, sendTaskWebhook d env1 = (Ok false, env2) /\
                 posts env2 = posts env.
Proof.
  intros Huniq F. cbv zeta.
  destruct (updateWebhookSetting_ok defaults on None env Huniq)
    as (row & env' & Hrun & Hval & Hrows & _ & Hfault & Hfetch & Hposts).
  rewrite (toggleWebhook_of_update _ _ _ _ _ _ Hrun). cbn [snd].
  pose proof (sendTaskWebhook_by_setting d env') as Hsend.
  rewrite (configured_single env' row) in Hsend;
    [| now rewrite Hfault | exact Hrows].
  rewrite Hval in Hsend. cbn [enabled url or_else] in Hsend.
  change (or_else "" (or_else (url_before env) default_url))
    with (or_else (url_before env) default_url) in Hsend.
  rewrite or_else_not_empty, Hfetch, Hposts in Hsend.
  destruct on; exact Hsend.
Qed.

Lemma toggleWebhook_then_send_witness :
  let env := custom_env NoFault in
  let d := mkTaskWebhookData
             (JString "t1") (JString "Write report") JUndefined
             (JString "completed") (JString "pending") (JString "high")
             (JString "Alice") (JString "alice@example.org")
             JUndefined JUndefined (JString "Bob")
             (JString "bob@example.org") JUndefined JUndefined
             (JNumber 100) JUndefined task_updated JUndefined JUndefined
             JUndefined JUndefined in
  let env1 := snd (toggleWebhook NoFault sample_defaults true env) in
  let target := or_else (url_before env) default_url in
  exists timestamp env2,
    sendTaskWebhook d env1 =
    (Ok match fetch_outcome env target with
        | Resolved response => ok response
        | Rejected _ => false
        end, env2) /\
    posts env2 = posts env ++ [(target, webhookPayload d timestamp)].
Proof.
  intros env d.
  apply (toggleWebhook_then_send sample_defaults true d env).
  - simpl. lia.
  - reflexivity.
Defined.

End WebhookAdminProps.

(** getProjectData never throws.  It resolves to null without any request
    for an empty id (the id the callers pass for a task without project),
    and to the project's name exactly when the request succeeds and
    exactly one project has the id. *)
Theorem getProjectData_result (projects : list ProjectRow)
    (projectId : string) (w : World) :
  exists o w',
    getProjectData projects projectId w = (Ok o, w') /\
    (projectId = "" -> o = None /\ w' = w) /\
    (forall name,
       o = Some name <->
       projectId <> "" /\ net w (reqs w) = NoFault /\
       exists row,
         filter (fun p => String.eqb (project_id p) projectId) projects
         = [row] /\
         project_name row = name).
Proof.
  unfold getProjectData, try_catch, bind, maybe_single, ret.
  destruct projectId as [|ch rest] eqn:U; cbn [Webhook.is_empty].
  { do 2 eexists. split; [reflexivity|]. split; [now split|].
    intros name. split; [discriminate|]. intros [H _]. congruence. }
  rewrite <- U. simpl.
  assert (Hne : projectId <> "") by (rewrite U; discriminate).
  destruct (net w (reqs w)) as [|e|e] eqn:F; simpl;
    [destruct (filter _ projects) as [|row [|row2 rows]] eqn:R; simpl| |];
    do 2 eexists; (split; [reflexivity|]);
    (split; [intros E; congruence|]);
    intros name; split;
    try discriminate;
    try (intros (_ & _ & row0 & H & _); discriminate H);
    try (intros (_ & H & _); discriminate H).
  - intros [= <-]. repeat split; try assumption. now exists row.
  - intros (_ & _ & row0 & [= <-] & <-). reflexivity.
Qed.

(** ** fetchTasks and what it attaches *)

Module HookFetchProps.
Import HookFetch.

Lemma with_role_get (role userId : string) (rows : list UserRow)
    (m : JsMap AttachedUser) :
  map_get userId (with_role role rows m) =
  match last_with_id userId rows with
  | Some row => Some (mkAttachedUser row role)
  | None => map_get userId m
  end.
Proof.
  unfold with_role, last_with_id. revert m.
  induction rows as [|u rows IH]; intros m; simpl; [reflexivity|].
  rewrite IH, find_app_first.
  destruct (find _ (rev rows)); [reflexivity|]. simpl.
  destruct (String.eqb_spec (user_id u) userId) as [E|E].
  - rewrite E. apply map_get_set_same.
  - now apply map_get_set_other.
Qed.

Lemma wanted_read (w : World) (slot : nat) (table : list UserRow)
    (userIds : list string) (userId : string) :
  In userId userIds ->
  last_with_id userId
    (match net w slot with
     | NoFault =>
         filter (fun u => mem_string (user_id u) userIds
                          && user_is_active u) table
     | _ => []
     end)
  = active_with_id w slot table userId.
Proof.
  intros Hin. unfold active_with_id, table_read, last_with_id.
  destruct (net w slot); try reflexivity.
  rewrite filter_andb, <- filter_rev_comm. apply find_filter_implied.
  intros x Hx. apply String.eqb_eq in Hx. rewrite Hx.
  now apply mem_string_in.
Qed.

(** What fetchUserDataForTasks attaches.  It never throws and returns the
    same tasks in the same order, without a project property.  When none
    of its three reads rejects, a task gets the active project manager
    with its user_id, else the active admin, else the active member, each
    marked with that role, and null when there is none or the read
    returned an error; when a read rejects every task gets null.  For no
    tasks it makes no request. *)
Theorem fetchUserDataForTasks_attaches (tasks : list Hook.DailyTask)
    (w : World) :
  exists views w',
    fetchUserDataForTasks tasks w = (Ok views, w') /\
    map view_task views = tasks /\
    (tasks = [] -> w' = w) /\
    Forall (fun v =>
              view_project v = NoProperty /\
              view_user v =
                if rejects w (reqs w) || rejects w (1 + reqs w)
                   || rejects w (2 + reqs w)
                then None
                else attached w (Hook.user_id (view_task v)))
           views.
Proof.
  destruct tasks as [|t0 ts].
  { exists [], w. repeat split. constructor. }
  unfold fetchUserDataForTasks. cbv iota.
  set (tasks := t0 :: ts).
  assert (T : tasks <> []) by discriminate.
  assert (Hids : forall t, In t tasks ->
            In (Hook.user_id t) (uniq (map Hook.user_id tasks))).
  { intros t Ht. apply uniq_in. now apply in_map. }
  clearbody tasks.
  unfold try_catch, bind, promise_all3, select, ret, rejects, data_rows.
  cbn -[with_role attached uniq].
  destruct (net w (reqs w)) as [|e0|e0] eqn:F0;
    cbn -[with_role attached uniq];
    destruct (net w (S (reqs w))) as [|e1|e1] eqn:F1;
    cbn -[with_role attached uniq];
    destruct (net w (S (S (reqs w)))) as [|e2|e2] eqn:F2;
    cbn -[with_role attached uniq];
    do 2 eexists; (split; [reflexivity|]);
    (split; [rewrite map_map; apply map_id|]);
    (split; [intros E; now destruct (T E)|]);
    apply Forall_forall; intros v Hv;
    apply in_map_iff in Hv as (t & <- & Ht);
    cbn [view_user view_project view_task];
    (split; [reflexivity|]); try reflexivity;
    rewrite !with_role_get; cbn [map_get];
    unfold attached;
    pose proof (wanted_read w (reqs w) (members w) _ _ (Hids t Ht)) as Rm;
    pose proof (wanted_read w (S (reqs w)) (admins w) _ _ (Hids t Ht))
      as Ra;
    pose proof (wanted_read w (S (S (reqs w))) (project_managers w) _ _
                  (Hids t Ht)) as Rp;
    rewrite F0 in Rm; rewrite F1 in Ra; rewrite F2 in Rp;
    cbn [Nat.add]; rewrite <- Rm, <- Ra, <- Rp; reflexivity.
Qed.

Lemma fetchUserDataForTasks_same_tasks (tasks : list Hook.DailyTask)
    (w : World) :
  exists views w',
    fetchUserDataForTasks tasks w = (Ok views, w') /\
    map view_task views = tasks.
Proof.
  destruct tasks as [|t0 ts].
  { exists [], w. now split. }
  unfold fetchUserDataForTasks. cbv iota.
  generalize (t0 :: ts) as tasks. intros tasks.
  unfold try_catch, bind, promise_all3, select, ret.
  cbn -[with_role uniq].
  destruct (net w (reqs w)); cbn -[with_role uniq];
    destruct (net w (S (reqs w))); cbn -[with_role uniq];
    destruct (net w (S (S (reqs w)))); cbn -[with_role uniq];
    do 2 eexists; (split; [reflexivity|]);
    rewrite map_map; apply map_id.
Qed.

Lemma fetchProjectDataForTasks_same_tasks (projects : list ProjectInfo)
    (tasks : list TaskView) (w : World) :
  exists out w',
    fetchProjectDataForTasks projects tasks w = (Ok out, w') /\
    map view_task out = map view_task tasks /\
    map view_user out = map view_user tasks.
Proof.
  destruct tasks as [|v0 vs].
  { exists [], w. now repeat split. }
  unfold fetchProjectDataForTasks. cbv iota.
  generalize (v0 :: vs) as tasks. intros tasks.
  unfold try_catch, bind, select, ret.
  destruct (uniq (project_ids tasks)) as [|p ps];
    [do 2 eexists; now repeat split|].
  destruct (net w (reqs w)); cbn -[project_map];
    do 2 eexists; (split; [reflexivity|]);
    rewrite ?map_map; now split.
Qed.

Lemma insert_newest_perm (x : DailyTaskRow) (l : list DailyTaskRow) :
  Permutation (insert_newest x l) (x :: l).
Proof.
  induction l as [|y l IH]; simpl; [reflexivity|].
  destruct (row_created_at x <? row_created_at y)%Z; [|reflexivity].
  rewrite IH. apply perm_swap.
Qed.

Lemma newest_first_perm (l : list DailyTaskRow) :
  Permutation (newest_first l) l.
Proof.
  induction l as [|x l IH]; simpl; [reflexivity|].
  rewrite insert_newest_perm. now constructor.
Qed.

Lemma insert_newest_sorted (x : DailyTaskRow) (l : list DailyTaskRow) :
  StronglySorted (fun a b => (row_created_at b <= row_created_at a)%Z) l ->
  StronglySorted (fun a b => (row_created_at b <= row_created_at a)%Z)
                 (insert_newest x l).
Proof.
  induction 1 as [|y l Hs IH Hall]; simpl.
  - repeat constructor.
  - destruct (Z.ltb_spec (row_created_at x) (row_created_at y)).
    + constructor; [exact IH|].
      apply Forall_forall. intros z Hz.
      apply (Permutation_in _ (insert_newest_perm x l)) in Hz.
      destruct Hz as [<-|Hz]; [lia|].
      rewrite Forall_forall in Hall. now apply Hall.
    + constructor; [now constructor|].
      constructor; [exact H|].
      apply Forall_forall. intros z Hz.
      rewrite Forall_forall in Hall. specialize (Hall z Hz). lia.
Qed.

Lemma newest_first_sorted (l : list DailyTaskRow) :
  StronglySorted (fun a b => (row_created_at b <= row_created_at a)%Z)
                 (newest_first l).
Proof.
  induction l as [|x l IH]; simpl; [constructor|].
  now apply insert_newest_sorted.
Qed.

Lemma fetchTasks_run (table : list DailyTaskRow)
    (projects : list ProjectInfo) (filters : Hook.DailyTaskFilters)
    (user : Hook.AuthUser) (prev : HookState) (w : World) :
  exists st w',
    fetchTasks table projects filters (Some user) prev w = (Ok st, w') /\
    st_loading st = false /\
    match net w (reqs w) with
    | NoFault =>
        st_error st = None /\
        map view_task (st_tasks st) =
          map row_task
            (newest_first
               (filter (fun r => Hook.fetch_selects filters user
                                   (row_task r)) table))
    | RespError e =>
        st_tasks st = [] /\
        st_error st = Some (message_or e "Failed to fetch daily tasks")
    | Reject _ =>
        st_tasks st = [] /\
        st_error st = Some "Failed to fetch daily tasks"
    end.
Proof.
  unfold fetchTasks, try_catch, bind at 1, select.
  destruct (net w (reqs w)) as [|e|e]; cbn [error data data_rows].
  - set (rows := newest_first _).
    destruct (fetchUserDataForTasks_same_tasks (map row_task rows)
                (next_request w)) as (views & w1 & Hu & Hviews).
    unfold bind at 1. rewrite Hu.
    destruct (fetchProjectDataForTasks_same_tasks projects views w1)
      as (out & w2 & Hp & Hout & _).
    unfold bind. rewrite Hp. unfold ret.
    do 2 eexists. split; [reflexivity|]. cbn.
    repeat split. now rewrite Hout, Hviews.
  - unfold ret. do 2 eexists. repeat split.
  - unfold ret. do 2 eexists. repeat split.
Qed.

Lemma fold_project_map_get (p : string) (rows : list ProjectInfo)
    (m : JsMap ProjectInfo) :
  map_get p (fold_left (fun m project => map_set (pi_id project) project m)
                       rows m) =
  match find (fun r => String.eqb (pi_id r) p) (rev rows) with
  | Some r => Some r
  | None => map_get p m
  end.
Proof.
  revert m. induction rows as [|r rows IH]; intros m; simpl; [reflexivity|].
  rewrite IH, find_app_first.
  destruct (find _ (rev rows)); [reflexivity|]. simpl.
  destruct (String.eqb_spec (pi_id r) p) as [E|E].
  - rewrite E. apply map_get_set_same.
  - now apply map_get_set_other.
Qed.

Lemma project_map_get (p : string) (rows : list ProjectInfo) :
  map_get p (project_map rows) =
  find (fun r => String.eqb (pi_id r) p) (rev rows).
Proof.
  unfold project_map. rewrite fold_project_map_get.
  now destruct (find _ (rev rows)).
Qed.

(** What fetchProjectDataForTasks attaches.  It never throws and keeps the
    tasks and their users.  When no task has a project id it returns the
    tasks as they are without any request, and so it does when the read
    returns an error; when the read rejects every task gets a null
    project.  When the read succeeds, a task with a project id gets a
    project with that id from the table, or null if there is none, and a
    task without project id gets null. *)
Theorem fetchProjectDataForTasks_attaches (projects : list ProjectInfo)
    (tasks : list TaskView) (w : World) :
  exists out w',
    fetchProjectDataForTasks projects tasks w = (Ok out, w') /\
    map view_task out = map view_task tasks /\
    map view_user out = map view_user tasks /\
    (project_ids tasks = [] -> out = tasks /\ w' = w) /\
    (project_ids tasks <> [] ->
     match net w (reqs w) with
     | NoFault =>
         Forall (fun v =>
                   match project_of (view_task v), view_project v with
                   | Some p, TheProject row =>
                       pi_id row = p /\ In row projects
                   | Some p, NullProject =>
                       forall row, In row projects -> pi_id row <> p
                   | None, NullProject => True
                   | _, _ => False
                   end) out
     | RespError _ => out = tasks
     | Reject _ => Forall (fun v => view_project v = NullProject) out
     end).
Proof.
  destruct tasks as [|v0 vs].
  { exists [], w. repeat split. intros H. now destruct H. }
  unfold fetchProjectDataForTasks. cbv iota.
  generalize (v0 :: vs) as tasks. intros tasks.
  unfold try_catch, bind, select, ret.
  destruct (project_ids tasks) as [|p0 ps] eqn:Ids.
  { do 2 eexists. split; [reflexivity|]. repeat split.
    intros H. now destruct H. }
  assert (Hu : uniq (p0 :: ps) <> []).
  { unfold uniq. simpl. discriminate. }
  destruct (uniq (p0 :: ps)) as [|u us] eqn:U; [now destruct Hu|].
  rewrite <- U. clear Hu.
  assert (Hin : forall v p, In v tasks -> project_of (view_task v) = Some p ->
                            In p (uniq (p0 :: ps))).
  { intros v p Hv Hp. apply uniq_in. rewrite <- Ids. clear -Hv Hp.
    induction tasks as [|x l IH]; [destruct Hv|]. simpl.
    destruct Hv as [->|Hv].
    - rewrite Hp. now left.
    - destruct (project_of (view_task x)); [right|]; now apply IH. }
  destruct (net w (reqs w)) as [|e|e] eqn:F;
    cbn -[project_map uniq mem_string];
    do 2 eexists; (split; [reflexivity|]);
    rewrite ?map_map;
    (split; [reflexivity|]); (split; [reflexivity|]);
    (split; [discriminate|]); intros _; try reflexivity.
  - apply Forall_forall. intros v Hv.
    apply in_map_iff in Hv as (x & <- & Hx).
    cbn [view_task view_project with_project].
    destruct (project_of (view_task x)) as [p|] eqn:P; [|exact I].
    rewrite project_map_get, <- filter_rev_comm.
    rewrite find_filter_implied.
    + destruct (find _ (rev projects)) as [row|] eqn:Fd.
      * apply find_some in Fd as [Hrow Hid].
        apply in_rev in Hrow. now apply String.eqb_eq in Hid.
      * intros row Hrow Hid.
        pose proof (find_none _ _ Fd row (proj1 (in_rev _ _) Hrow)) as Hn.
        cbv beta in Hn. rewrite Hid, String.eqb_refl in Hn.
        discriminate Hn.
    + intros r Hr. apply String.eqb_eq in Hr. rewrite Hr.
      apply mem_string_in. now apply (Hin x).
  - apply Forall_forall. intros v Hv.
    apply in_map_iff in Hv as (x & <- & _). reflexivity.
Qed.

(** What fetchTasks leaves in the state.  For a signed-in user it always
    ends with loading off.  When the query succeeds the error is cleared
    and the tasks are exactly the rows the query selects, newest first;
    when the query returns an error or rejects, the tasks are emptied and
    an error message is set.  Without a user only loading is switched
    off, with no request. *)
Theorem fetchTasks_state (table : list DailyTaskRow)
    (projects : list ProjectInfo) (filters : Hook.DailyTaskFilters)
    (user : Hook.AuthUser) (prev : HookState) (w : World) :
  (exists st w',
     fetchTasks table projects filters (Some user) prev w = (Ok st, w') /\
     st_loading st = false /\
     match net w (reqs w) with
     | NoFault =>
         st_error st = None /\
         exists rows,
           map view_task (st_tasks st) = map row_task rows /\
           Permutation rows
             (filter (fun r => Hook.fetch_selects filters user (row_task r))
                     table) /\
           StronglySorted
             (fun a b => (row_created_at b <= row_created_at a)%Z) rows
     | RespError e =>
         st_tasks st = [] /\
         st_error st = Some (if Webhook.is_empty e
                             then "Failed to fetch daily tasks" else e)
     | Reject _ =>
         st_tasks st = [] /\
         st_error st = Some "Failed to fetch daily tasks"
     end) /\
  fetchTasks table projects filters None prev w =
    (Ok (mkHookState (st_tasks prev) false (st_error prev)), w).
Proof.
  split; [|reflexivity].
  destruct (fetchTasks_run table projects filters user prev w)
    as (st & w' & Hrun & Hload & Hcase).
  exists st, w'. split; [exact Hrun|]. split; [exact Hload|].
  destruct (net w (reqs w)); [|exact Hcase|exact Hcase].
  destruct Hcase as [Herr Htasks]. split; [exact Herr|].
  eexists. split; [exact Htasks|].
  split; [apply newest_first_perm | apply newest_first_sorted].
Qed.





End HookFetchProps.

(** ** The edge function daily-performance-report *)

Module EdgeProps.




End EdgeProps.

(** ** The report page *)

Module ReportViewProps.

Lemma fetchReport_run (day : Z) (st : ReportView.ViewState) (w : World) :
  fst (ReportView.fetchReport day st w) =
  Ok (if ReportView.fetch_fails w
      then ReportView.mkViewState (ReportView.report st) false
             (ReportView.toasts st ++ ["Failed to fetch report"])
      else
        let ts := ReportView.picked day w in
        let now := clock w (ticks w) in
        ReportView.mkViewState
          (Some (ReportView.mkDailyReportData
                   (iso_date (ReportView.date_instant day))
                   (List.length ts)
                   (List.length (filter is_completed ts))
                   (List.length (filter (fun t => negb (is_completed t)) ts))
                   (List.length (filter (is_blocked now) ts))
                   (match net w (S (reqs w)) with
                    | NoFault =>
                        List.length (ReportView.picked_deleted day w)
                    | _ => 0
                    end)
                   (ReportView.sort_by_completed
                      (map_values
                         (fold_left
                            (ReportView.tally now
                               (ReportView.build_name_map
                                  (ReportView.named day w)))
                            ts [])))))
          false (ReportView.toasts st)).
Proof.
  unfold ReportView.fetchReport, ReportView.fetch_fails, ReportView.rejects,
    ReportView.named, ReportView.picked, ReportView.picked_deleted,
    name_read, try_catch, bind, newDate, read_tz, select, throw,
    promise_all3, ret, data_or_empty.
  simpl.
  destruct (net w (reqs w)) eqn:F0; simpl; try reflexivity.
  destruct (net w (S (reqs w))) eqn:F1; simpl; try reflexivity;
    destruct (net w (S (S (reqs w)))) eqn:F2; simpl; try reflexivity;
    destruct (net w (S (S (S (reqs w))))) eqn:F3; simpl; try reflexivity;
    destruct (net w (S (S (S (S (reqs w)))))) eqn:F4; simpl;
    reflexivity.
Qed.

Lemma window_is_local_day (zone day t : Z) :
  (- ms_per_day < zone < ms_per_day)%Z ->
  in_window (start_of_day zone (ReportView.date_instant day))
            (end_of_day (start_of_day zone (ReportView.date_instant day))) t
  = (ReportView.local_day zone t =? ReportView.day_read zone day)%Z.
Proof.
  unfold in_window, start_of_day, end_of_day, ReportView.date_instant,
    ReportView.local_day, ReportView.day_read, ms_per_day.
  intros Hz.
  assert (Hq : ((day * 86400000 + zone) / 86400000
                = if (zone <? 0) then day - 1 else day)%Z).
  { destruct (Z.ltb_spec zone 0).
    - replace (day * 86400000 + zone)%Z
        with ((zone + 86400000) + (day - 1) * 86400000)%Z by lia.
      rewrite Z.div_add by lia. rewrite Z.div_small by lia. lia.
    - rewrite Z.add_comm, Z.div_add by lia.
      rewrite Z.div_small by lia. lia. }
  rewrite Hq. set (d := (if (zone <? 0)%Z then (day - 1)%Z else day)).
  pose proof (Z.div_mod (t + zone) 86400000 ltac:(lia)) as Hdm.
  pose proof (Z.mod_pos_bound (t + zone) 86400000 ltac:(lia)) as Hb.
  destruct (Z.eqb_spec ((t + zone) / 86400000) d) as [E|E].
  - rewrite andb_true_iff, !Z.leb_le. rewrite E in Hdm. lia.
  - apply andb_false_iff. rewrite !Z.leb_gt.
    assert (Hc : ((t + zone) / 86400000 < d \/ d < (t + zone) / 86400000)%Z)
      by lia.
    destruct Hc; [left | right]; nia.
Qed.


(** Which day a fetch reads.  In a zone less than a day from UTC, a fetch
    that does not fail counts the tasks updated, and the regular tasks
    deleted, on one local calendar day: the selected day in a zone at or
    east of UTC, the day before the selected one in a zone west of UTC.
    The report still carries the selected date. *)
Theorem fetchReport_day_read (day : Z) (st st' : ReportView.ViewState)
    (w : World) :
  (- ms_per_day < tz w < ms_per_day)%Z ->
  ReportView.fetch_fails w = false ->
  fst (ReportView.fetchReport day st w) = Ok st' ->
  let on_day := fun t =>
    (ReportView.local_day (tz w) t =? ReportView.day_read (tz w) day)%Z in
  exists d,
    ReportView.report st' = Some d /\
    ReportView.date d = iso_date (ReportView.date_instant day) /\
    ReportView.totalTasks d =
      count (fun t => on_day (task_updated_at t)) (tasks w) /\
    ReportView.completedTasks d =
      count (fun t => on_day (task_updated_at t)
                      && String.eqb (task_status t) "completed") (tasks w) /\
    (net w (1 + reqs w) = NoFault ->
     ReportView.deletedTasks d =
       count (fun r => String.eqb (del_task_type r) "regular"
                       && on_day (del_deleted_at r)) (deleted_tasks w)).
Proof.
  intros Hz Hok Hrun on_day.
  rewrite fetchReport_run, Hok in Hrun. injection Hrun as <-.
  eexists. split; [reflexivity|]. cbn.
  split; [reflexivity|].
  unfold ReportView.picked, ReportView.picked_deleted. cbv zeta.
  split; [|split].
  - apply count_ext. intros t. now apply window_is_local_day.
  - change (List.length (filter is_completed ?l)) with (count is_completed l).
    rewrite count_filter. apply count_ext. intros t.
    now rewrite window_is_local_day by exact Hz.
  - intros ->. apply count_ext. intros r.
    now rewrite window_is_local_day by exact Hz.
Qed.

Lemma fetchReport_day_read_witness :
  let w := ReportView.west_world in
  let st' := match fst (ReportView.fetchReport 20106 ReportView.empty_view w)
             with Ok s => s | Throw _ => ReportView.empty_view end in
  let on_day := fun t =>
    (ReportView.local_day (tz w) t =? ReportView.day_read (tz w) 20106)%Z in
  exists d,
    ReportView.report st' = Some d /\
    ReportView.date d = iso_date (ReportView.date_instant 20106) /\
    ReportView.totalTasks d =
      count (fun t => on_day (task_updated_at t)) (tasks w) /\
    ReportView.completedTasks d =
      count (fun t => on_day (task_updated_at t)
                      && String.eqb (task_status t) "completed") (tasks w) /\
    (net w (1 + reqs w) = NoFault ->
     ReportView.deletedTasks d =
       count (fun r => String.eqb (del_task_type r) "regular"
                       && on_day (del_deleted_at r)) (deleted_tasks w)).
Proof.
  apply (fetchReport_day_read 20106 ReportView.empty_view
           (match fst (ReportView.fetchReport 20106 ReportView.empty_view
                         ReportView.west_world)
            with Ok s => s | Throw _ => ReportView.empty_view end)
           ReportView.west_world).
  - vm_compute. split; reflexivity.
  - vm_compute. reflexivity.
  - vm_compute. reflexivity.
Defined.

(** In a zone 5 h west of UTC, the page opened for 2025-01-18 shows the
    task updated on the evening of the 17th and not the one updated on the
    morning of the 18th. *)
Example fetchReport_west :
  exists st', fst (ReportView.fetchReport 20106 ReportView.empty_view
                     ReportView.west_world) = Ok st' /\
  exists d, ReportView.report st' = Some d /\
            ReportView.date d = "2025-01-18" /\
            ReportView.totalTasks d = 1 /\
            map ReportView.Stats.userId (ReportView.userBreakdown d) = ["carol"].
Proof.
  eexists. split; [vm_compute; reflexivity|].
  eexists. split; [reflexivity|]. vm_compute. repeat split.
Qed.

(** *** The page against the report service *)

Lemma map_get_over {V W} (f : V -> W) (k : string) (m : JsMap V) :
  map_get k (ReportView.map_over f m) = option_map f (map_get k m).
Proof.
  induction m as [|[k' v] m IH]; simpl; [reflexivity|].
  now destruct (String.eqb k' k).
Qed.

Lemma map_has_over {V W} (f : V -> W) (k : string) (m : JsMap V) :
  map_has k (ReportView.map_over f m) = map_has k m.
Proof. unfold map_has. rewrite map_get_over. now destruct (map_get k m). Qed.

Lemma map_set_over {V W} (f : V -> W) (k : string) (v : V) (m : JsMap V) :
  map_set k (f v) (ReportView.map_over f m) =
  ReportView.map_over f (map_set k v m).
Proof.
  induction m as [|[k' v'] m IH]; simpl; [reflexivity|].
  destruct (String.eqb k' k); simpl; [reflexivity|]. now rewrite IH.
Qed.

Lemma map_values_over {V W} (f : V -> W) (m : JsMap V) :
  map_values (ReportView.map_over f m) = map f (map_values m).
Proof.
  unfold map_values, ReportView.map_over. rewrite !map_map. reflexivity.
Qed.

Lemma fold_name_map (users : list UserRow) (m : JsMap UserData) :
  fold_left (fun m u => map_set (user_id u) (user_name u) m) users
            (ReportView.map_over ud_name m) =
  ReportView.map_over ud_name
    (fold_left (fun m user => map_set (user_id user)
                                (mkUserData (user_name user)
                                            (user_email user)) m)
               users m).
Proof.
  revert m. induction users as [|u users IH]; intros m; simpl;
    [reflexivity|].
  rewrite <- IH. f_equal.
  apply (map_set_over ud_name (user_id u)
           (mkUserData (user_name u) (user_email u))).
Qed.

Lemma build_name_map_over (users : list UserRow) :
  ReportView.build_name_map users =
  ReportView.map_over ud_name (build_user_map users).
Proof. apply (fold_name_map users []). Qed.

Lemma new_entry_view (userMap : JsMap UserData) (userId : string) :
  ReportView.new_entry (ReportView.map_over ud_name userMap) userId =
  ReportView.view_entry (new_entry userMap userId).
Proof.
  unfold ReportView.new_entry, ReportView.name_or_unknown, new_entry,
    ReportView.view_entry.
  rewrite map_get_over. now destruct (map_get userId userMap).
Qed.

Lemma record_task_view (now : Z) (t : Task) (s : ByUser.t) :
  ReportView.record_task now t (ReportView.view_entry s) =
  ReportView.view_entry (record_task now t s).
Proof.
  unfold ReportView.record_task, record_task, ReportView.view_entry.
  now destruct (is_completed t).
Qed.

Lemma tally_view (now : Z) (userMap : JsMap UserData)
    (bd : JsMap ByUser.t) (t : Task) :
  ReportView.tally now (ReportView.map_over ud_name userMap)
    (ReportView.map_over ReportView.view_entry bd) t =
  ReportView.map_over ReportView.view_entry (tally now userMap bd t).
Proof.
  unfold ReportView.tally, tally. cbv zeta.
  rewrite map_has_over.
  destruct (map_has (task_user_id t) bd).
  - rewrite map_get_over.
    destruct (map_get (task_user_id t) bd); simpl; [|reflexivity].
    now rewrite record_task_view, map_set_over.
  - rewrite new_entry_view, map_set_over, map_get_over.
    destruct (map_get (task_user_id t) (map_set _ _ bd)); simpl;
      [|reflexivity].
    now rewrite record_task_view, map_set_over.
Qed.

Lemma fold_tally_view (now : Z) (userMap : JsMap UserData)
    (ts : list Task) (bd : JsMap ByUser.t) :
  fold_left (ReportView.tally now (ReportView.map_over ud_name userMap)) ts
            (ReportView.map_over ReportView.view_entry bd) =
  ReportView.map_over ReportView.view_entry
    (fold_left (tally now userMap) ts bd).
Proof.
  revert bd. induction ts as [|t ts IH]; intros bd; simpl; [reflexivity|].
  now rewrite tally_view, IH.
Qed.

Lemma insert_view_entry (x : ByUser.t) (l : list ByUser.t) :
  ReportView.insert_by_completed (ReportView.view_entry x)
    (map ReportView.view_entry l) =
  map ReportView.view_entry (insert_by_completed x l).
Proof.
  induction l as [|y l IH]; simpl; [reflexivity|].
  destruct (ByUser.completed x <? ByUser.completed y)%nat; simpl;
    [now rewrite IH | reflexivity].
Qed.

Lemma sort_view_entry (l : list ByUser.t) :
  ReportView.sort_by_completed (map ReportView.view_entry l) =
  map ReportView.view_entry (sort_by_completed l).
Proof.
  unfold ReportView.sort_by_completed, sort_by_completed.
  induction l as [|x l IH]; simpl; [reflexivity|].
  rewrite IH. apply insert_view_entry.
Qed.

Lemma generateDailyReport_ok_reads (w w' : World)
    (r : DailyPerformanceReport) :
  generateDailyReport w = (Ok r, w') -> ReportView.fetch_fails w = false.
Proof.
  unfold generateDailyReport, ReportView.fetch_fails, ReportView.rejects,
    try_catch, bind, newDate, read_tz, select, throw, promise_all3, ret.
  simpl. intros H.
  destruct (net w (reqs w)) eqn:F0; simpl in H; try discriminate.
  destruct (net w (S (reqs w))) eqn:F1; simpl in H; try discriminate;
    destruct (net w (S (S (reqs w)))) eqn:F2; simpl in H;
    destruct (net w (S (S (S (reqs w))))) eqn:F3; simpl in H;
    destruct (net w (S (S (S (S (reqs w)))))) eqn:F4; simpl in H;
    try discriminate; reflexivity.
Qed.

Lemma same_store_reads (day : Z) (wv ws : World) :
  ReportView.same_store wv ws ->
  start_of_day (tz ws) (ReportView.date_instant day) = today_of ws ->
  ReportView.fetch_fails wv = ReportView.fetch_fails ws /\
  ReportView.picked day wv = updated_today ws /\
  ReportView.named day wv = named_users ws /\
  match net wv (S (reqs wv)) with
  | NoFault => List.length (ReportView.picked_deleted day wv)
  | _ => 0
  end =
  match net ws (S (reqs ws)) with
  | NoFault => List.length (deleted_today ws)
  | _ => 0
  end.
Proof.
  intros (Ht & Hd & Hm & Ha & Hp & Hz & Hn) Hday.
  simpl in Hn. injection Hn as N0 N1 N2 N3 N4.
  assert (Hpick : ReportView.picked day wv = updated_today ws).
  { unfold ReportView.picked, updated_today. now rewrite Ht, Hz, Hday. }
  split; [|split; [exact Hpick|split]].
  - unfold ReportView.fetch_fails, ReportView.rejects. simpl.
    now rewrite N0, N1, N2, N3, N4.
  - unfold ReportView.named, named_users, name_read. simpl.
    now rewrite Hpick, N2, N3, N4, Hm, Ha, Hp.
  - rewrite N1. unfold ReportView.picked_deleted, deleted_today.
    now rewrite Hd, Hz, Hday.
Qed.

(** The page and the service agree on the figures.  Take a run of
    generateDailyReport that returns a report, and a fetch of the page
    against the same tables, zone and network answers, for the day whose
    window is the run's and at the instant of the run's second clock
    reading.  The fetch does not fail and shows the same five overall
    figures; its breakdown is the service's per-user list in the order in
    which formatReportMessage ranks it (most completed first, ties in
    the service's order), each entry without the email and with an empty
    name replaced by 'Unknown'. *)
Theorem fetchReport_matches_service (day : Z) (st : ReportView.ViewState)
    (wv ws ws' : World) (r : DailyPerformanceReport) :
  ReportView.same_store wv ws ->
  start_of_day (tz ws) (ReportView.date_instant day) = today_of ws ->
  clock wv (ticks wv) = report_now ws ->
  generateDailyReport ws = (Ok r, ws') ->
  exists st' d,
    fst (ReportView.fetchReport day st wv) = Ok st' /\
    ReportView.report st' = Some d /\
    ReportView.toasts st' = ReportView.toasts st /\
    ReportView.totalTasks d = totalTasks r /\
    ReportView.completedTasks d = completedTasks r /\
    ReportView.pendingTasks d = pendingTasks r /\
    ReportView.blockedTasks d = blockedTasks r /\
    ReportView.deletedTasks d = deletedTasks r /\
    ReportView.userBreakdown d =
      map ReportView.view_entry (sort_by_completed (byUser r)).
Proof.
  intros Hsame Hday Hnow Hrun.
  destruct (same_store_reads day wv ws Hsame Hday)
    as (Hfail & Hpick & Hnamed & Hdel).
  pose proof (generateDailyReport_ok_reads _ _ _ Hrun) as Hok.
  pose proof (generateDailyReport_ok_names _ _ _ Hrun) as [_ Hby].
  apply generateDailyReport_ok in Hrun as (_ & um & Hr & _).
  rewrite fetchReport_run, Hfail, Hok. cbv zeta.
  do 2 eexists. split; [reflexivity|]. cbn.
  split; [reflexivity|]. split; [reflexivity|].
  rewrite Hby, Hpick, Hnamed, Hnow, Hdel, Hr. cbn.
  repeat split.
  rewrite build_name_map_over.
  change (@nil (string * ReportView.Stats.t))
    with (ReportView.map_over ReportView.view_entry []).
  now rewrite fold_tally_view, map_values_over, sort_view_entry.
Qed.

Lemma fetchReport_matches_service_witness :
  let ws := sample_world no_faults in
  let wv := advance 1 0 ws in
  exists st' d,
    fst (ReportView.fetchReport 20106 ReportView.empty_view wv) = Ok st' /\
    ReportView.report st' = Some d /\
    ReportView.toasts st' = ReportView.toasts ReportView.empty_view /\
    ReportView.totalTasks d = totalTasks sample_report /\
    ReportView.completedTasks d = completedTasks sample_report /\
    ReportView.pendingTasks d = pendingTasks sample_report /\
    ReportView.blockedTasks d = blockedTasks sample_report /\
    ReportView.deletedTasks d = deletedTasks sample_report /\
    ReportView.userBreakdown d =
      map ReportView.view_entry (sort_by_completed (byUser sample_report)).
Proof.
  apply (fetchReport_matches_service 20106 ReportView.empty_view
           (advance 1 0 (sample_world no_faults))
           (sample_world no_faults)
           (snd (generateDailyReport (sample_world no_faults)))
           sample_report).
  - vm_compute. repeat split.
  - vm_compute. reflexivity.
  - vm_compute. reflexivity.
  - vm_compute. reflexivity.
Defined.

(** The two reports of one day carry different dates.  In a zone less
    than a day from UTC and other than UTC itself, when the page is
    opened for the day whose window is that of a run of the service, the
    service's report is dated the day before the date the page's report
    carries; in UTC both carry the same date. *)
Theorem fetchReport_date_label (day : Z) (st st' : ReportView.ViewState)
    (d : ReportView.DailyReportData) (wv ws ws' : World)
    (r : DailyPerformanceReport) :
  (- ms_per_day < tz ws < ms_per_day)%Z ->
  ReportView.same_store wv ws ->
  start_of_day (tz ws) (ReportView.date_instant day) = today_of ws ->
  generateDailyReport ws = (Ok r, ws') ->
  fst (ReportView.fetchReport day st wv) = Ok st' ->
  ReportView.report st' = Some d ->
  ReportView.date d = iso_date (ReportView.date_instant day) /\
  date r = iso_date (ReportView.date_instant
                       (if (tz ws =? 0)%Z then day else day - 1)).
Proof.
  intros Hz Hsame Hday Hrun Hfetch Hd.
  assert (Hday0 : start_of_day (tz ws) (ReportView.date_instant day)
                  = today_of ws) by exact Hday.
  destruct (same_store_reads day wv ws Hsame Hday) as (Hfail & _).
  pose proof (generateDailyReport_ok_reads _ _ _ Hrun) as Hok.
  pose proof (generateDailyReport_ok_names _ _ _ Hrun) as [Hdate _].
  rewrite fetchReport_run, Hfail, Hok in Hfetch. cbv zeta in Hfetch.
  injection Hfetch as <-. cbn in Hd. injection Hd as <-. cbn.
  split; [reflexivity|].
  rewrite Hdate, <- Hday0. apply iso_date_same_day.
  unfold start_of_day, ReportView.date_instant, ms_per_day in *.
  destruct (Z.eqb_spec (tz ws) 0) as [E|E].
  - rewrite E, Z.add_0_r, Z.sub_0_r, Z.div_mul by lia. reflexivity.
  - assert (Hq : ((day * 86400000 + tz ws) / 86400000
                  = if (tz ws <? 0) then day - 1 else day)%Z).
    { destruct (Z.ltb_spec (tz ws) 0).
      - replace (day * 86400000 + tz ws)%Z
          with ((tz ws + 86400000) + (day - 1) * 86400000)%Z by lia.
        rewrite Z.div_add by lia. rewrite Z.div_small by lia. lia.
      - rewrite Z.add_comm, Z.div_add by lia.
        rewrite Z.div_small by lia. lia. }
    rewrite Hq. rewrite Z.div_mul by lia.
    destruct (Z.ltb_spec (tz ws) 0).
    + replace ((day - 1) * 86400000 - tz ws)%Z
        with (- tz ws + (day - 1) * 86400000)%Z by lia.
      rewrite Z.div_add by lia. rewrite Z.div_small by lia. lia.
    + replace (day * 86400000 - tz ws)%Z
        with ((86400000 - tz ws) + (day - 1) * 86400000)%Z by lia.
      rewrite Z.div_add by lia. rewrite Z.div_small by lia. lia.
Qed.

Lemma fetchReport_date_label_witness :
  let ws := east_world in
  let wv := advance 1 0 ws in
  let st' := match fst (ReportView.fetchReport 20106 ReportView.empty_view wv)
             with Ok s => s | Throw _ => ReportView.empty_view end in
  let d := match ReportView.report st' with
           | Some d => d
           | None => ReportView.mkDailyReportData "" 0 0 0 0 0 []
           end in
  let r := match fst (generateDailyReport ws) with
           | Ok r => r
           | Throw _ => sample_report
           end in
  ReportView.date d = iso_date (ReportView.date_instant 20106) /\
  date r = iso_date (ReportView.date_instant
                       (if (tz ws =? 0)%Z then 20106 else 20106 - 1)).
Proof.
  apply (fetchReport_date_label 20106 ReportView.empty_view
           (match fst (ReportView.fetchReport 20106 ReportView.empty_view
                         (advance 1 0 east_world))
            with Ok s => s | Throw _ => ReportView.empty_view end)
           (match ReportView.report
                    (match fst (ReportView.fetchReport 20106
                                  ReportView.empty_view
                                  (advance 1 0 east_world))
                     with Ok s => s | Throw _ => ReportView.empty_view end)
            with
            | Some d => d
            | None => ReportView.mkDailyReportData "" 0 0 0 0 0 []
            end)
           (advance 1 0 east_world) east_world
           (snd (generateDailyReport east_world))).
  - vm_compute. split; reflexivity.
  - vm_compute. repeat split.
  - vm_compute. reflexivity.
  - vm_compute. reflexivity.
  - vm_compute. reflexivity.
  - vm_compute. reflexivity.
Defined.

(** At 10:00 on 2025-01-18 in a zone 5 h 30 min east of UTC the page's
    report of the day is dated 2025-01-18 and the service's 2025-01-17. *)
Example fetchReport_date_label_east :
  exists st' d r,
    fst (ReportView.fetchReport 20106 ReportView.empty_view
           (advance 1 0 east_world)) = Ok st' /\
    ReportView.report st' = Some d /\
    fst (generateDailyReport east_world) = Ok r /\
    ReportView.date d = "2025-01-18" /\ date r = "2025-01-17" /\
    ReportView.totalTasks d = totalTasks r.
Proof.
  do 3 eexists. split; [vm_compute; reflexivity|].
  split; [reflexivity|]. split; [vm_compute; reflexivity|].
  vm_compute. repeat split.
Qed.

End ReportViewProps.

(** ** The two senders of the daily digest *)

Module FanoutVsSql.




End FanoutVsSql.
